(** * SentimentDisaster: crawl adapters and location resolution

    A shallow embedding of the parts of the repository that harvest
    disaster news and resolve a coordinate for every article:

    - [location_extractor.py]   ([Module LocationExtractor]),
    - [preciselocation.py]      ([Module PreciseLocation]),
    - [news_scraper/spiders/CNN.py]       ([Module CNN]),
    - [news_scraper/spiders/Mongabay.py]  ([Module Mongabay]),

    and of the scripts that prepare and map the data:

    - [random_forest/main_rf_pipeline.py] ([Module RfPipeline]),
    - [regex.py]    ([Module RegexPy]),
    - [geocode.py]  ([Module GeocodePy]),
    - [kepler.py]   ([Module KeplerPy]).

    Text is modelled as [string], a sequence of 8-bit characters.  The
    Python string methods below follow CPython on ASCII text; a character
    above 127 is an uncased, non-blank symbol here.  Floats are the
    kernel's binary64 numbers, the type Python's [float] has.  What lives
    outside the repository (the NER model, the geocoder, the HTML parser,
    the date helpers of [news_scraper.utils], the iteration order of a
    Python [set]) is a [Variable] of the section that uses it. *)

From Stdlib Require Import Floats ZArith Ascii String List Lia Permutation Sorted.
From Stdlib Require Import DecimalString.
From stdpp Require Import gmap strings list fin_maps.

Set Warnings "-register-all,-clear-no-such-hyp".

(* ===================================================================== *)
(** * Python values: exceptions and strings                                *)
(* ===================================================================== *)

(** A computation that either returns or raises [Exception(msg)]. *)
Inductive py (A : Type) : Type :=
  | Ok (a : A)
  | Raise (msg : string).
Arguments Ok {A} a.
Arguments Raise {A} msg.

(** [py] is a monad in stdpp's sense: [x ← m; k] runs [k] when [m]
    returns and propagates what [m] raises. *)
Global Instance py_ret : MRet py := fun A a => Ok a.
Global Instance py_bind : MBind py := fun A B k m =>
  match m with
  | Ok a => k a
  | Raise e => Raise e
  end.

Module PyStr.

Definition ord (c : ascii) : nat := nat_of_ascii c.

(** [str.isspace] on one character: TAB, LF, VT, FF, CR, the four
    separators 0x1c-0x1f and the blank. *)
Definition isspace (c : ascii) : bool :=
  let n := ord c in
  (Nat.leb 9 n && Nat.leb n 13) || (Nat.leb 28 n && Nat.leb n 32).

Definition isupper (c : ascii) : bool :=
  let n := ord c in Nat.leb 65 n && Nat.leb n 90.

Definition islower (c : ascii) : bool :=
  let n := ord c in Nat.leb 97 n && Nat.leb n 122.

Definition isalpha (c : ascii) : bool := isupper c || islower c.

Definition isdigit (c : ascii) : bool :=
  let n := ord c in Nat.leb 48 n && Nat.leb n 57.

Definition lower_char (c : ascii) : ascii :=
  if isupper c then ascii_of_nat (ord c + 32) else c.

Definition upper_char (c : ascii) : ascii :=
  if islower c then ascii_of_nat (ord c - 32) else c.

(** [bool(s)]: a string is truthy when it is not empty. *)
Definition truthy (s : string) : bool :=
  match s with EmptyString => false | String _ _ => true end.

Fixpoint lower (s : string) : string :=
  match s with
  | EmptyString => EmptyString
  | String c r => String (lower_char c) (lower r)
  end.

Fixpoint lstrip (s : string) : string :=
  match s with
  | EmptyString => EmptyString
  | String c r => if isspace c then lstrip r else s
  end.

Fixpoint rstrip (s : string) : string :=
  match s with
  | EmptyString => EmptyString
  | String c r =>
      let r' := rstrip r in
      if isspace c && negb (truthy r') then EmptyString else String c r'
  end.

(** [s.strip()] *)
Definition strip (s : string) : string := rstrip (lstrip s).

(** [s.title()]: a cased character is upper-cased when the character
    before it is uncased (or there is none) and lower-cased otherwise. *)
Fixpoint title_from (prev_cased : bool) (s : string) : string :=
  match s with
  | EmptyString => EmptyString
  | String c r =>
      if isalpha c
      then String (if prev_cased then lower_char c else upper_char c)
                  (title_from true r)
      else String c (title_from false r)
  end.

Definition title (s : string) : string := title_from false s.

(** [s.split()]: the maximal runs of non-blank characters. *)
Fixpoint split_from (cur : string) (s : string) : list string :=
  match s with
  | EmptyString => if truthy cur then [cur] else []
  | String c r =>
      if isspace c
      then (if truthy cur then cur :: split_from EmptyString r
            else split_from EmptyString r)
      else split_from (cur +:+ String c EmptyString) r
  end.

Definition split (s : string) : list string := split_from EmptyString s.

(** [s.split(sep)] for a one-character separator: every occurrence
    cuts, empty pieces are kept. *)
Fixpoint split_on_from (sep : ascii) (cur : string) (s : string) : list string :=
  match s with
  | EmptyString => [cur]
  | String c r =>
      if Ascii.eqb c sep
      then cur :: split_on_from sep EmptyString r
      else split_on_from sep (cur +:+ String c EmptyString) r
  end.

Definition split_on (sep : ascii) (s : string) : list string :=
  split_on_from sep EmptyString s.

(** [s.replace(c, "")] for a one-character [c]. *)
Fixpoint remove_char (x : ascii) (s : string) : string :=
  match s with
  | EmptyString => EmptyString
  | String c r => if Ascii.eqb c x then remove_char x r else String c (remove_char x r)
  end.

(** [s.startswith(p)] *)
Fixpoint startswith (p s : string) : bool :=
  match p, s with
  | EmptyString, _ => true
  | String _ _, EmptyString => false
  | String a p', String b s' => Ascii.eqb a b && startswith p' s'
  end.

(** [sub in s] *)
Fixpoint contains (sub s : string) : bool :=
  startswith sub s ||
  match s with
  | EmptyString => false
  | String _ r => contains sub r
  end.

(** [str(n)] for an integer. *)
Definition of_Z (n : Z) : string := NilZero.string_of_int (Z.to_int n).

(** [xs.count(x)] *)
Definition count (x : string) (xs : list string) : nat :=
  length (List.filter (fun y => String.eqb x y) xs).

End PyStr.

(* ===================================================================== *)
(** * location_extractor.py                                               *)
(* ===================================================================== *)

Module LocationExtractor.

(** The fragment of [re] the nine [LOCATION_PATTERNS] are written in: a
    literal word, one character of a class, one or more characters of a
    class. *)
Inductive cls : Type :=
  | Space          (* \s *)
  | Upper          (* [A-Z] *)
  | Lower          (* [a-z] *)
  | NotSpaceComma. (* [^\s,] *)

Inductive atom : Type :=
  | Lit (w : string)
  | One (k : cls)
  | Plus (k : cls).

Definition regex : Type := list atom.

(** [kw\s+[A-Z][a-z]+] *)
Definition unit_pattern (kw : string) : regex :=
  [Lit kw; Plus Space; One Upper; Plus Lower].

Definition LOCATION_PATTERNS : list regex :=
  [ unit_pattern "desa";
    unit_pattern "kelurahan";
    unit_pattern "kecamatan";
    unit_pattern "kabupaten";
    unit_pattern "kota";
    [Lit "jalan"; Plus Space; One Upper; Plus NotSpaceComma];
    unit_pattern "gunung";
    unit_pattern "bukit";
    unit_pattern "tukad" ].

(** Does character [c] belong to class [k]?  Under [re.IGNORECASE]
    (flag [ic]) a letter class holds every letter. *)
Definition cls_match (ic : bool) (k : cls) (c : ascii) : bool :=
  match k with
  | Space => PyStr.isspace c
  | Upper => if ic then PyStr.isalpha c else PyStr.isupper c
  | Lower => if ic then PyStr.isalpha c else PyStr.islower c
  | NotSpaceComma => negb (PyStr.isspace c) && negb (Ascii.eqb c ",")
  end.

Definition char_eq (ic : bool) (a b : ascii) : bool :=
  if ic then Ascii.eqb (PyStr.lower_char a) (PyStr.lower_char b)
  else Ascii.eqb a b.

(** Match the literal [w] at the head of [s]: the text it matched and
    what follows. *)
Fixpoint match_lit (ic : bool) (w s : string) : option (string * string) :=
  match w, s with
  | EmptyString, _ => Some (EmptyString, s)
  | String _ _, EmptyString => None
  | String a w', String b s' =>
      if char_eq ic a b
      then match match_lit ic w' s' with
           | Some (m, rest) => Some (String b m, rest)
           | None => None
           end
      else None
  end.

(** The longest head of [s] in class [k], and what follows. *)
Fixpoint span (ic : bool) (k : cls) (s : string) : string * string :=
  match s with
  | EmptyString => (EmptyString, EmptyString)
  | String c r =>
      if cls_match ic k c
      then let '(m, rest) := span ic k r in (String c m, rest)
      else (EmptyString, s)
  end.

(** Match a pattern at the head of [s].  Each [Plus] is greedy and never
    gives characters back: in the nine patterns a repeated class is
    either last or followed by a class disjoint from it, so the
    backtracking matcher of [re] finds this match or none. *)
Fixpoint match_here (ic : bool) (p : regex) (s : string) : option (string * string) :=
  match p with
  | [] => Some (EmptyString, s)
  | a :: p' =>
      let step :=
        match a with
        | Lit w => match_lit ic w s
        | One k =>
            match s with
            | String c r => if cls_match ic k c then Some (String c EmptyString, r) else None
            | EmptyString => None
            end
        | Plus k =>
            let '(m, rest) := span ic k s in
            if PyStr.truthy m then Some (m, rest) else None
        end in
      match step with
      | Some (m, rest) =>
          match match_here ic p' rest with
          | Some (m', rest') => Some (m +:+ m', rest')
          | None => None
          end
      | None => None
      end
  end.

(** [pat.findall(text)]: leftmost matches, scanning on after each one.
    [skip] counts the characters of the last match still to pass. *)
Fixpoint findall_from (ic : bool) (p : regex) (skip : nat) (s : string) : list string :=
  match s with
  | EmptyString => []
  | String _ r =>
      match skip with
      | S k => findall_from ic p k r
      | O =>
          match match_here ic p s with
          | Some (m, _) => m :: findall_from ic p (Nat.pred (String.length m)) r
          | None => findall_from ic p O r
          end
      end
  end.

(** [re.compile(p, re.IGNORECASE).findall(text)] *)
Definition findall (p : regex) (text : string) : list string :=
  findall_from true p O text.

(** One entity of [doc.ents]. *)
Record entity : Type := { ent_text : string; label_ : string }.

Definition is_place (e : entity) : bool :=
  String.eqb (label_ e) "LOC" || String.eqb (label_ e) "GPE".

(** [sorted(xs, key=key, reverse=True)]: the stable sort by decreasing
    key, written as insertion from the right. *)
Fixpoint insert_desc {A} (key : A -> nat) (x : A) (xs : list A) : list A :=
  match xs with
  | [] => [x]
  | y :: ys => if Nat.ltb (key x) (key y) then y :: insert_desc key x ys else x :: xs
  end.

Definition sorted_desc {A} (key : A -> nat) (xs : list A) : list A :=
  foldr (insert_desc key) [] xs.

Section Extract.
(** [nlp(text).ents] of the spaCy model, which may raise. *)
Variable nlp : string -> py (list entity).
(** [list(set(xs))]: the order in which CPython iterates over the set
    built from [xs]; it depends on the (per-process, salted) hashes. *)
Variable set_order : list string -> list string.

Definition rule_based (text : string) : list string :=
  foldl (fun locations pat => locations ++ findall pat text) [] LOCATION_PATTERNS.

Definition normalize (loc : string) : string := PyStr.title (PyStr.strip loc).

Definition rank (cleaned : list string) : list string :=
  sorted_desc (fun x => PyStr.count x cleaned) (set_order cleaned).

Definition extract_locations (text : string) : py (list string) :=
  let locations := rule_based text in
  ents ← nlp text;
  let locations := locations ++ map ent_text (List.filter is_place ents) in
  let cleaned := map normalize locations in
  mret (rank cleaned).
End Extract.

(** The order a [dict] (or a list scan) would give: first appearance. *)
Fixpoint first_seen (xs : list string) : list string :=
  match xs with
  | [] => []
  | x :: r => x :: filter (fun y => y <> x) (first_seen r)
  end.

End LocationExtractor.

(* ===================================================================== *)
(** * preciselocation.py                                                  *)
(* ===================================================================== *)

Module PreciseLocation.

(** What [json.load] produces. *)
Inductive json : Type :=
  | JNull
  | JBool (b : bool)
  | JInt (n : Z)
  | JFloat (f : float)
  | JStr (s : string)
  | JArr (xs : list json)
  | JObj (kvs : list (string * json)).

(** [bool(v)] *)
Definition json_truthy (v : json) : bool :=
  match v with
  | JNull => false
  | JBool b => b
  | JInt n => negb (Z.eqb n 0)
  | JFloat f => negb (PrimFloat.eqb f 0%float)
  | JStr s => PyStr.truthy s
  | JArr xs => match xs with [] => false | _ => true end
  | JObj kvs => match kvs with [] => false | _ => true end
  end.

(** [type(v).__name__] *)
Definition type_name (v : json) : string :=
  match v with
  | JNull => "NoneType"
  | JBool _ => "bool"
  | JInt _ => "int"
  | JFloat _ => "float"
  | JStr _ => "str"
  | JArr _ => "list"
  | JObj _ => "dict"
  end.

(** [a or b] *)
Definition json_or (a b : json) : json := if json_truthy a then a else b.

(** [d.get(k)]: [None] for a missing key. *)
Definition get (d : gmap string json) (k : string) : json :=
  default JNull (d !! k).

(** One GeoJSON feature whose [properties] member is an object, or is
    missing (the loop then works on a fresh [{}]), and its [geometry],
    possibly missing.  [feature_json] below covers the features whose
    [properties] member is any other value. *)
Record geo_feature : Type := {
  properties : option (gmap string json);
  geometry : option json
}.

(** An element of [features] as [json.load] gives it: an object whose
    [properties] member, when it is there, may be any JSON value; GeoJSON
    writes [null] for a feature without properties. *)
Record feature_json : Type := {
  json_properties : option json;
  json_geometry : option json
}.

(** The [dict] that [json.load] builds for an object: a later member
    replaces an earlier one of the same name. *)
Definition dict_of (kvs : list (string * json)) : gmap string json :=
  foldl (fun d kv => <[ kv.1 := kv.2 ]> d) ∅ kvs.

(** [props["refine_error"] = ...] on a value that is not a [dict]: the
    message of the [TypeError]. *)
Definition item_assignment_error (v : json) : string :=
  match v with
  | JArr _ => "list indices must be integers or slices, not str"
  | _ => "'" +:+ type_name v +:+ "' object does not support item assignment"
  end.

(** A value of [geocode_cache]: [(lat, lon, display_name)], all [None]
    for a remembered miss. *)
Definition entry : Type := option float * option float * option string.
Definition miss : entry := (None, None, None).

(** What the rate-limited geocoder answers. *)
Inductive geo_result : Type :=
  | Located (latitude longitude : float) (address : string)
  | NoResult
  | GeoRaise.

(** The module-level variables the loop updates.  [calls] is not in the
    source: it records, oldest first, every string handed to
    [rate_limited_geocode]. *)
Record state : Type := {
  geocode_cache : gmap string entry;
  tried_queries : gset string;
  updated : nat;
  skipped : nat;
  errors : nat;
  csv_rows : list (gmap string json);
  calls : list string
}.

Definition initial_state : state :=
  {| geocode_cache := ∅; tried_queries := ∅;
     updated := 0; skipped := 0; errors := 0; csv_rows := []; calls := [] |}.

Definition set_cache (st : state) (c : gmap string entry) (log : list string) : state :=
  {| geocode_cache := c; tried_queries := tried_queries st;
     updated := updated st; skipped := skipped st; errors := errors st;
     csv_rows := csv_rows st; calls := log |}.

Definition add_tried (st : state) (q : string) : state :=
  {| geocode_cache := geocode_cache st; tried_queries := {[ q ]} ∪ tried_queries st;
     updated := updated st; skipped := skipped st; errors := errors st;
     csv_rows := csv_rows st; calls := calls st |}.

(** The outcome of the query loop when a query gave a coordinate. *)
Record found : Type := {
  found_lat : float;
  found_lon : float;
  found_display : option string;
  used_query : string;
  used_source : string
}.

(** [bool(k)] for a string that may be [None]. *)
Definition truthy_opt (k : option string) : bool :=
  match k with Some s => PyStr.truthy s | None => false end.

(** [query_attempts], built by the four steps of the source. *)
Definition query_attempts (candidates : list string) (kabupaten : option string) : list string :=
  let query_attempts := [] in
  (* 1) each candidate with kabupaten context *)
  let query_attempts :=
    match kabupaten with
    | Some k =>
        if PyStr.truthy k
        then foldl (fun acc c => acc ++ [c +:+ ", " +:+ k +:+ ", Bali, Indonesia"])
                   query_attempts candidates
        else query_attempts
    | None => query_attempts
    end in
  (* 2) each candidate with Bali context only *)
  let query_attempts :=
    foldl (fun acc c => acc ++ [c +:+ ", Bali, Indonesia"]) query_attempts candidates in
  (* 3) kabupaten fallback *)
  let query_attempts :=
    match kabupaten with
    | Some k =>
        if PyStr.truthy k then query_attempts ++ [k +:+ ", Bali, Indonesia"]
        else query_attempts
    | None => query_attempts
    end in
  (* 4) last resort *)
  query_attempts ++ ["Bali, Indonesia"].

(** The [used_source] the loop assigns to a successful query [q]. *)
Definition source_of (candidates : list string) (kabupaten : option string)
    (q : string) : string :=
  if PyStr.contains "," q && existsb (fun c => PyStr.contains c q) candidates
  then "article_place"
  else if match kabupaten with
          | Some k => PyStr.truthy k && PyStr.contains k q
          | None => false
          end
  then "kabupaten_fallback"
  else "bali_fallback".

(** The candidate loop: strip, drop empties, keep the first of every
    lower-cased spelling. *)
Fixpoint unique_candidates (seen : gset string) (extracted : list string) : list string :=
  match extracted with
  | [] => []
  | ex :: rest =>
      let exs := PyStr.strip ex in
      if PyStr.truthy exs && negb (bool_decide (PyStr.lower exs ∈ seen))
      then exs :: unique_candidates ({[ PyStr.lower exs ]} ∪ seen) rest
      else unique_candidates seen rest
  end.

Section Refine.
(** [rate_limited_geocode(q)], given the calls made before it. *)
Variable geocoder : list string -> string -> geo_result.
(** [extract_locations] of [location_extractor.py]. *)
Variable extract_locations : string -> py (list string).
(** [str(v)] for a value that is not a string. *)
Variable repr : json -> string.

Definition str (v : json) : string :=
  match v with JStr s => s | _ => repr v end.

Definition geocode_cached (st : state) (query : string) : entry * state :=
  let q := PyStr.strip query in
  if negb (PyStr.truthy q) then (miss, st)
  else
    match geocode_cache st !! q with
    | Some e => (e, st)
    | None =>
        let log := calls st ++ [q] in
        match geocoder (calls st) q with
        | Located lat lon address =>
            let res : entry := (Some lat, Some lon, Some address) in
            (res, set_cache st (<[ q := res ]> (geocode_cache st)) log)
        | NoResult | GeoRaise =>
            (miss, set_cache st (<[ q := miss ]> (geocode_cache st)) log)
        end
    end.

(** One turn of [for q in query_attempts]: the lookup. *)
Definition lookup_query (st : state) (q : string) : entry * state :=
  match bool_decide (q ∈ tried_queries st), geocode_cache st !! q with
  | true, Some e => (e, st)
  | _, _ =>
      let '(e, st1) := geocode_cached st q in
      (e, add_tried st1 q)
  end.

Definition has_coordinate (e : entry) : bool :=
  match e with
  | (Some _, Some _, _) => true
  | _ => false
  end.

(** The query loop.  It returns what was found, if anything, and (not
    in the source) the queries it looked up, in order, each with the
    answer it got. *)
Fixpoint try_queries (candidates : list string) (kabupaten : option string)
    (st : state) (qs : list string)
    : option found * list (string * entry) * state :=
  match qs with
  | [] => (None, [], st)
  | q :: rest =>
      let '(e, st1) := lookup_query st q in
      match e with
      | (Some lat, Some lon, display) =>
          (Some {| found_lat := lat; found_lon := lon; found_display := display;
                   used_query := q;
                   used_source := source_of candidates kabupaten q |},
           [(q, e)], st1)
      | _ =>
          let '(r, tried, st2) := try_queries candidates kabupaten st1 rest in
          (r, (q, e) :: tried, st2)
      end
  end.

(** The kabupaten hint read from the properties. *)
Definition kabupaten_of (props : gmap string json) : option string :=
  let kabupaten :=
    if json_truthy (get props "location_name")
    then Some (PyStr.strip (str (get props "location_name")))
    else if json_truthy (get props "keyword")
    then match PyStr.split (PyStr.strip (str (get props "keyword"))) with
         | _ :: k :: _ => Some k
         | _ => None
         end
    else if json_truthy (get props "Location")
    then Some (PyStr.strip (str (get props "Location")))
    else None in
  match kabupaten with
  | Some k =>
      if PyStr.truthy k then Some (PyStr.strip (PyStr.remove_char "," k)) else None
  | None => None
  end.

(** The candidates extracted from the article text.  [cleaned.strip()]
    on a value that is not a string raises [AttributeError]; whatever
    the extractor raises is swallowed. *)
Definition candidates_of (cleaned : json) : py (list string) :=
  if json_truthy cleaned then
    match cleaned with
    | JStr text =>
        if PyStr.truthy (PyStr.strip text) then
          match extract_locations text with
          | Ok extracted => Ok (unique_candidates ∅ extracted)
          | Raise _ => Ok []
          end
        else Ok []
    | v => Raise ("'" +:+ type_name v +:+ "' object has no attribute 'strip'")
    end
  else Ok [].

(** [props.get("cleaned_content") or props.get("content") or ""] *)
Definition cleaned_of (props : gmap string json) : json :=
  json_or (get props "cleaned_content") (json_or (get props "content") (JStr "")).

Definition csv_row (props : gmap string json) (lat lon query source : json)
    : gmap string json :=
  <[ "refine_source" := source ]>
    (<[ "refined_location_query" := query ]>
       (<[ "refined_lon" := lon ]> (<[ "refined_lat" := lat ]> props))).

Definition point (lon lat : float) : json :=
  JObj [("type", JStr "Point"); ("coordinates", JArr [JFloat lon; JFloat lat])].

(** The body of the [try] for one feature.  The one statement that can
    raise comes before the first mutation, so a raise leaves the
    state as it was. *)
Definition refine (st : state) (feature : geo_feature) : py (geo_feature * state) :=
  let props := default ∅ (properties feature) in
  let cleaned := cleaned_of props in
  let kabupaten := kabupaten_of props in
  candidates ← candidates_of cleaned;
  let '(r, _, st1) :=
    try_queries candidates kabupaten st (query_attempts candidates kabupaten) in
  match r with
  | None =>
      let props := <[ "refine_status" := JStr "no_geocode_found" ]> props in
      let props := <[ "refined_location" := JNull ]> props in
      let props := <[ "refine_source" := JNull ]> props in
      mret ({| properties := Some props; geometry := geometry feature |},
            {| geocode_cache := geocode_cache st1; tried_queries := tried_queries st1;
               updated := updated st1; skipped := S (skipped st1); errors := errors st1;
               csv_rows := csv_rows st1 ++ [csv_row props JNull JNull JNull JNull];
               calls := calls st1 |})
  | Some f =>
      let props := <[ "refined_location_query" := JStr (used_query f) ]> props in
      let props :=
        <[ "refined_location" :=
             JStr (if truthy_opt (found_display f)
                   then default EmptyString (found_display f)
                   else used_query f) ]> props in
      let props := <[ "refine_source" := JStr (used_source f) ]> props in
      let props := <[ "latitude_refined" := JFloat (found_lat f) ]> props in
      let props := <[ "longitude_refined" := JFloat (found_lon f) ]> props in
      let geometry := Some (point (found_lon f) (found_lat f)) in
      let props := <[ "latitude" := JFloat (found_lat f) ]> props in
      let props := <[ "longitude" := JFloat (found_lon f) ]> props in
      mret ({| properties := Some props; geometry := geometry |},
            {| geocode_cache := geocode_cache st1; tried_queries := tried_queries st1;
               updated := S (updated st1); skipped := skipped st1; errors := errors st1;
               csv_rows :=
                 csv_rows st1 ++
                   [csv_row props (JFloat (found_lat f)) (JFloat (found_lon f))
                      (JStr (used_query f)) (JStr (used_source f))];
               calls := calls st1 |})
  end.

(** One turn of [for i, feature in enumerate(features)], with its
    [except Exception] handler. *)
Definition process_feature (st : state) (feature : geo_feature) : geo_feature * state :=
  match refine st feature with
  | Ok r => r
  | Raise e =>
      let props := default ∅ (properties feature) in
      let props := <[ "refine_error" := JStr e ]> props in
      ({| properties := Some props; geometry := geometry feature |},
       {| geocode_cache := geocode_cache st; tried_queries := tried_queries st;
          updated := updated st; skipped := skipped st; errors := S (errors st);
          csv_rows := csv_rows st ++ [csv_row props JNull JNull JNull (JStr "error")];
          calls := calls st |})
  end.

(** The whole loop over [features]. *)
Fixpoint process_features (st : state) (features : list geo_feature)
    : list geo_feature * state :=
  match features with
  | [] => ([], st)
  | feature :: rest =>
      let '(feature', st1) := process_feature st feature in
      let '(rest', st2) := process_features st1 rest in
      (feature' :: rest', st2)
  end.

(** One turn for an element of [features] as it is loaded.  With
    [properties] an object, or missing, it is [process_feature].  Any
    other value has no [get]: the body raises [AttributeError] at its
    second statement, and the handler, which assigns into that same
    value, raises [TypeError] outside the [try]. *)
Definition process_json_feature (st : state) (feature : feature_json)
    : py (geo_feature * state) :=
  match json_properties feature with
  | None =>
      mret (process_feature st
              {| properties := None; geometry := json_geometry feature |})
  | Some (JObj kvs) =>
      mret (process_feature st
              {| properties := Some (dict_of kvs); geometry := json_geometry feature |})
  | Some v => Raise (item_assignment_error v)
  end.

(** The loop as the script runs it: an exception that leaves a turn
    ends the script, before anything is saved. *)
Fixpoint process_json_features (st : state) (features : list feature_json)
    : py (list geo_feature * state) :=
  match features with
  | [] => mret ([], st)
  | feature :: rest =>
      '(feature', st1) ← process_json_feature st feature;
      '(rest', st2) ← process_json_features st1 rest;
      mret (feature' :: rest', st2)
  end.
End Refine.

End PreciseLocation.

(* ===================================================================== *)
(** * news_scraper: what the two spiders share                            *)
(* ===================================================================== *)

Module Url.

Definition hex_digit (n : nat) : ascii :=
  if Nat.ltb n 10 then ascii_of_nat (48 + n) else ascii_of_nat (55 + n).

Definition unreserved (c : ascii) : bool :=
  PyStr.isalpha c || PyStr.isdigit c ||
  Ascii.eqb c "_" || Ascii.eqb c "." || Ascii.eqb c "-" || Ascii.eqb c "~".

(** [urllib.parse.quote_plus] on the bytes of the string. *)
Fixpoint quote_plus (s : string) : string :=
  match s with
  | EmptyString => EmptyString
  | String c r =>
      if unreserved c then String c (quote_plus r)
      else if Ascii.eqb c " " then String "+" (quote_plus r)
      else String "%" (String (hex_digit (PyStr.ord c / 16))
                         (String (hex_digit (PyStr.ord c mod 16)) (quote_plus r)))
  end.

End Url.

(* ===================================================================== *)
(** * news_scraper/spiders/CNN.py                                         *)
(* ===================================================================== *)

Module CNN.

(** The method a request names as its callback. *)
Inductive handler : Type := ParseSearch | Parse.

(** [request.meta]: [start_requests] sets [keyword] and [source], and
    every later request carries the dictionary on; [start] is absent
    until the first page has been handled. *)
Record meta : Type := {
  keyword : string;
  source : string;
  start : option Z
}.

(** A [scrapy.Request].  The [user-agent] header, a constant followed by
    a random number, plays no part in what follows and is left out. *)
Record request : Type := {
  url : string;
  callback : handler;
  req_meta : meta
}.

(** The body of a search answer: not JSON, or an object whose [data]
    member lists the hits, each with the [url] it carries (if any). *)
Inductive search_body : Type :=
  | NotJson
  | Json (data : list (option string)).

Record search_response : Type := {
  search_url : string;
  search_meta : meta;
  search_body_of : search_body
}.

(** What [BeautifulSoup] finds in an article page: the text of
    [div.detail-text], of [h1], of [h1+div+div] and of [div.author].  The
    third selector starts from an [h1]: a page without [h1] has no
    [date_div]. *)
Record soup : Type := {
  detail_text : option string;
  h1 : option string;
  date_div : option string;
  author_div : option string
}.

(** A response handed to [parse].  [location] is the [location] header
    of a 301, when there is one, as [.decode("utf-8")] gives it: the text,
    or the [UnicodeDecodeError] for bytes that are not UTF-8. *)
Record page_response : Type := {
  page_url : string;
  page_meta : meta;
  location : option (py string);
  page : soup
}.

(** [scrapy.Request(url=u, ...)] raises [ValueError] for a url in which it
    finds no scheme.  The url is taken here as it is given; Scrapy also
    escapes the characters that may not stand in a url. *)
Definition has_scheme (u : string) : bool :=
  PyStr.contains "://" u || PyStr.startswith "about:" u || PyStr.startswith "data:" u.

Definition scrapy_request (u : string) (cb : handler) (m : meta) : py request :=
  if has_scheme u then Ok {| url := u; callback := cb; req_meta := m |}
  else Raise ("Missing scheme in request url: " +:+ u).

Section Spider.
(** The value [news_scraper.utils.indo_to_datetime] returns. *)
Variable date : Type.
Variable indo_to_datetime : string -> py date.

Record item : Type := {
  item_title : string;
  item_publish_date : date;
  item_author : string;
  item_content : string;
  item_keyword : string;
  item_source : string;
  item_link : string
}.

Inductive output : Type :=
  | Request (r : request)
  | Item (i : item).

Definition search_url_for (q : string) (start : Z) : string :=
  "https://www.cnnindonesia.com/api/v2/search?query=" +:+ q +:+
  "&start=" +:+ PyStr.of_Z start +:+ "&limit=10".

(** [start_requests]; every url built here begins with [https://], which
    [scrapy.Request] accepts. *)
Definition start_requests (keyword_attr : option string) : list request :=
  let keywords :=
    match keyword_attr with
    | Some kw => if PyStr.truthy kw then PyStr.split_on "," kw else []
    | None => []
    end in
  flat_map
    (fun keyword =>
       let keyword := PyStr.strip keyword in
       if negb (PyStr.truthy keyword) then []
       else [ {| url := search_url_for (Url.quote_plus keyword) 0;
                 callback := ParseSearch;
                 req_meta := {| keyword := keyword; source := "cnnindonesia.com";
                                start := None |} |} ])
    keywords.

(** What a generator callback hands to the engine: the outputs it
    yields, in order, and the exception that ends it, if one does.  The
    outputs yielded before an exception have left the callback. *)
Record generated : Type := {
  yielded : list output;
  raised : option string
}.

Definition nothing : generated := {| yielded := []; raised := None |}.

(** [for article in items]: a request for every hit with a usable [url],
    until [scrapy.Request] refuses one. *)
Fixpoint article_requests (meta : meta) (items : list (option string)) : generated :=
  match items with
  | [] => nothing
  | article :: later =>
      match article with
      | Some url =>
          if PyStr.truthy url
          then match scrapy_request url Parse meta with
               | Ok r =>
                   let g := article_requests meta later in
                   {| yielded := Request r :: yielded g; raised := raised g |}
               | Raise e => {| yielded := []; raised := Some e |}
               end
          else article_requests meta later
      | None => article_requests meta later
      end
  end.

Definition parse_search (response : search_response) : generated :=
  let start := default 0%Z (start (search_meta response)) in
  match search_body_of response with
  | NotJson => nothing
  | Json items =>
      match items with
      | [] => nothing
      | _ :: _ =>
          (* schedule next page if present; its url has a scheme *)
          let meta :=
            {| keyword := keyword (search_meta response);
               source := source (search_meta response);
               start := Some (start + 10)%Z |} in
          let q := Url.quote_plus (keyword meta) in
          let next_url := search_url_for q (start + 10)%Z in
          let articles := article_requests meta items in
          {| yielded :=
               Request {| url := next_url; callback := ParseSearch; req_meta := meta |}
               :: yielded articles;
             raised := raised articles |}
      end
  end.

Definition nl : string := String (ascii_of_nat 10) EmptyString.

(** [parse] yields at most once, and what can raise comes before the
    [yield]: it returns its outputs or raises. *)
Definition parse (response : page_response) : py (list output) :=
  match location response with
  | Some decoded =>
      target ← decoded;
      r ← scrapy_request target Parse (page_meta response);
      mret [Request r]
  | None =>
      match detail_text (page response) with
      | Some article_text =>
          let title := default EmptyString (h1 (page response)) in
          let publish_date := default EmptyString (date_div (page response)) in
          let author := default EmptyString (author_div (page response)) in
          let content := PyStr.strip article_text in
          parsed ← indo_to_datetime publish_date;
          mret [Item {| item_title := title;
                        item_publish_date := parsed;
                        item_author := author;
                        item_content :=
                          PyStr.strip
                            (nl +:+ "judul: " +:+ title +:+ nl +:+
                             "author: " +:+ author +:+ nl +:+
                             "tanggal: " +:+ publish_date +:+ nl +:+
                             content +:+ nl);
                        item_keyword := keyword (page_meta response);
                        item_source := source (page_meta response);
                        item_link := page_url response |}]
      | None => mret []
      end
  end.

(** ** A simulated source, to run the callbacks against *)

Definition next_page (out : list output) : option request :=
  match List.filter (fun o => match o with
                               | Request {| callback := ParseSearch |} => true
                               | _ => false
                               end) out with
  | Request r :: _ => Some r
  | _ => None
  end.

(** Follow one pagination chain against a source that answers the
    successive page requests with the bodies [served].  The result is
    the page requests issued, in order, and whether the chain ended
    because the spider asked for no further page ([true]) or because
    the simulation had no answer left ([false]). *)
Fixpoint paginate (served : list search_body) (req : request)
    : list request * bool :=
  match served with
  | [] => ([req], false)
  | body :: later =>
      let response :=
        {| search_url := url req; search_meta := req_meta req;
           search_body_of := body |} in
      match next_page (yielded (parse_search response)) with
      | Some next =>
          let '(reqs, stopped) := paginate later next in (req :: reqs, stopped)
      | None => ([req], true)
      end
  end.

(** What a server answers to an article request: a 301 to another
    URL, or a page. *)
Inductive answer : Type :=
  | Moved (target : string)
  | Page (html : soup).

Definition respond (req : request) (a : answer) : page_response :=
  match a with
  | Moved target =>
      {| page_url := url req; page_meta := req_meta req; location := Some (Ok target);
         page := {| detail_text := None; h1 := None; date_div := None;
                    author_div := None |} |}
  | Page html =>
      {| page_url := url req; page_meta := req_meta req; location := None;
         page := html |}
  end.

(** Follow one article request against a source that gives the
    successive requests of the chain the [answers].  The result is the
    follow-up requests the spider issued and the items it emitted; a
    callback that raises has issued and emitted nothing, and the engine
    goes on without that request. *)
Fixpoint follow (answers : list answer) (req : request)
    : list request * list item :=
  match answers with
  | [] => ([], [])
  | a :: later =>
      match parse (respond req a) with
      | Raise _ => ([], [])
      | Ok out =>
          fold_right
            (fun o acc =>
               match o with
               | Request r =>
                   let '(reqs, items) := follow later r in
                   (r :: reqs ++ fst acc, items ++ snd acc)
               | Item i => (fst acc, i :: snd acc)
               end)
            ([], []) out
      end
  end.
End Spider.

Arguments Request {date} r.
Arguments Item {date} i.

End CNN.

(* ===================================================================== *)
(** * news_scraper/spiders/Mongabay.py                                    *)
(* ===================================================================== *)

Module Mongabay.

Inductive handler : Type := ParseSearch | ParseGraphql | Parse.

Record meta : Type := {
  keyword : option string;
  source : option string;
  publish_date_override : option string;
  author_override : option string;
  playwright : bool
}.

Record request : Type := {
  url : string;
  callback : handler;
  req_meta : meta
}.

(** An [<a>] element: the value of its [href], if it has one. *)
Record anchor : Type := { href : option string }.

(** An element of the result list: its [.post-title-news a] and its first
    [a], as [select_one] gives them. *)
Record article_el : Type := {
  title_link : option anchor;
  first_link : option anchor
}.

(** What the selectors of [parse_search] find in a result page. *)
Record search_soup : Type := {
  sel_article_post_news : list article_el;   (* article.post-news *)
  sel_article : list article_el;             (* article *)
  sel_post : list article_el;                (* .post *)
  sel_page_numbers : list anchor;            (* a.page-numbers *)
  sel_next : list anchor;                    (* a.next *)
  sel_a_href : list anchor                   (* a[href] *)
}.

Record search_response : Type := {
  search_url : string;
  search_meta : meta;
  search_page : search_soup
}.

(** What the selectors of [parse] find in an article page; the text of
    [.single-article-meta] is the one left once its child elements are
    removed. *)
Record soup : Type := {
  headline_h1 : option string;       (* #headline .article-headline h1 *)
  main : option string;              (* #main *)
  meta_a : option string;            (* .single-article-meta a *)
  meta_own_text : option string      (* .single-article-meta *)
}.

Record page_response : Type := {
  page_url : string;
  page_meta : meta;
  page : soup
}.

(** [xs or ys] on lists. *)
Definition list_or {A} (xs ys : list A) : list A :=
  match xs with [] => ys | _ :: _ => xs end.

Definition opt_or {A} (x y : option A) : option A :=
  match x with Some _ => x | None => y end.

Definition truthy_href (a : anchor) : option string :=
  match href a with
  | Some h => if PyStr.truthy h then Some h else None
  | None => None
  end.

(** [re.search] for a pattern that is a fixed row of character classes. *)
Fixpoint match_shape (shape : list (ascii -> bool)) (s : string) : bool :=
  match shape, s with
  | [], _ => true
  | _ :: _, EmptyString => false
  | k :: shape', String c r => k c && match_shape shape' r
  end.

Fixpoint search_shape (shape : list (ascii -> bool)) (s : string) : bool :=
  match_shape shape s ||
  match s with
  | EmptyString => false
  | String _ r => search_shape shape r
  end.

Definition is_char (x : ascii) : ascii -> bool := fun c => Ascii.eqb c x.
Definition d : ascii -> bool := PyStr.isdigit.

(** [/\d{4}/] *)
Definition year_shape : list (ascii -> bool) :=
  [is_char "/"; d; d; d; d; is_char "/"].
(** [/\d{4}-\d{2}-\d{2}/] *)
Definition day_shape : list (ascii -> bool) :=
  [is_char "/"; d; d; d; d; is_char "-"; d; d; is_char "-"; d; d; is_char "/"].

Section Spider.
(** [response.urljoin(href)], by the URL of the response. *)
Variable urljoin : string -> string -> string.
(** The helpers of [news_scraper.utils]: the value of a parsed date
    ([None] for a falsy one), and a [datetime]. *)
Variable date : Type.
Variable datetime : Type.
Variable indo_to_datetime : string -> py (option date).
Variable string_to_datetime : string -> py (option datetime).
Variable strftime : datetime -> string.

(** [item["publish_date"]]: a parsed date or a string. *)
Inductive publish : Type :=
  | Parsed (d : date)
  | Text (s : string).

Record item : Type := {
  item_title : string;
  item_link : string;
  item_content : string;
  item_author : string;
  item_publish_date : option publish;
  item_keyword : option string;
  item_source : option string
}.

Inductive output : Type :=
  | Request (r : request)
  | Item (i : item).

(** [response.follow(url=href, callback=cb, meta=response.meta)] *)
Definition follow (response : search_response) (h : string) (cb : handler) : output :=
  Request {| url := urljoin (search_url response) h; callback := cb;
             req_meta := search_meta response |}.

(** The fallback scan over [a[href]]: the joined links kept as
    candidates. *)
Fixpoint fallback_candidates (base : string) (seen : gset string)
    (anchors : list anchor) : list string :=
  match anchors with
  | [] => []
  | a :: rest =>
      match truthy_href a with
      | None => fallback_candidates base seen rest
      | Some h =>
          let h := urljoin base h in
          if bool_decide (h ∈ seen) then fallback_candidates base seen rest
          else
            let seen := {[ h ]} ∪ seen in
            if negb (PyStr.contains "mongabay.co.id" h)
            then fallback_candidates base seen rest
            else if search_shape year_shape h || search_shape day_shape h
            then h :: fallback_candidates base seen rest
            else fallback_candidates base seen rest
      end
  end.

Definition parse_search (response : search_response) : list output :=
  let soup := search_page response in
  let articles := sel_article_post_news soup in
  let articles :=
    match articles with
    | [] => list_or (sel_article soup) (sel_post soup)
    | _ :: _ => articles
    end in
  let from_articles :=
    flat_map
      (fun article =>
         match opt_or (title_link article) (first_link article) with
         | None => []
         | Some a =>
             match truthy_href a with
             | None => []
             | Some h => [follow response h Parse]
             end
         end)
      articles in
  let pagings := list_or (sel_page_numbers soup) (list_or (sel_next soup) []) in
  let from_pagings :=
    flat_map
      (fun paging =>
         match truthy_href paging with
         | None => []
         | Some h => [follow response h ParseSearch]
         end)
      pagings in
  let from_fallback :=
    match articles with
    | [] =>
        map (fun h => follow response h Parse)
            (fallback_candidates (search_url response) ∅ (sel_a_href soup))
    | _ :: _ => []
    end in
  from_articles ++ from_pagings ++ from_fallback.

(** The last three pieces of [raw_date.split(" ")], joined. *)
Definition last_three (splitted : list string) : option string :=
  match rev splitted with
  | c :: b :: a :: _ => Some (a +:+ " " +:+ b +:+ " " +:+ c)
  | _ => None
  end.

Definition parse (response : page_response) : list output :=
  let soup := page response in
  let title := match headline_h1 soup with Some t => PyStr.strip t | None => EmptyString end in
  let content := match main soup with Some t => PyStr.strip t | None => EmptyString end in
  let author := match meta_a soup with Some t => PyStr.strip t | None => EmptyString end in
  let publish_date : option publish :=
    match meta_own_text soup with
    | Some t =>
        match last_three (PyStr.split_on " " (PyStr.strip t)) with
        | Some date_str =>
            match indo_to_datetime date_str with
            | Ok (Some dv) => Some (Parsed dv)
            | Ok None => None
            | Raise _ => None
            end
        | None => None
        end
    | None => None
    end in
  (* apply overrides from GraphQL if provided *)
  let author :=
    match author_override (page_meta response) with
    | Some a => if PyStr.truthy a then a else author
    | None => author
    end in
  let publish_date :=
    match publish_date_override (page_meta response), publish_date with
    | Some o, None =>
        if PyStr.truthy o then
          match string_to_datetime o with
          | Ok (Some dt) => Some (Text (strftime dt))
          | Ok None => None
          | Raise _ => Some (Text o)
          end
        else None
    | _, _ => publish_date
    end in
  (* Only yield if have at least a title or content *)
  if negb (PyStr.truthy title) && negb (PyStr.truthy content) then []
  else
    [Item {| item_title := title;
             item_link := page_url response;
             item_content := content;
             item_author := author;
             item_publish_date := publish_date;
             item_keyword := keyword (page_meta response);
             item_source := source (page_meta response) |}].
(** The double quote, and [s.replace('"', '\\"')]. *)
Definition dq : string := String (ascii_of_nat 34) EmptyString.
Definition backslash : ascii := ascii_of_nat 92.

Fixpoint escape_quotes (s : string) : string :=
  match s with
  | EmptyString => EmptyString
  | String c r =>
      if Ascii.eqb c (ascii_of_nat 34)
      then String backslash (String c (escape_quotes r))
      else String c (escape_quotes r)
  end.

(** The GraphQL query for a keyword. *)
Definition graphql_query (keyword : string) : string :=
  "query{contentNodes(where:{status:PUBLISH,search:" +:+ dq +:+
  escape_quotes keyword +:+ dq +:+
  ",contentTypes:[POST,SHORT_ARTICLE,VIDEOS,PODCASTS,SPECIALS]}first:24){edges{node{...on Post{__typename,title,link,date,byline{nodes{name}}}...on ShortArticle{__typename,title,link,date,byline{nodes{name}}}...on Video{__typename,title,link,date,byline{nodes{name}}}...on Podcast{__typename,title,link,date,byline{nodes{name}}}}}}}".

(** [start_requests]: for every keyword the GraphQL request, then the
    rendered search page.  The [playwright_page_methods] entry of the
    second [meta], a constant, is left out. *)
Definition start_requests (keyword_attr : option string) : list request :=
  match keyword_attr with
  | None => []
  | Some kw =>
      if negb (PyStr.truthy kw) then []
      else
        let keywords :=
          map PyStr.strip
            (List.filter (fun k => PyStr.truthy (PyStr.strip k)) (PyStr.split_on "," kw)) in
        flat_map
          (fun keyword =>
             let q := Url.quote_plus keyword in
             let graphql_url :=
               "https://www.mongabay.co.id/graphql?query=" +:+
               Url.quote_plus (graphql_query keyword) in
             let meta :=
               {| keyword := Some keyword; source := Some "mongabay.co.id";
                  publish_date_override := None; author_override := None;
                  playwright := false |} in
             let page_url := "https://www.mongabay.co.id/page/1?s=" +:+ q in
             let page_meta :=
               {| keyword := Some keyword; source := Some "mongabay.co.id";
                  publish_date_override := None; author_override := None;
                  playwright := true |} in
             [ {| url := graphql_url; callback := ParseGraphql; req_meta := meta |};
               {| url := page_url; callback := ParseSearch; req_meta := page_meta |} ])
          keywords
  end.

(** A node of the GraphQL answer: its [link], its [date], and the [name]s
    of [byline.nodes] ([None] when there is no byline or no list). *)
Record node : Type := {
  node_link : option string;
  node_date : option string;
  byline_names : option (list (option string))
}.

(** The body of a GraphQL answer: not JSON, or the [edges] under
    [data.contentNodes], each with the [node] it holds (if any). *)
Inductive graph_body : Type :=
  | NotJson
  | Edges (edges : list (option node)).

Record graph_response : Type := {
  graph_url : string;
  graph_meta : meta;
  graph_body_of : graph_body
}.

Definition empty_node : node :=
  {| node_link := None; node_date := None; byline_names := None |}.

Definition parse_graphql (response : graph_response) : list output :=
  match graph_body_of response with
  | NotJson => []
  | Edges edges =>
      flat_map
        (fun edge =>
           let node := default empty_node edge in
           let link := node_link node in
           let date := node_date node in
           let author :=
             match byline_names node with
             | Some (first :: _) => first
             | _ => None
             end in
           match link with
           | Some l =>
               if PyStr.truthy l then
                 [Request {| url := urljoin (graph_url response) l;
                             callback := Parse;
                             req_meta :=
                               {| keyword := keyword (graph_meta response);
                                  source := source (graph_meta response);
                                  publish_date_override := date;
                                  author_override := author;
                                  playwright := false |} |}]
               else []
           | None => []
           end)
        edges
  end.

End Spider.

Arguments Request {date} r.
Arguments Item {date} i.

End Mongabay.

(* ===================================================================== *)
(** * Text cleaning shared by the preparation scripts                     *)
(* ===================================================================== *)

Module PyRe.

(** [re.sub(r'[^...]', '', s)]: drop every character outside the class. *)
Fixpoint keep (cls : ascii -> bool) (s : string) : string :=
  match s with
  | EmptyString => EmptyString
  | String c r => if cls c then String c (keep cls r) else keep cls r
  end.

(** [re.sub(r'\s+', ' ', s)]: every maximal run of blanks becomes one
    space.  [in_run] tells that the character before was a blank. *)
Fixpoint collapse_from (in_run : bool) (s : string) : string :=
  match s with
  | EmptyString => EmptyString
  | String c r =>
      if PyStr.isspace c
      then (if in_run then collapse_from true r
            else String " " (collapse_from true r))
      else String c (collapse_from false r)
  end.

Definition collapse (s : string) : string := collapse_from false s.

End PyRe.

(* ===================================================================== *)
(** * random_forest/main_rf_pipeline.py                                   *)
(* ===================================================================== *)

Module RfPipeline.

(** [preprocess_text]; [None] stands for a null cell ([pd.isnull]). *)
Definition preprocess_text (text : option string) : string :=
  match text with
  | None => EmptyString
  | Some text =>
      let text := PyStr.lower text in
      (* [^a-zA-Z\s] *)
      let text := PyRe.keep (fun c => PyStr.isalpha c || PyStr.isspace c) text in
      let text := PyStr.strip (PyRe.collapse text) in
      text
  end.

Definition label_sentiment_rule_based (text : string) : string :=
  if PyStr.contains "ancaman" text || PyStr.contains "bahaya" text ||
     PyStr.contains "waspada" text || PyStr.contains "bencana" text
  then "Negative"
  else if PyStr.contains "siaga" text || PyStr.contains "antisipasi" text ||
          PyStr.contains "selamat" text
  then "Neutral"
  else if PyStr.contains "aman" text || PyStr.contains "berhasil" text ||
          PyStr.contains "selamat" text
  then "Positive"
  else "Neutral".

End RfPipeline.

(* ===================================================================== *)
(** * regex.py                                                            *)
(* ===================================================================== *)

Module RegexPy.

Definition disaster : list string :=
  ["banjir"; "gempa"; "tanah longsor"; "erupsi"; "badai"; "longsor"].

(** What [extract_metadata] hands on of a file name. *)
Record metadata : Type := {
  location : string;
  disaster_of : string;
  news_portal : string
}.

Section Clean.
(** [BeautifulSoup(content, 'html.parser').get_text()] *)
Variable get_text : string -> string.

Definition clean_content (content : string) : string :=
  (* Case folding *)
  let content := PyStr.lower content in
  (* Remove special characters and symbols: [^a-zA-Z0-9\s] *)
  let content :=
    PyRe.keep (fun c => PyStr.isalpha c || PyStr.isdigit c || PyStr.isspace c) content in
  (* Remove HTML tags *)
  let content := get_text content in
  (* Remove extra whitespace *)
  PyStr.strip (PyRe.collapse content).
End Clean.

Definition verify_content (content : string) (m : metadata) : bool :=
  let disaster_mentioned :=
    existsb (fun d => PyStr.contains d content)
            (List.filter (fun d => String.eqb d (disaster_of m)) disaster) in
  let location_mentioned := PyStr.contains (location m) content in
  disaster_mentioned && location_mentioned.

End RegexPy.

(* ===================================================================== *)
(** * geocode.py                                                          *)
(* ===================================================================== *)

Module GeocodePy.

(** A row of the data set: the two columns the script reads, each with
    the value [pandas] gives the cell -- a string, a number, or the
    float NaN for an empty cell. *)
Record row : Type := {
  cleaned_content : PreciseLocation.json;
  keyword : PreciseLocation.json
}.

Section Script.
(** The collaborators of [extract_locations] in [location_extractor.py]. *)
Variable nlp : string -> py (list LocationExtractor.entity).
Variable set_order : list string -> list string.
(** The rate-limited [geolocator.geocode]. *)
Variable geocode : string -> PreciseLocation.geo_result.
(** [str(v)] for a value that is not a string. *)
Variable repr : PreciseLocation.json -> string.
(** The message of the [TypeError] that [pat.findall(v)] raises for a
    value that is not a string; CPython versions word it differently. *)
Variable findall_type_error : PreciseLocation.json -> string.

(** [geocode_location]: the answer is [(lat, lon, location_name)] or three
    [None]; whatever the geocoder raises is swallowed. *)
Definition geocode_location (location_name : string) : PreciseLocation.entry :=
  match geocode (location_name +:+ ", Bali, Indonesia") with
  | PreciseLocation.Located latitude longitude _ =>
      (Some latitude, Some longitude, Some location_name)
  | PreciseLocation.NoResult | PreciseLocation.GeoRaise => (None, None, None)
  end.

Definition choose_best_location (r : row) : py string :=
  (* (1) Extract article-based locations; the first statement of
     [extract_locations] is [pat.findall(text)] *)
  article_locs ←
    match cleaned_content r with
    | PreciseLocation.JStr text => LocationExtractor.extract_locations nlp set_order text
    | v => Raise (findall_type_error v)
    end;
  match article_locs with
  | first :: _ => mret first
  | [] =>
      (* (2) Keyword fallback *)
      match PyStr.split (PyStr.strip (PreciseLocation.str repr (keyword r))) with
      | _ :: kabupaten :: _ => mret kabupaten
      | _ =>
          (* (3) Hard fallback *)
          mret "Bali"
      end
  end.

(** The loop over the rows: the three lists, kept together. *)
Fixpoint process_rows (rows : list row) : py (list PreciseLocation.entry) :=
  match rows with
  | [] => mret []
  | r :: rest =>
      best_loc ← choose_best_location r;
      let answer := geocode_location best_loc in
      answers ← process_rows rest;
      mret (answer :: answers)
  end.
End Script.

End GeocodePy.

(* ===================================================================== *)
(** * kepler.py                                                           *)
(* ===================================================================== *)

Set Warnings "-inexact-float".

Module KeplerPy.

Definition fallback_coords : list (string * (float * float)) :=
  [ ("badung", ((-8.5819)%float, 115.1770%float));
    ("bangli", ((-8.4543)%float, 115.3540%float));
    ("gianyar", ((-8.5445)%float, 115.3250%float));
    ("tabanan", ((-8.5440)%float, 115.1250%float));
    ("denpasar", ((-8.6705)%float, 115.2126%float));
    ("klungkung", ((-8.5449)%float, 115.4040%float));
    ("karangasem", ((-8.4286)%float, 115.5700%float));
    ("jembrana", ((-8.3589)%float, 114.6400%float));
    ("buleleng", ((-8.1120)%float, 115.0900%float)) ].

(** [d.get(k)] on the table. *)
Fixpoint lookup (k : string) (table : list (string * (float * float)))
    : option (float * float) :=
  match table with
  | [] => None
  | (k', v) :: rest => if String.eqb k k' then Some v else lookup k rest
  end.

(** A row of the merged data set, with the locations found in it. *)
Record row : Type := {
  title : PreciseLocation.json;
  disaster_type : string;
  location_name : string;
  all_locations : list string
}.

(** An element of [records]. *)
Record record : Type := {
  rec_title : PreciseLocation.json;
  rec_disaster_type : string;
  location_detected : string;
  latitude : float;
  longitude : float
}.

Section Loop.
(** The rate-limited [geolocator.geocode]. *)
Variable geocode : string -> PreciseLocation.geo_result.

(** [bool(lat)] for a float. *)
Definition float_truthy (f : float) : bool := negb (PrimFloat.eqb f 0%float).

(** The records one row adds. *)
Definition records_of (r : row) : list record :=
  let base_region := PyStr.lower (location_name r) in
  let mk loc lat lon :=
    {| rec_title := title r; rec_disaster_type := disaster_type r;
       location_detected := loc; latitude := lat; longitude := lon |} in
  match all_locations r with
  | [] =>
      (* fallback to kabupaten center *)
      match lookup base_region fallback_coords with
      | Some (lat, lon) => [mk base_region lat lon]
      | None => []
      end
  | _ :: _ =>
      flat_map
        (fun loc =>
           let query := loc +:+ ", " +:+ base_region +:+ ", Bali, Indonesia" in
           match geocode query with
           | PreciseLocation.Located lat lon _ => [mk loc lat lon]
           | PreciseLocation.NoResult =>
               (* fallback when geocoder fails *)
               match lookup base_region fallback_coords with
               | Some (lat, lon) => if float_truthy lat then [mk loc lat lon] else []
               | None => []
               end
           | PreciseLocation.GeoRaise => []
           end)
        (all_locations r)
  end.

Definition records (rows : list row) : list record := flat_map records_of rows.
End Loop.

End KeplerPy.

(* ===================================================================== *)
(** * Specification-side definitions and sample inputs                    *)
(* ===================================================================== *)

Section QueryPolicy.
Import PreciseLocation.

(** The query-building policy, tier by tier, with the context string
    the source uses. *)
Definition tier_candidate_hint (candidates : list string) (hint : option string)
    : list string :=
  match hint with
  | Some k =>
      if PyStr.truthy k
      then map (fun c => c +:+ ", " +:+ k +:+ ", Bali, Indonesia") candidates
      else []
  | None => []
  end.

Definition tier_candidate (candidates : list string) : list string :=
  map (fun c => c +:+ ", Bali, Indonesia") candidates.

Definition tier_hint (hint : option string) : list string :=
  match hint with
  | Some k => if PyStr.truthy k then [k +:+ ", Bali, Indonesia"] else []
  | None => []
  end.

Definition priority_queries (candidates : list string) (hint : option string)
    : list string :=
  tier_candidate_hint candidates hint ++ tier_candidate candidates ++
  tier_hint hint ++ ["Bali, Indonesia"].

(** The values [refine_source] takes in a feature the loop handled. *)
Definition written_sources : list json :=
  [JNull; JStr "article_place"; JStr "kabupaten_fallback"; JStr "bali_fallback"].

(** No string was sent out twice, every string sent out is a key of the
    cache, and every key of the cache is a stripped, non-empty string. *)
Definition cache_covers (st : state) : Prop :=
  NoDup (calls st) /\
  (forall q, q ∈ calls st -> is_Some (geocode_cache st !! q)) /\
  (forall k, is_Some (geocode_cache st !! k) ->
             PyStr.strip k = k /\ PyStr.truthy k = true).

(** [st'] knows all that [st] knows: the same cached answers, and every
    query marked as tried. *)
Definition extends (st st' : state) : Prop :=
  (forall k e, geocode_cache st !! k = Some e -> geocode_cache st' !! k = Some e) /\
  tried_queries st ⊆ tried_queries st'.
End QueryPolicy.

(** A legitimate iteration order for [set(xs)]: every element of [xs],
    once. *)
Definition set_order_ok (set_order : list string -> list string) : Prop :=
  forall xs, NoDup (set_order xs) /\ forall x, x ∈ set_order xs <-> x ∈ xs.

(** The ranking the specification words: distinct values in the order of
    their first appearance, sorted stably by decreasing count. *)
Definition spec_rank (cleaned : list string) : list string :=
  LocationExtractor.sorted_desc (fun x => PyStr.count x cleaned)
    (LocationExtractor.first_seen cleaned).

(** One order CPython may give: the reverse of first appearance. *)
Definition last_seen_first (xs : list string) : list string :=
  reverse (LocationExtractor.first_seen xs).

(** The order [sorted(..., reverse=True)] establishes: keys do not grow. *)
Definition key_ge {A} (key : A -> nat) (x y : A) : Prop := (key y <= key x)%nat.

(** The page request [CNN.parse_search] issues after a non-empty page
    answered [req]: the next offset, ten further. *)
Definition page_request_after (req : CNN.request) : CNN.request :=
  let offset := (default 0 (CNN.start (CNN.req_meta req)) + 10)%Z in
  {| CNN.url :=
       CNN.search_url_for (Url.quote_plus (CNN.keyword (CNN.req_meta req))) offset;
     CNN.callback := CNN.ParseSearch;
     CNN.req_meta :=
       {| CNN.keyword := CNN.keyword (CNN.req_meta req);
          CNN.source := CNN.source (CNN.req_meta req);
          CNN.start := Some offset |} |}.

(** The chain of [S n] page requests that starts with [req]. *)
Fixpoint page_chain (n : nat) (req : CNN.request) : list CNN.request :=
  match n with
  | O => [req]
  | S k => req :: page_chain k (page_request_after req)
  end.


(** The request [CNN.parse] issues for a 301 answered to [req]. *)
Definition redirected (req : CNN.request) (target : string) : CNN.request :=
  {| CNN.url := target; CNN.callback := CNN.Parse; CNN.req_meta := CNN.req_meta req |}.

(** The requests issued along a chain of redirects. *)
Fixpoint redirect_chain (req : CNN.request) (targets : list string) : list CNN.request :=
  match targets with
  | [] => []
  | t :: later => redirected req t :: redirect_chain (redirected req t) later
  end.

(** Sample collaborators for the closed examples below. *)
Definition geocoder_only (known : string) (lat lon : float)
    : list string -> string -> PreciseLocation.geo_result :=
  fun _ q =>
    if String.eqb q known then PreciseLocation.Located lat lon known
    else PreciseLocation.NoResult.

Definition no_entities : string -> py (list LocationExtractor.entity) :=
  fun _ => Ok [].

Definition extract_with (set_order : list string -> list string)
    : string -> py (list string) :=
  LocationExtractor.extract_locations no_entities set_order.

Definition repr_blank : PreciseLocation.json -> string := fun _ => EmptyString.

Definition bare_feature : PreciseLocation.geo_feature :=
  {| PreciseLocation.properties := Some ∅; PreciseLocation.geometry := None |}.

(** A feature whose text names a village and whose keyword names a
    kabupaten. *)
Definition ubud_feature : PreciseLocation.geo_feature :=
  {| PreciseLocation.properties :=
       Some (<[ "content" := PreciseLocation.JStr "banjir di desa Ubud" ]>
               (<[ "keyword" := PreciseLocation.JStr "banjir Gianyar" ]> ∅));
     PreciseLocation.geometry :=
       Some (PreciseLocation.point 115.25%float (-8.5)%float) |}.

Definition geocoder_none : list string -> string -> PreciseLocation.geo_result :=
  fun _ _ => PreciseLocation.NoResult.

(** A page served for an article: the container holds blanks only and
    the [h1] is empty; the date stands in the second [div] after it. *)
Definition empty_article : CNN.soup :=
  {| CNN.detail_text := Some "  "; CNN.h1 := Some EmptyString;
     CNN.date_div := Some "Senin, 01 Jan 2024 10:00 WIB"; CNN.author_div := None |}.

Definition sample_request : CNN.request :=
  {| CNN.url := "https://www.cnnindonesia.com/a"; CNN.callback := CNN.Parse;
     CNN.req_meta := {| CNN.keyword := "banjir"; CNN.source := "cnnindonesia.com";
                        CNN.start := Some 10%Z |} |}.

Definition keep_date : string -> py string := fun s => Ok s.

(** Does the character occur in the string? *)
Fixpoint has_char (x : ascii) (s : string) : bool :=
  match s with
  | EmptyString => false
  | String c r => Ascii.eqb c x || has_char x r
  end.

(** A string [strip] leaves as it is, and not the empty one. *)
Definition stripped (s : string) : Prop :=
  PyStr.strip s = s /\ PyStr.truthy s = true.

(** A cache entry is a remembered miss or a full answer: never a latitude
    without a longitude. *)
Definition entry_whole (e : PreciseLocation.entry) : Prop :=
  e = PreciseLocation.miss \/
  exists lat lon address, e = (Some lat, Some lon, Some address).

(** The cache holds an entry for exactly the strings sent out, and every
    entry is whole. *)
Definition cache_exact (st : PreciseLocation.state) : Prop :=
  (forall k, is_Some (PreciseLocation.geocode_cache st !! k)
             <-> k ∈ PreciseLocation.calls st) /\
  (forall k e, PreciseLocation.geocode_cache st !! k = Some e -> entry_whole e).

(** Does every character of the string satisfy [p]? *)
Fixpoint string_forall (p : ascii -> bool) (s : string) : bool :=
  match s with
  | EmptyString => true
  | String c r => p c && string_forall p r
  end.

(** What [quote_plus] may leave in a query string. *)
Definition query_safe (c : ascii) : bool :=
  Url.unreserved c || Ascii.eqb c "+" || Ascii.eqb c "%".

(** The article requests among the outputs of [CNN.parse_search]. *)
Definition article_urls {date : Type} (out : list (CNN.output date)) : list string :=
  flat_map (fun o => match o with
                     | CNN.Request {| CNN.url := u; CNN.callback := CNN.Parse |} => [u]
                     | _ => []
                     end) out.

(** The hits of a search answer that carry a usable [url]. *)
Definition hit_urls (body : CNN.search_body) : list string :=
  match body with
  | CNN.NotJson => []
  | CNN.Json hits =>
      flat_map (fun h => match h with
                         | Some u => if PyStr.truthy u then [u] else []
                         | None => []
                         end) hits
  end.

(** The urls for which [scrapy.Request] is built before it refuses one,
    and the one it refuses. *)
Fixpoint accepted_prefix (urls : list string) : list string :=
  match urls with
  | [] => []
  | u :: later => if CNN.has_scheme u then u :: accepted_prefix later else []
  end.

Definition first_refused (urls : list string) : option string :=
  List.find (fun u => negb (CNN.has_scheme u)) urls.

(** Has the edge of a GraphQL answer a usable [link]? *)
Definition has_link (edge : option Mongabay.node) : bool :=
  match edge with
  | Some {| Mongabay.node_link := Some l |} => PyStr.truthy l
  | _ => false
  end.

(** The date [Mongabay.parse] reads off the article page itself. *)
Definition page_date {date : Type} (indo_to_datetime : string -> py (option date))
    (page : Mongabay.soup) : option date :=
  match Mongabay.meta_own_text page with
  | Some t =>
      match Mongabay.last_three (PyStr.split_on " " (PyStr.strip t)) with
      | Some date_str =>
          match indo_to_datetime date_str with
          | Ok (Some dv) => Some dv
          | _ => None
          end
      | None => None
      end
  | None => None
  end.

(** [bool(x)] for a string that may be [None]. *)
Definition truthy_opt_str (x : option string) : bool :=
  match x with Some s => PyStr.truthy s | None => false end.

(** The only blank is the space, and no two spaces follow each other;
    [prev] tells that the character before was a space. *)
Fixpoint single_spaced_from (prev : bool) (s : string) : bool :=
  match s with
  | EmptyString => true
  | String c r =>
      if PyStr.isspace c
      then Ascii.eqb c " " && negb prev && single_spaced_from true r
      else single_spaced_from false r
  end.

Definition single_spaced (s : string) : bool := single_spaced_from false s.

Definition lower_or_space (c : ascii) : bool :=
  PyStr.islower c || Ascii.eqb c " ".

Definition lower_digit_or_space (c : ascii) : bool :=
  PyStr.islower c || PyStr.isdigit c || Ascii.eqb c " ".

Definition alnum_or_blank (c : ascii) : bool :=
  PyStr.isalpha c || PyStr.isdigit c || PyStr.isspace c.

(** The geocoder query [kepler.py] builds for a place of a row. *)
Definition kepler_query (r : KeplerPy.row) (loc : string) : string :=
  loc +:+ ", " +:+ PyStr.lower (KeplerPy.location_name r) +:+ ", Bali, Indonesia".

(** Is the [properties] member of the feature an object, or missing? *)
Definition object_properties (feature : PreciseLocation.feature_json) : bool :=
  match PreciseLocation.json_properties feature with
  | None | Some (PreciseLocation.JObj _) => true
  | Some _ => false
  end.

(** More sample inputs. *)
Definition null_properties : PreciseLocation.feature_json :=
  {| PreciseLocation.json_properties := Some PreciseLocation.JNull;
     PreciseLocation.json_geometry := None |}.

Definition ubud_json : PreciseLocation.feature_json :=
  {| PreciseLocation.json_properties :=
       Some (PreciseLocation.JObj
               [("keyword", PreciseLocation.JStr "banjir Gianyar");
                ("content", PreciseLocation.JStr "banjir di desa Ubud")]);
     PreciseLocation.json_geometry := None |}.

Definition number_feature : PreciseLocation.geo_feature :=
  {| PreciseLocation.properties :=
       Some (<[ "content" := PreciseLocation.JInt 7 ]> ∅);
     PreciseLocation.geometry := None |}.


Definition override_page : Mongabay.page_response :=
  {| Mongabay.page_url := "https://www.mongabay.co.id/2024/01/01/banjir/";
     Mongabay.page_meta :=
       {| Mongabay.keyword := Some "banjir"; Mongabay.source := Some "mongabay.co.id";
          Mongabay.publish_date_override := Some "2024-01-01T10:00:00";
          Mongabay.author_override := Some "Redaksi";
          Mongabay.playwright := false |};
     Mongabay.page :=
       {| Mongabay.headline_h1 := Some " Banjir di Gianyar ";
          Mongabay.main := None; Mongabay.meta_a := Some "Penulis";
          Mongabay.meta_own_text := None |} |}.

Definition gianyar_row : KeplerPy.row :=
  {| KeplerPy.title := PreciseLocation.JStr "Banjir di Ubud";
     KeplerPy.disaster_type := "banjir";
     KeplerPy.location_name := "Gianyar";
     KeplerPy.all_locations := ["Ubud"; "Sukawati"] |}.

Definition lombok_row : KeplerPy.row :=
  {| KeplerPy.title := PreciseLocation.JStr "Gempa di Mataram";
     KeplerPy.disaster_type := "gempa";
     KeplerPy.location_name := "Lombok";
     KeplerPy.all_locations := ["Mataram"] |}.

(** A geocoder in the shape [geocode.py] and [kepler.py] call it. *)
Definition geocode_only (known : string) (lat lon : float)
    : string -> PreciseLocation.geo_result :=
  fun q =>
    if String.eqb q known then PreciseLocation.Located lat lon known
    else PreciseLocation.NoResult.

(** Did the geocoder give a coordinate? *)
Definition is_located (g : PreciseLocation.geo_result) : bool :=
  match g with PreciseLocation.Located _ _ _ => true | _ => false end.

Definition no_blank (c : ascii) : bool := negb (PyStr.isspace c).

Definition ubud_row : GeocodePy.row :=
  {| GeocodePy.cleaned_content := PreciseLocation.JStr "banjir di desa ubud";
     GeocodePy.keyword := PreciseLocation.JStr "banjir gianyar" |}.

Definition ubud_record : KeplerPy.record :=
  {| KeplerPy.rec_title := PreciseLocation.JStr "Banjir di Ubud";
     KeplerPy.rec_disaster_type := "banjir";
     KeplerPy.location_detected := "Ubud";
     KeplerPy.latitude := (-8.5)%float;
     KeplerPy.longitude := 115.25%float |}.

Definition parse_ok : string -> py (option string) := fun s => Ok (Some s).

(* ===================================================================== *)
(** * Properties                                                          *)
(* ===================================================================== *)

(** ** Facts about the string methods *)

Section StringFacts.
Import PyStr.

Lemma startswith_app (p s : string) : startswith p (p +:+ s) = true.
Proof.
  induction p as [|a p IH]; simpl; [done|].
  by rewrite Ascii.eqb_refl, IH.
Qed.

Lemma contains_prefix (p s : string) : contains p (p +:+ s) = true.
Proof.
  destruct (p +:+ s) eqn:E; simpl; rewrite <- E, startswith_app; done.
Qed.

Lemma contains_app_r (sub a s : string) :
  contains sub s = true -> contains sub (a +:+ s) = true.
Proof.
  intros H. induction a as [|c a IH]; simpl; [done|].
  rewrite IH. apply orb_true_r.
Qed.

(** What [lstrip] leaves does not start with a blank. *)
Lemma lstrip_head s c r : lstrip s = String c r -> isspace c = false.
Proof.
  induction s as [|a s IH]; simpl; [discriminate|].
  destruct (isspace a) eqn:Ha; [exact IH|]. by intros [= <- _].
Qed.

Lemma rstrip_idem s : rstrip (rstrip s) = rstrip s.
Proof.
  induction s as [|a s IH]; simpl; [done|].
  destruct (isspace a && negb (truthy (rstrip s))) eqn:E; simpl; [done|].
  by rewrite IH, E.
Qed.

Lemma lstrip_rstrip s c r :
  s = String c r -> isspace c = false -> lstrip (rstrip s) = rstrip s.
Proof. intros -> Hc. simpl. rewrite Hc. simpl. by rewrite Hc. Qed.

(** [strip] is idempotent. *)
Lemma strip_idem s : strip (strip s) = strip s.
Proof.
  unfold strip. destruct (lstrip s) as [|c r] eqn:E; [done|].
  rewrite (lstrip_rstrip (String c r) c r eq_refl (lstrip_head s c r E)).
  apply rstrip_idem.
Qed.
End StringFacts.

(** ** The query list and the query loop *)

Section Queries.
Import PreciseLocation.

Lemma foldl_snoc_map {A B} (f : A -> B) (l : list A) (init : list B) :
  foldl (fun acc c => acc ++ [f c]) init l = init ++ map f l.
Proof.
  revert init. induction l as [|x l IH]; intros init; simpl.
  - by rewrite app_nil_r.
  - rewrite IH. by rewrite <- app_assoc.
Qed.

Lemma query_attempts_tiers candidates hint :
  query_attempts candidates hint = priority_queries candidates hint.
Proof.
  unfold query_attempts, priority_queries, tier_candidate_hint, tier_candidate, tier_hint.
  destruct hint as [k|]; [destruct (PyStr.truthy k)|];
    rewrite ?foldl_snoc_map; simpl; rewrite <- ?app_assoc; reflexivity.
Qed.

Variable geocoder : list string -> string -> geo_result.

(** What the loop looked up is a prefix of the list; every answer before
    the last lacks a coordinate; the loop stops on the first answer
    that has one and reports it. *)
Lemma try_queries_trace candidates hint qs : forall st,
  let '(r, tried, _) := try_queries geocoder candidates hint st qs in
  match r with
  | None =>
      map fst tried = qs /\
      Forall (fun p => has_coordinate (snd p) = false) tried
  | Some f =>
      exists before display later,
        tried = before ++ [(used_query f, (Some (found_lat f), Some (found_lon f), display))] /\
        qs = map fst tried ++ later /\
        Forall (fun p => has_coordinate (snd p) = false) before /\
        found_display f = display /\
        used_source f = source_of candidates hint (used_query f)
  end.
Proof.
  induction qs as [|q rest IH]; intros st; simpl.
  - split; [done | constructor].
  - destruct (lookup_query geocoder st q) as [e st1].
    specialize (IH st1).
    destruct (try_queries geocoder candidates hint st1 rest) as [[r tried] st2].
    destruct e as [[[lat|] [lon|]] display]; simpl.
    1: { exists [], display, rest. simpl. repeat split; constructor. }
    all: destruct r as [f|].
    all: try (destruct IH as (before & dsp & later & -> & -> & Hb & Hd & Hs);
              eexists (_ :: before), dsp, later; simpl;
              repeat split; try done; constructor; done).
    all: destruct IH as [<- Hall]; split; [done | constructor; done].
Qed.

(** The first query of a non-empty list is always looked up. *)
Lemma try_queries_head candidates hint st q rest :
  exists e later,
    (try_queries geocoder candidates hint st (q :: rest)).1.2 = (q, e) :: later.
Proof.
  simpl. destruct (lookup_query geocoder st q) as [e st1].
  destruct (try_queries geocoder candidates hint st1 rest) as [[r tried] st2].
  destruct e as [[[lat|] [lon|]] display]; simpl; eauto.
Qed.

(** C1 (as the code has it): the query list is the four tiers in
    priority order -- every candidate with the region hint, every
    candidate alone, the region hint alone, the context alone, the first
    and third only for a non-empty hint -- where the context string is
    "Bali, Indonesia"; the loop looks the queries up in that order and
    stops at the first one that yields a coordinate.  With no candidate
    and the hint "Badung" the first query looked up is
    "Badung, Bali, Indonesia". *)
Theorem query_priority_order candidates hint st :
  query_attempts candidates hint = priority_queries candidates hint /\
  (let '(r, tried, _) :=
     try_queries geocoder candidates hint st (query_attempts candidates hint) in
   match r with
   | None =>
       map fst tried = query_attempts candidates hint /\
       Forall (fun p => has_coordinate (snd p) = false) tried
   | Some f =>
       exists before display later,
         tried = before ++
                   [(used_query f, (Some (found_lat f), Some (found_lon f), display))] /\
         query_attempts candidates hint = map fst tried ++ later /\
         Forall (fun p => has_coordinate (snd p) = false) before
   end) /\
  query_attempts ["Ubud"; "Kuta"] (Some "Gianyar") =
    ["Ubud, Gianyar, Bali, Indonesia"; "Kuta, Gianyar, Bali, Indonesia";
     "Ubud, Bali, Indonesia"; "Kuta, Bali, Indonesia";
     "Gianyar, Bali, Indonesia"; "Bali, Indonesia"] /\
  head (map fst (try_queries geocoder [] (Some "Badung") st
                   (query_attempts [] (Some "Badung"))).1.2)
    = Some "Badung, Bali, Indonesia".
Proof.
  split; [apply query_attempts_tiers|].
  split.
  - pose proof (try_queries_trace candidates hint (query_attempts candidates hint) st) as H.
    destruct (try_queries geocoder candidates hint st (query_attempts candidates hint))
      as [[r tried] st'].
    destruct r as [f|]; [|exact H].
    destruct H as (before & display & later & H1 & H2 & H3 & _).
    exists before, display, later. auto.
  - split; [reflexivity|].
    change (query_attempts [] (Some "Badung"))
      with ["Badung, Bali, Indonesia"; "Bali, Indonesia"].
    destruct (try_queries_head [] (Some "Badung") st
                "Badung, Bali, Indonesia" ["Bali, Indonesia"]) as (e & later & ->).
    reflexivity.
Qed.

End Queries.

(** C1 (as the spec has it) fails: with no candidate and the hint
    "Badung" the first query is not "Badung, Indonesia". *)
Lemma first_query_badung_is_not_country_only :
  head (PreciseLocation.query_attempts [] (Some "Badung")) <> Some "Badung, Indonesia" /\
  head (map fst (PreciseLocation.try_queries (fun _ _ => PreciseLocation.NoResult)
                   [] (Some "Badung") PreciseLocation.initial_state
                   (PreciseLocation.query_attempts [] (Some "Badung"))).1.2)
    <> Some "Badung, Indonesia".
Proof. split; vm_compute; discriminate. Qed.

(** ** The recorded provenance *)

Section Provenance.
Import PreciseLocation.

Variable geocoder : list string -> string -> geo_result.
Variable extract_locations : string -> py (list string).
Variable repr : json -> string.

Lemma source_of_values candidates hint q :
  source_of candidates hint q ∈ ["article_place"; "kabupaten_fallback"; "bali_fallback"].
Proof.
  unfold source_of.
  repeat match goal with |- context [if ?b then _ else _] => destruct b end;
    apply list_elem_of_In; simpl; tauto.
Qed.

Lemma source_of_candidate candidates hint c rest :
  c ∈ candidates ->
  source_of candidates hint (c +:+ ", " +:+ rest) = "article_place".
Proof.
  intros Hc. unfold source_of.
  assert (H1 : PyStr.contains "," (c +:+ ", " +:+ rest) = true).
  { apply contains_app_r. reflexivity. }
  assert (H2 : existsb (fun c0 => PyStr.contains c0 (c +:+ ", " +:+ rest)) candidates = true).
  { apply existsb_exists. exists c. split; [by apply list_elem_of_In|].
    apply contains_prefix. }
  by rewrite H1, H2.
Qed.

Lemma existsb_none {A} (p : A -> bool) (l : list A) :
  (forall x, x ∈ l -> p x = false) -> existsb p l = false.
Proof.
  intros H. induction l as [|x l IH]; simpl; [done|].
  rewrite H by set_solver. apply IH. intros y Hy. apply H. set_solver.
Qed.

Lemma try_queries_source candidates hint qs : forall st f,
  (try_queries geocoder candidates hint st qs).1.1 = Some f ->
  used_source f = source_of candidates hint (used_query f) /\ used_query f ∈ qs.
Proof.
  induction qs as [|q rest IH]; intros st f; simpl; [discriminate|].
  destruct (lookup_query geocoder st q) as [e st1].
  specialize (IH st1 f).
  destruct (try_queries geocoder candidates hint st1 rest) as [[r tried] st2].
  destruct e as [[[lat|] [lon|]] display]; simpl in *.
  1: { intros [= <-]. simpl. split; [done | set_solver]. }
  all: intros Hr; destruct (IH Hr) as [H1 H2]; split; [done | set_solver].
Qed.

Lemma refine_writes_source st feature :
  match refine geocoder extract_locations repr st feature with
  | Ok (feature', _) =>
      get (default ∅ (properties feature')) "refine_source" ∈ written_sources
  | Raise _ => True
  end.
Proof.
  unfold refine.
  destruct (candidates_of _ _) as [candidates|msg]; simpl; [|done].
  match goal with |- context [try_queries ?g ?c ?k ?s ?q] =>
    pose proof (try_queries_source c k q s) as Hs;
    destruct (try_queries g c k s q) as [[r tried] st1] end.
  destruct r as [f|]; simpl.
  - destruct (Hs f eq_refl) as [-> _].
    unfold get. rewrite lookup_insert_ne by done. rewrite lookup_insert_ne by done.
    rewrite lookup_insert_ne by done. rewrite lookup_insert_ne by done.
    rewrite lookup_insert_eq. simpl.
    pose proof (source_of_values candidates (kabupaten_of repr (default ∅ (properties feature)))
                  (used_query f)) as Hv.
    apply list_elem_of_In in Hv. simpl in Hv.
    apply list_elem_of_In. simpl.
    destruct Hv as [<-|[<-|[<-|[]]]]; tauto.
  - unfold get. rewrite lookup_insert_eq. simpl.
    apply list_elem_of_In. simpl. tauto.
Qed.

(** What is recorded for a feature whose body reaches the query loop:
    the [refine_source] of the feature and of its CSV row is computed
    from the query whose lookup gave the coordinate, the last one of the
    trace, and it is null when no lookup gave one. *)
Lemma refine_records_source st feature candidates :
  let props := default ∅ (properties feature) in
  let hint := kabupaten_of repr props in
  candidates_of extract_locations (cleaned_of props) = Ok candidates ->
  let '(r, tried, _) :=
    try_queries geocoder candidates hint st (query_attempts candidates hint) in
  let '(feature', st') := process_feature geocoder extract_locations repr st feature in
  let source := get (default ∅ (properties feature')) "refine_source" in
  (exists row, last (csv_rows st') = Some row /\ get row "refine_source" = source) /\
  match r with
  | Some f =>
      source = JStr (source_of candidates hint (used_query f)) /\
      get (default ∅ (properties feature')) "refined_location_query"
        = JStr (used_query f) /\
      used_query f ∈ query_attempts candidates hint /\
      exists before,
        tried = before ++
                  [(used_query f,
                    (Some (found_lat f), Some (found_lon f), found_display f))] /\
        Forall (fun p => has_coordinate (snd p) = false) before
  | None => source = JNull
  end.
Proof.
  intros props hint Hc.
  pose proof (try_queries_trace geocoder candidates hint
                (query_attempts candidates hint) st) as Ht.
  pose proof (try_queries_source candidates hint (query_attempts candidates hint) st) as Hs.
  unfold process_feature, refine. fold props. rewrite Hc. simpl. fold hint.
  destruct (try_queries geocoder candidates hint st (query_attempts candidates hint))
    as [[r tried] st1].
  destruct r as [f|]; simpl.
  - destruct Ht as (before & display & later & Htr & _ & Hb & Hd & Hsrc).
    destruct (Hs f eq_refl) as [_ Hin].
    split.
    { eexists. split; [apply last_snoc|].
      unfold get, csv_row. rewrite lookup_insert_eq.
      repeat (rewrite lookup_insert_ne by done). by rewrite lookup_insert_eq. }
    unfold get.
    split; [repeat (rewrite lookup_insert_ne by done); rewrite lookup_insert_eq;
            simpl; by rewrite Hsrc|].
    split; [repeat (rewrite lookup_insert_ne by done); by rewrite lookup_insert_eq|].
    split; [exact Hin|].
    exists before. subst display. by split.
  - split; [|unfold get; by rewrite lookup_insert_eq].
    eexists. split; [apply last_snoc|].
    unfold get, csv_row. by rewrite !lookup_insert_eq.
Qed.

(** C2 (as the code has it): the source recorded with a coordinate is
    that of the query that gave it, and it is "article_place" for every
    candidate-derived query, "kabupaten_fallback" for the hint-only query
    when no candidate occurs inside that query, and "bali_fallback" for
    the last resort when neither a candidate nor the hint occurs inside
    "Bali, Indonesia"; a feature processed without an exception gets a
    [refine_source] that is null or one of these three names, and one
    that raised keeps the [refine_source] it had.  What is written, to
    the feature and to its CSV row alike, is the source computed from the
    query whose lookup gave the coordinate, and null when none did. *)
Theorem refine_source_tiers candidates hint :
  (forall q, source_of candidates hint q
             ∈ ["article_place"; "kabupaten_fallback"; "bali_fallback"]) /\
  (forall c k, c ∈ candidates ->
     source_of candidates hint (c +:+ ", " +:+ k +:+ ", Bali, Indonesia") = "article_place" /\
     source_of candidates hint (c +:+ ", Bali, Indonesia") = "article_place") /\
  (forall k, hint = Some k -> PyStr.truthy k = true ->
     (forall c, c ∈ candidates -> PyStr.contains c (k +:+ ", Bali, Indonesia") = false) ->
     source_of candidates hint (k +:+ ", Bali, Indonesia") = "kabupaten_fallback") /\
  ((forall c, c ∈ candidates -> PyStr.contains c "Bali, Indonesia" = false) ->
   (forall k, hint = Some k -> PyStr.contains k "Bali, Indonesia" = false) ->
   source_of candidates hint "Bali, Indonesia" = "bali_fallback") /\
  (forall st qs f,
     (try_queries geocoder candidates hint st qs).1.1 = Some f ->
     used_source f = source_of candidates hint (used_query f) /\ used_query f ∈ qs) /\
  (forall st feature,
     match refine geocoder extract_locations repr st feature with
     | Ok (feature', _) =>
         process_feature geocoder extract_locations repr st feature
           = (feature', (process_feature geocoder extract_locations repr st feature).2) /\
         get (default ∅ (properties feature')) "refine_source" ∈ written_sources
     | Raise _ =>
         get (default ∅ (properties
                (process_feature geocoder extract_locations repr st feature).1))
             "refine_source"
         = get (default ∅ (properties feature)) "refine_source"
     end) /\
  (forall st feature found_candidates,
     let props := default ∅ (properties feature) in
     let found_hint := kabupaten_of repr props in
     candidates_of extract_locations (cleaned_of props) = Ok found_candidates ->
     let '(r, tried, _) :=
       try_queries geocoder found_candidates found_hint st
         (query_attempts found_candidates found_hint) in
     let '(feature', st') := process_feature geocoder extract_locations repr st feature in
     let source := get (default ∅ (properties feature')) "refine_source" in
     (exists row, last (csv_rows st') = Some row /\ get row "refine_source" = source) /\
     match r with
     | Some f =>
         source = JStr (source_of found_candidates found_hint (used_query f)) /\
         get (default ∅ (properties feature')) "refined_location_query"
           = JStr (used_query f) /\
         used_query f ∈ query_attempts found_candidates found_hint /\
         exists before,
           tried = before ++
                     [(used_query f,
                       (Some (found_lat f), Some (found_lon f), found_display f))] /\
           Forall (fun p => has_coordinate (snd p) = false) before
     | None => source = JNull
     end).
Proof.
  split; [intros q; apply source_of_values|].
  split.
  { intros c k Hc. split.
    - apply (source_of_candidate candidates hint c (k +:+ ", Bali, Indonesia") Hc).
    - apply (source_of_candidate candidates hint c "Bali, Indonesia" Hc). }
  split.
  { intros k -> Hk Hnone. unfold source_of.
    rewrite existsb_none by exact Hnone. rewrite andb_false_r.
    rewrite Hk, contains_prefix. reflexivity. }
  split.
  { intros Hnone Hk. unfold source_of.
    rewrite existsb_none by exact Hnone. rewrite andb_false_r.
    destruct hint as [k|]; [|reflexivity].
    rewrite (Hk k eq_refl), andb_false_r. reflexivity. }
  split; [intros st qs f; apply try_queries_source|].
  split; [|intros st feature found; apply refine_records_source].
  intros st feature.
  pose proof (refine_writes_source st feature) as Hw.
  unfold process_feature.
  destruct (refine geocoder extract_locations repr st feature) as [[feature' st']|msg].
  - split; [reflexivity | exact Hw].
  - simpl. unfold get. rewrite lookup_insert_ne by done. reflexivity.
Qed.
End Provenance.

(** C2 (as the spec has it) fails: when only the last resort resolves, the
    source written is "bali_fallback", none of the three names the spec
    lists. *)
Lemma refine_source_outside_spec_values :
  let out :=
    (PreciseLocation.process_feature
       (geocoder_only "Bali, Indonesia" (-8.5)%float 115.25%float)
       (extract_with LocationExtractor.first_seen) repr_blank
       PreciseLocation.initial_state bare_feature).1 in
  let written :=
    PreciseLocation.get (default ∅ (PreciseLocation.properties out)) "refine_source" in
  written = PreciseLocation.JStr "bali_fallback" /\
  written ∉ [PreciseLocation.JNull; PreciseLocation.JStr "article_place";
             PreciseLocation.JStr "kabupaten_fallback";
             PreciseLocation.JStr "region_fallback"].
Proof.
  assert (E :
    PreciseLocation.get
      (default ∅ (PreciseLocation.properties
         (PreciseLocation.process_feature
            (geocoder_only "Bali, Indonesia" (-8.5)%float 115.25%float)
            (extract_with LocationExtractor.first_seen) repr_blank
            PreciseLocation.initial_state bare_feature).1)) "refine_source"
    = PreciseLocation.JStr "bali_fallback") by (vm_compute; reflexivity).
  cbv zeta. rewrite E. split; [reflexivity|].
  intros H. apply list_elem_of_In in H. simpl in H.
  destruct H as [H|[H|[H|[H|[]]]]]; discriminate H.
Qed.

(** The tiers of C2 at work: with the candidate "Ubud" and the hint
    "Gianyar" the hint-only query is a "kabupaten_fallback". *)
Lemma refine_source_tiers_witness :
  PreciseLocation.source_of ["Ubud"] (Some "Gianyar") "Gianyar, Bali, Indonesia"
    = "kabupaten_fallback".
Proof.
  refine (proj1 (proj2 (proj2
    (refine_source_tiers (geocoder_only "Bali, Indonesia" 0%float 0%float)
       (extract_with LocationExtractor.first_seen) repr_blank
       ["Ubud"] (Some "Gianyar")))) "Gianyar" eq_refl eq_refl _).
  intros c Hc. apply list_elem_of_In in Hc. simpl in Hc.
  destruct Hc as [<-|[]]. reflexivity.
Defined.

(** The substring test of [source_of] at its limit: when the text names
    "Bali" itself, the hint-only query counts as an article place. *)
Lemma hint_query_taken_for_article_place :
  PreciseLocation.source_of ["Bali"] (Some "Gianyar") "Gianyar, Bali, Indonesia"
    = "article_place".
Proof. reflexivity. Qed.

(** ** The geocode cache *)

Section Cache.
Import PreciseLocation.

Variable geocoder : list string -> string -> geo_result.
Variable extract_locations : string -> py (list string).
Variable repr : json -> string.

Lemma cache_covers_initial : cache_covers initial_state.
Proof.
  split; [constructor|]. split.
  - intros q Hq. inversion Hq.
  - intros k [e He]. simpl in He. by rewrite lookup_empty in He.
Qed.

Lemma cache_covers_ext st st' :
  geocode_cache st' = geocode_cache st -> calls st' = calls st ->
  cache_covers st -> cache_covers st'.
Proof. unfold cache_covers. intros -> ->. done. Qed.

Lemma geocode_cached_hit st query e :
  PyStr.truthy (PyStr.strip query) = true ->
  geocode_cache st !! PyStr.strip query = Some e ->
  geocode_cached geocoder st query = (e, st).
Proof. intros Hq He. unfold geocode_cached. by rewrite Hq, He. Qed.

Lemma geocode_cached_blank st query :
  PyStr.truthy (PyStr.strip query) = false ->
  geocode_cached geocoder st query = (miss, st).
Proof. intros Hq. unfold geocode_cached. by rewrite Hq. Qed.

Lemma geocode_cached_call st query :
  PyStr.truthy (PyStr.strip query) = true ->
  geocode_cache st !! PyStr.strip query = None ->
  let q := PyStr.strip query in
  let '(e, st') := geocode_cached geocoder st query in
  calls st' = calls st ++ [q] /\
  geocode_cache st' = <[ q := e ]> (geocode_cache st) /\
  tried_queries st' = tried_queries st /\
  e = match geocoder (calls st) q with
      | Located lat lon address => (Some lat, Some lon, Some address)
      | _ => miss
      end.
Proof.
  intros Hq He. unfold geocode_cached. rewrite Hq, He. simpl.
  destruct (geocoder (calls st) (PyStr.strip query)); simpl; auto.
Qed.

Lemma geocode_cached_covers st query :
  cache_covers st -> cache_covers (geocode_cached geocoder st query).2.
Proof.
  intros (Hnd & Hin & Hkeys).
  destruct (PyStr.truthy (PyStr.strip query)) eqn:Hq;
    [|by rewrite geocode_cached_blank].
  destruct (geocode_cache st !! PyStr.strip query) as [e|] eqn:He;
    [by rewrite (geocode_cached_hit _ _ e)|].
  pose proof (geocode_cached_call st query Hq He) as H. cbv zeta in H.
  destruct (geocode_cached geocoder st query) as [e st'].
  destruct H as (Hc & Hm & _). simpl. split; [|split].
  - rewrite Hc. apply NoDup_app. split; [done|]. split; [|apply NoDup_singleton].
    intros x Hx Hx'. apply list_elem_of_singleton in Hx'. subst x.
    apply Hin in Hx. rewrite He in Hx. by destruct Hx.
  - intros x. rewrite Hc, Hm. intros [Hx|Hx]%elem_of_app.
    + destruct (decide (PyStr.strip query = x)) as [->|Hne].
      * rewrite lookup_insert_eq. eauto.
      * rewrite lookup_insert_ne by done. auto.
    + apply list_elem_of_singleton in Hx. subst x. rewrite lookup_insert_eq. eauto.
  - intros k. rewrite Hm.
    destruct (decide (PyStr.strip query = k)) as [<-|Hne].
    + intros _. split; [apply strip_idem | exact Hq].
    + rewrite lookup_insert_ne by done. apply Hkeys.
Qed.

Lemma lookup_query_covers st q :
  cache_covers st -> cache_covers (lookup_query geocoder st q).2.
Proof.
  intros Hst. unfold lookup_query.
  pose proof (geocode_cached_covers st q Hst) as H.
  destruct (geocode_cached geocoder st q) as [e st1].
  destruct (bool_decide (q ∈ tried_queries st)), (geocode_cache st !! q); simpl; try done.
  all: by apply (cache_covers_ext st1).
Qed.

Lemma try_queries_covers candidates hint qs : forall st,
  cache_covers st -> cache_covers (try_queries geocoder candidates hint st qs).2.
Proof.
  induction qs as [|q rest IH]; intros st Hst; simpl; [done|].
  pose proof (lookup_query_covers st q Hst) as H1.
  destruct (lookup_query geocoder st q) as [e st1].
  specialize (IH st1 H1).
  destruct (try_queries geocoder candidates hint st1 rest) as [[r tried] st2].
  destruct e as [[[lat|] [lon|]] display]; simpl in *; done.
Qed.

Lemma process_feature_covers st feature :
  cache_covers st ->
  cache_covers (process_feature geocoder extract_locations repr st feature).2.
Proof.
  intros Hst. unfold process_feature, refine.
  destruct (candidates_of _ _) as [candidates|msg]; simpl;
    [|by apply (cache_covers_ext st)].
  match goal with |- context [try_queries ?g ?c ?k ?s ?q] =>
    pose proof (try_queries_covers c k q s Hst) as Hs;
    destruct (try_queries g c k s q) as [[r tried] st1] end.
  destruct r as [f|]; simpl in *; by apply (cache_covers_ext st1).
Qed.

Lemma process_features_covers features : forall st,
  cache_covers st ->
  cache_covers (process_features geocoder extract_locations repr st features).2.
Proof.
  induction features as [|feature rest IH]; intros st Hst; simpl; [done|].
  pose proof (process_feature_covers st feature Hst) as H1.
  destruct (process_feature geocoder extract_locations repr st feature) as [feature' st1].
  specialize (IH st1 H1).
  destruct (process_features geocoder extract_locations repr st1 rest) as [rest' st2].
  done.
Qed.

Lemma extends_refl st : extends st st.
Proof. split; [auto | done]. Qed.

Lemma extends_trans st1 st2 st3 : extends st1 st2 -> extends st2 st3 -> extends st1 st3.
Proof. intros [H1 H2] [H3 H4]. split; [auto | set_solver]. Qed.

Lemma geocode_cached_extends st query : extends st (geocode_cached geocoder st query).2.
Proof.
  destruct (PyStr.truthy (PyStr.strip query)) eqn:Hq;
    [|rewrite geocode_cached_blank by done; apply extends_refl].
  destruct (geocode_cache st !! PyStr.strip query) as [e|] eqn:He;
    [rewrite (geocode_cached_hit _ _ e) by done; apply extends_refl|].
  pose proof (geocode_cached_call st query Hq He) as H. cbv zeta in H.
  destruct (geocode_cached geocoder st query) as [e st'].
  destruct H as (_ & Hm & Ht & _). simpl. split; [|by rewrite Ht].
  intros k v Hk. rewrite Hm.
  rewrite lookup_insert_ne; [done|]. intros <-. by rewrite He in Hk.
Qed.

(** What a lookup leaves behind: the query is marked as tried, and its
    answer is either the miss given to a blank query or the cached value
    of the query, stripped or as it stands. *)
Lemma lookup_query_result st q :
  let '(e, st1) := lookup_query geocoder st q in
  extends st st1 /\
  q ∈ tried_queries st1 /\
  ((PyStr.truthy (PyStr.strip q) = false /\ e = miss) \/
   (PyStr.truthy (PyStr.strip q) = true /\
    geocode_cache st1 !! PyStr.strip q = Some e) \/
   geocode_cache st1 !! q = Some e).
Proof.
  unfold lookup_query.
  destruct (bool_decide (q ∈ tried_queries st)) eqn:Hq;
    [destruct (geocode_cache st !! q) as [e|] eqn:He|].
  { apply bool_decide_eq_true in Hq. split; [apply extends_refl|]. auto. }
  all: pose proof (geocode_cached_extends st q) as Hext;
    destruct (PyStr.truthy (PyStr.strip q)) eqn:Hs;
    [ destruct (geocode_cache st !! PyStr.strip q) as [e'|] eqn:He';
      [ rewrite (geocode_cached_hit _ _ e') in * by done
      | pose proof (geocode_cached_call st q Hs He') as H; cbv zeta in H;
        destruct (geocode_cached geocoder st q) as [e' st1];
        destruct H as (_ & Hm & _) ]
    | rewrite geocode_cached_blank in * by done ];
    simpl in *.
  all: split; [destruct Hext as [H1 H2]; split; [exact H1 | simpl; set_solver]|].
  all: split; [set_solver|].
  all: try (left; done).
  all: right; left; split; [done|]; try done.
  all: by rewrite Hm, lookup_insert_eq.
Qed.

(** Looking a query up again, in any later state, gives the same answer
    and calls nothing. *)
Lemma lookup_query_again st q st' :
  cache_covers st' ->
  extends (lookup_query geocoder st q).2 st' ->
  exists st'',
    lookup_query geocoder st' q = ((lookup_query geocoder st q).1, st'') /\
    geocode_cache st'' = geocode_cache st' /\
    calls st'' = calls st' /\
    tried_queries st' ⊆ tried_queries st''.
Proof.
  intros (_ & _ & Hkeys) Hext.
  pose proof (lookup_query_result st q) as H.
  destruct (lookup_query geocoder st q) as [e st1]. simpl in *.
  destruct H as (_ & Htried & Hres). destruct Hext as [Hcache Hsub].
  assert (Hq : bool_decide (q ∈ tried_queries st') = true)
    by (apply bool_decide_eq_true; set_solver).
  unfold lookup_query. rewrite Hq.
  destruct Hres as [[Hblank ->] | [[Hs He] | He]].
  - destruct (geocode_cache st' !! q) as [e'|] eqn:He'.
    + destruct (Hkeys q) as [Hk1 Hk2]; [eauto|]. congruence.
    + rewrite geocode_cached_blank by done. eexists. simpl. repeat split. set_solver.
  - apply Hcache in He.
    destruct (geocode_cache st' !! q) as [e'|] eqn:He'.
    + destruct (Hkeys q) as [Hk1 Hk2]; [eauto|].
      rewrite Hk1 in He. assert (e' = e) as -> by congruence.
      eexists. repeat split. done.
    + rewrite (geocode_cached_hit _ _ e) by done.
      eexists. simpl. repeat split. set_solver.
  - apply Hcache in He. rewrite He. eexists. repeat split. done.
Qed.

Lemma try_queries_extends candidates hint qs : forall st,
  extends st (try_queries geocoder candidates hint st qs).2.
Proof.
  induction qs as [|q rest IH]; intros st; simpl; [apply extends_refl|].
  pose proof (lookup_query_result st q) as H1.
  destruct (lookup_query geocoder st q) as [e st1]. destruct H1 as [H1 _].
  specialize (IH st1).
  destruct (try_queries geocoder candidates hint st1 rest) as [[r tried] st2].
  destruct e as [[[lat|] [lon|]] display]; simpl in *; try done.
  all: by apply (extends_trans st st1 st2).
Qed.

(** Running the loop again over the same queries, in any later state,
    finds the same and calls nothing. *)
Lemma try_queries_again candidates hint qs : forall st st',
  cache_covers st' ->
  extends (try_queries geocoder candidates hint st qs).2 st' ->
  (try_queries geocoder candidates hint st' qs).1
    = (try_queries geocoder candidates hint st qs).1 /\
  calls (try_queries geocoder candidates hint st' qs).2 = calls st' /\
  geocode_cache (try_queries geocoder candidates hint st' qs).2 = geocode_cache st'.
Proof.
  induction qs as [|q rest IH]; intros st st' Hcov Hext; simpl; [done|].
  pose proof (lookup_query_again st q st' Hcov) as Hagain.
  pose proof (try_queries_extends candidates hint rest (lookup_query geocoder st q).2) as Hrest.
  simpl in Hext.
  destruct (lookup_query geocoder st q) as [e st1]. simpl in *.
  specialize (IH st1).
  destruct (try_queries geocoder candidates hint st1 rest) as [[r tried] st2].
  simpl in *.
  assert (Hst1 : extends st1 st').
  { destruct e as [[[lat|] [lon|]] display]; simpl in Hext; try done.
    all: by apply (extends_trans st1 st2 st'). }
  destruct (Hagain Hst1) as (st'' & -> & Hc & Hl & Ht).
  destruct e as [[[lat|] [lon|]] display]; simpl in *; try done.
  all: assert (Hcov'' : cache_covers st'') by (by apply (cache_covers_ext st'));
    assert (Hext'' : extends st2 st'')
      by (destruct Hext as [E1 E2]; split; [rewrite Hc; exact E1 | set_solver]);
    destruct (IH st'' Hcov'' Hext'') as (IH1 & IH2 & IH3);
    destruct (try_queries geocoder candidates hint st'' rest) as [[r' tried'] st3];
    simpl in *; subst; repeat split; congruence.
Qed.

(** C4: [geocode_cached] looks in the cache before it calls out; a hit
    returns the cached answer and leaves everything, the call log
    included, as it was; a string that is not cached is sent out once
    and its answer stored, as a miss when the geocoder raised or found
    nothing; over a whole run no string is sent to the geocoder twice;
    and resolving the same query list a second time, after any run,
    finds what the first resolution found and calls the geocoder for
    nothing. *)
Theorem cache_idempotence :
  (forall st query e,
     PyStr.truthy (PyStr.strip query) = true ->
     geocode_cache st !! PyStr.strip query = Some e ->
     geocode_cached geocoder st query = (e, st)) /\
  (forall st query,
     PyStr.truthy (PyStr.strip query) = true ->
     geocode_cache st !! PyStr.strip query = None ->
     (forall lat lon address,
        geocoder (calls st) (PyStr.strip query) <> Located lat lon address) ->
     exists st',
       geocode_cached geocoder st query = (miss, st') /\
       geocode_cache st' !! PyStr.strip query = Some miss /\
       calls st' = calls st ++ [PyStr.strip query]) /\
  (forall st query,
     let st' := (geocode_cached geocoder st query).2 in
     calls st' = calls st \/
     (geocode_cache st !! PyStr.strip query = None /\
      calls st' = calls st ++ [PyStr.strip query] /\
      is_Some (geocode_cache st' !! PyStr.strip query))) /\
  (forall features,
     NoDup (calls (process_features geocoder extract_locations repr
                     initial_state features).2)) /\
  (forall features candidates hint,
     let st0 := (process_features geocoder extract_locations repr
                   initial_state features).2 in
     let qs := query_attempts candidates hint in
     let first := try_queries geocoder candidates hint st0 qs in
     let second := try_queries geocoder candidates hint first.2 qs in
     NoDup (calls second.2) /\
     calls second.2 = calls first.2 /\
     second.1.1 = first.1.1).
Proof.
  split; [intros st query e; apply geocode_cached_hit|].
  split.
  { intros st query Hq He Hfail.
    pose proof (geocode_cached_call st query Hq He) as H. cbv zeta in H.
    destruct (geocode_cached geocoder st query) as [e st'].
    destruct H as (Hc & Hm & _ & Hres).
    assert (e = miss) as ->.
    { rewrite Hres. destruct (geocoder (calls st) (PyStr.strip query)) eqn:Hg; try done.
      by destruct (Hfail latitude longitude address). }
    exists st'. rewrite Hm, lookup_insert_eq. auto. }
  split.
  { intros st query. cbv zeta.
    destruct (PyStr.truthy (PyStr.strip query)) eqn:Hq;
      [|left; by rewrite geocode_cached_blank].
    destruct (geocode_cache st !! PyStr.strip query) as [e|] eqn:He;
      [left; by rewrite (geocode_cached_hit _ _ e)|].
    right. pose proof (geocode_cached_call st query Hq He) as H. cbv zeta in H.
    destruct (geocode_cached geocoder st query) as [e st'].
    destruct H as (Hc & Hm & _). simpl.
    rewrite Hm, lookup_insert_eq. eauto. }
  split.
  { intros features. apply (process_features_covers features initial_state).
    apply cache_covers_initial. }
  intros features candidates hint. cbv zeta.
  set (st0 := (process_features geocoder extract_locations repr initial_state features).2).
  set (qs := query_attempts candidates hint).
  assert (H0 : cache_covers st0)
    by apply process_features_covers, cache_covers_initial.
  assert (H1 : cache_covers (try_queries geocoder candidates hint st0 qs).2)
    by by apply try_queries_covers.
  destruct (try_queries_again candidates hint qs st0
              (try_queries geocoder candidates hint st0 qs).2 H1 (extends_refl _))
    as (Hsame & Hcalls & _).
  split; [by apply try_queries_covers|].
  split; [exact Hcalls | by rewrite Hsame].
Qed.
End Cache.

(** ** What a feature looks like afterwards *)

Section Outcome.
Import PreciseLocation.

Variable geocoder : list string -> string -> geo_result.
Variable extract_locations : string -> py (list string).
Variable repr : json -> string.

Lemma lookup_query_counters st q :
  let st' := (lookup_query geocoder st q).2 in
  updated st' = updated st /\ skipped st' = skipped st /\
  errors st' = errors st /\ csv_rows st' = csv_rows st.
Proof.
  unfold lookup_query, geocode_cached.
  destruct (bool_decide (q ∈ tried_queries st)), (geocode_cache st !! q);
    destruct (PyStr.truthy (PyStr.strip q)); simpl; try done;
    destruct (geocode_cache st !! PyStr.strip q); simpl; try done;
    destruct (geocoder (calls st) (PyStr.strip q)); simpl; done.
Qed.

Lemma try_queries_counters candidates hint qs : forall st,
  let st' := (try_queries geocoder candidates hint st qs).2 in
  updated st' = updated st /\ skipped st' = skipped st /\
  errors st' = errors st /\ csv_rows st' = csv_rows st.
Proof.
  induction qs as [|q rest IH]; intros st; simpl; [done|].
  pose proof (lookup_query_counters st q) as H1. cbv zeta in H1.
  destruct (lookup_query geocoder st q) as [e st1].
  specialize (IH st1). cbv zeta in IH.
  destruct (try_queries geocoder candidates hint st1 rest) as [[r tried] st2].
  simpl in *.
  destruct e as [[[lat|] [lon|]] display]; simpl; intuition congruence.
Qed.

(** When every answer lacks a coordinate the loop found nothing. *)
Lemma try_queries_all_fail candidates hint qs st :
  Forall (fun p => has_coordinate p.2 = false)
         (try_queries geocoder candidates hint st qs).1.2 ->
  (try_queries geocoder candidates hint st qs).1.1 = None.
Proof.
  pose proof (try_queries_trace geocoder candidates hint qs st) as H.
  destruct (try_queries geocoder candidates hint st qs) as [[r tried] st'].
  simpl. intros Hall. destruct r as [f|]; [|done].
  destruct H as (before & display & later & -> & _).
  apply Forall_app in Hall as [_ Hlast].
  apply Forall_cons in Hlast as [Hlast _]. simpl in Hlast. discriminate.
Qed.

(** C8: when every query of the list was looked up and none gave a
    coordinate, the feature is processed without an exception, it gets
    no coordinate and a null [refine_source], and the run counts it as
    skipped, not as updated and not as an error. *)
Theorem no_result_is_skipped st feature candidates :
  let props := default ∅ (properties feature) in
  let hint := kabupaten_of repr props in
  candidates_of extract_locations (cleaned_of props) = Ok candidates ->
  Forall (fun p => has_coordinate p.2 = false)
    (try_queries geocoder candidates hint st (query_attempts candidates hint)).1.2 ->
  exists feature' st' props' row,
    refine geocoder extract_locations repr st feature = Ok (feature', st') /\
    process_feature geocoder extract_locations repr st feature = (feature', st') /\
    properties feature' = Some props' /\
    get props' "refine_status" = JStr "no_geocode_found" /\
    get props' "refined_location" = JNull /\
    get props' "refine_source" = JNull /\
    props' !! "latitude" = props !! "latitude" /\
    props' !! "longitude" = props !! "longitude" /\
    skipped st' = S (skipped st) /\
    errors st' = errors st /\
    updated st' = updated st /\
    csv_rows st' = csv_rows st ++ [row] /\
    get row "refined_lat" = JNull /\
    get row "refined_lon" = JNull /\
    get row "refine_source" = JNull.
Proof.
  intros props hint Hc Hall.
  pose proof (try_queries_all_fail _ _ _ _ Hall) as Hnone.
  pose proof (try_queries_counters candidates hint (query_attempts candidates hint) st) as Hk.
  cbv zeta in Hk.
  unfold process_feature, refine. fold props. rewrite Hc. simpl. fold hint.
  destruct (try_queries geocoder candidates hint st (query_attempts candidates hint))
    as [[r tried] st1].
  simpl in Hnone, Hk. subst r. simpl.
  destruct Hk as (Hu & Hs & He & Hrows).
  do 4 eexists.
  do 3 (split; [reflexivity|]). simpl. rewrite Hu, Hs, He, Hrows.
  repeat split.
  all: unfold get, csv_row; repeat (rewrite lookup_insert_ne by done);
    rewrite ?lookup_insert_eq; reflexivity.
Qed.

(** C10: after a success the geometry is the point [longitude,
    latitude] of the coordinate found, the very values stored under
    [latitude] and [longitude]; after a failure the geometry is the one
    the feature had and the properties are the old ones with the three
    status entries set. *)
Theorem geometry_follows_resolution st feature candidates :
  let props := default ∅ (properties feature) in
  let hint := kabupaten_of repr props in
  let outcome :=
    (try_queries geocoder candidates hint st (query_attempts candidates hint)).1.1 in
  let feature' := (process_feature geocoder extract_locations repr st feature).1 in
  let props' := default ∅ (properties feature') in
  candidates_of extract_locations (cleaned_of props) = Ok candidates ->
  match outcome with
  | Some f =>
      geometry feature' =
        Some (JObj [("type", JStr "Point");
                    ("coordinates", JArr [JFloat (found_lon f); JFloat (found_lat f)])]) /\
      get props' "latitude" = JFloat (found_lat f) /\
      get props' "longitude" = JFloat (found_lon f)
  | None =>
      geometry feature' = geometry feature /\
      props' = <[ "refine_source" := JNull ]>
                 (<[ "refined_location" := JNull ]>
                    (<[ "refine_status" := JStr "no_geocode_found" ]> props)) /\
      forall k, k <> "refine_status" -> k <> "refined_location" -> k <> "refine_source" ->
                props' !! k = props !! k
  end.
Proof.
  intros props hint outcome feature' props' Hc.
  subst outcome feature' props'.
  unfold process_feature, refine. fold props. rewrite Hc. simpl. fold hint.
  destruct (try_queries geocoder candidates hint st (query_attempts candidates hint))
    as [[r tried] st1].
  simpl. destruct r as [f|]; simpl.
  - repeat split.
    + unfold get. rewrite lookup_insert_ne by done. by rewrite lookup_insert_eq.
    + unfold get. by rewrite lookup_insert_eq.
  - repeat split. intros k H1 H2 H3.
    rewrite !lookup_insert_ne by done. reflexivity.
Qed.
Lemma geocode_cached_tried st query :
  tried_queries (geocode_cached geocoder st query).2 = tried_queries st.
Proof.
  unfold geocode_cached.
  destruct (PyStr.truthy (PyStr.strip query)); simpl; [|done].
  destruct (geocode_cache st !! PyStr.strip query); simpl; [done|].
  destruct (geocoder (calls st) (PyStr.strip query)); done.
Qed.

Lemma lookup_query_tried st q x :
  x = q \/ x ∈ tried_queries st -> x ∈ tried_queries (lookup_query geocoder st q).2.
Proof.
  intros Hx. unfold lookup_query.
  pose proof (geocode_cached_tried st q) as Ht.
  destruct (geocode_cached geocoder st q) as [e st1]. simpl in Ht.
  destruct (bool_decide (q ∈ tried_queries st)) eqn:Hq, (geocode_cache st !! q);
    simpl; rewrite ?Ht; try set_solver.
  apply bool_decide_eq_true in Hq. destruct Hx as [->|Hx]; done.
Qed.

Lemma try_queries_tried candidates hint qs : forall st x,
  x ∈ tried_queries st ->
  x ∈ tried_queries (try_queries geocoder candidates hint st qs).2.
Proof.
  induction qs as [|q rest IH]; intros st x Hx; simpl; [done|].
  pose proof (lookup_query_tried st q x (or_intror Hx)) as H1.
  destruct (lookup_query geocoder st q) as [e st1].
  specialize (IH st1 x H1).
  destruct (try_queries geocoder candidates hint st1 rest) as [[r tried] st2].
  destruct e as [[[lat|] [lon|]] display]; simpl in *; done.
Qed.

Lemma try_queries_tried_head candidates hint q rest st :
  q ∈ tried_queries (try_queries geocoder candidates hint st (q :: rest)).2.
Proof.
  simpl.
  pose proof (lookup_query_tried st q q (or_introl eq_refl)) as H1.
  destruct (lookup_query geocoder st q) as [e st1].
  pose proof (try_queries_tried candidates hint rest st1 q H1) as H2.
  destruct (try_queries geocoder candidates hint st1 rest) as [[r tried] st2].
  destruct e as [[[lat|] [lon|]] display]; simpl in *; done.
Qed.

End Outcome.

(** C4 on a run over the same feature twice. *)
Lemma cache_idempotence_witness :
  NoDup (PreciseLocation.calls
           (PreciseLocation.process_features
              (geocoder_only "Gianyar, Bali, Indonesia" (-8.5)%float 115.25%float)
              (extract_with LocationExtractor.first_seen) repr_blank
              PreciseLocation.initial_state [ubud_feature; ubud_feature]).2).
Proof.
  exact (proj1 (proj2 (proj2 (proj2
    (cache_idempotence
       (geocoder_only "Gianyar, Bali, Indonesia" (-8.5)%float 115.25%float)
       (extract_with LocationExtractor.first_seen) repr_blank))))
    [ubud_feature; ubud_feature]).
Defined.

(** C8 on a feature no query resolves. *)
Lemma no_result_is_skipped_witness :
  PreciseLocation.skipped
    (PreciseLocation.process_feature geocoder_none
       (extract_with LocationExtractor.first_seen) repr_blank
       PreciseLocation.initial_state ubud_feature).2 = 1%nat.
Proof.
  destruct (no_result_is_skipped geocoder_none
              (extract_with LocationExtractor.first_seen) repr_blank
              PreciseLocation.initial_state ubud_feature ["Desa Ubud"])
    as (feature' & st' & props' & row & _ & -> & _ & _ & _ & _ & _ & _ & Hs & _).
  - vm_compute. reflexivity.
  - vm_compute. repeat constructor.
  - exact Hs.
Defined.

(** C10 on a feature the hint-only query resolves. *)
Lemma geometry_follows_resolution_witness :
  PreciseLocation.geometry
    (PreciseLocation.process_feature
       (geocoder_only "Gianyar, Bali, Indonesia" (-8.5)%float 115.25%float)
       (extract_with LocationExtractor.first_seen) repr_blank
       PreciseLocation.initial_state ubud_feature).1
  = Some (PreciseLocation.JObj
            [("type", PreciseLocation.JStr "Point");
             ("coordinates",
              PreciseLocation.JArr [PreciseLocation.JFloat 115.25%float;
                                    PreciseLocation.JFloat (-8.5)%float])]).
Proof.
  pose proof (geometry_follows_resolution
                (geocoder_only "Gianyar, Bali, Indonesia" (-8.5)%float 115.25%float)
                (extract_with LocationExtractor.first_seen) repr_blank
                PreciseLocation.initial_state ubud_feature ["Desa Ubud"]) as H.
  cbv zeta in H.
  assert (Hc : PreciseLocation.candidates_of (extract_with LocationExtractor.first_seen)
                 (PreciseLocation.cleaned_of
                    (default ∅ (PreciseLocation.properties ubud_feature)))
               = Ok ["Desa Ubud"]) by (vm_compute; reflexivity).
  specialize (H Hc).
  assert (E :
    (PreciseLocation.try_queries
       (geocoder_only "Gianyar, Bali, Indonesia" (-8.5)%float 115.25%float)
       ["Desa Ubud"]
       (PreciseLocation.kabupaten_of repr_blank
          (default ∅ (PreciseLocation.properties ubud_feature)))
       PreciseLocation.initial_state
       (PreciseLocation.query_attempts ["Desa Ubud"]
          (PreciseLocation.kabupaten_of repr_blank
             (default ∅ (PreciseLocation.properties ubud_feature))))).1.1
    = Some {| PreciseLocation.found_lat := (-8.5)%float;
              PreciseLocation.found_lon := 115.25%float;
              PreciseLocation.found_display := Some "Gianyar, Bali, Indonesia";
              PreciseLocation.used_query := "Gianyar, Bali, Indonesia";
              PreciseLocation.used_source := "kabupaten_fallback" |})
    by (vm_compute; reflexivity).
  rewrite E in H. exact (proj1 H).
Defined.

(** ** The ranking of the extracted places *)

Section CaseFacts.
Import PyStr.

Ltac by_cases_on c := destruct c as [[] [] [] [] [] [] [] []]; reflexivity.

Lemma isalpha_lower_char c : isalpha (lower_char c) = isalpha c.
Proof. by_cases_on c. Qed.

Lemma isalpha_upper_char c : isalpha (upper_char c) = isalpha c.
Proof. by_cases_on c. Qed.

Lemma lower_lower_char c : lower_char (lower_char c) = lower_char c.
Proof. by_cases_on c. Qed.

Lemma upper_lower_char c : upper_char (lower_char c) = upper_char c.
Proof. by_cases_on c. Qed.

Lemma lower_upper_char c : lower_char (upper_char c) = lower_char c.
Proof. by_cases_on c. Qed.

Lemma upper_upper_char c : upper_char (upper_char c) = upper_char c.
Proof. by_cases_on c. Qed.

Lemma lower_char_uncased c : isalpha c = false -> lower_char c = c.
Proof. destruct c as [[] [] [] [] [] [] [] []]; (reflexivity || discriminate). Qed.

Lemma title_from_lower b s : title_from b (lower s) = title_from b s.
Proof.
  revert b. induction s as [|c s IH]; intros b; simpl; [done|].
  rewrite isalpha_lower_char.
  destruct (isalpha c) eqn:Hc.
  - rewrite IH, lower_lower_char, upper_lower_char. reflexivity.
  - rewrite IH, lower_char_uncased by done. reflexivity.
Qed.

Lemma title_from_idem b s : title_from b (title_from b s) = title_from b s.
Proof.
  revert b. induction s as [|c s IH]; intros b; simpl; [done|].
  destruct (isalpha c) eqn:Hc; simpl.
  - destruct b; rewrite ?isalpha_lower_char, ?isalpha_upper_char, Hc, IH,
      ?lower_lower_char, ?upper_upper_char; reflexivity.
  - rewrite Hc, IH. reflexivity.
Qed.

(** Two title-cased strings that agree up to case are equal. *)
Lemma title_case_insensitive x y :
  lower (title x) = lower (title y) -> title x = title y.
Proof.
  intros H. unfold title in *.
  rewrite <- (title_from_idem false x), <- (title_from_idem false y).
  rewrite <- (title_from_lower false (title_from false x)).
  rewrite <- (title_from_lower false (title_from false y)).
  by rewrite H.
Qed.
End CaseFacts.

Section Sorting.
Import LocationExtractor.
Context {A : Type} (key : A -> nat).

Lemma insert_desc_perm x xs : insert_desc key x xs ≡ₚ x :: xs.
Proof.
  induction xs as [|y ys IH]; simpl; [done|].
  destruct (Nat.ltb (key x) (key y)); [|done].
  rewrite IH. apply Permutation_swap.
Qed.

Lemma sorted_desc_perm xs : sorted_desc key xs ≡ₚ xs.
Proof.
  induction xs as [|x xs IH]; simpl; [done|].
  unfold sorted_desc in *. simpl. rewrite insert_desc_perm. by rewrite IH.
Qed.

Lemma insert_desc_sorted x xs :
  StronglySorted (key_ge key) xs -> StronglySorted (key_ge key) (insert_desc key x xs).
Proof.
  induction xs as [|y ys IH]; intros Hs; simpl.
  - repeat constructor.
  - apply StronglySorted_inv in Hs as [Hys Hy].
    destruct (Nat.ltb (key x) (key y)) eqn:Hlt.
    + apply Nat.ltb_lt in Hlt. constructor; [by apply IH|].
      rewrite (insert_desc_perm x ys). constructor; [unfold key_ge; lia | done].
    + apply Nat.ltb_ge in Hlt. constructor.
      * constructor; done.
      * constructor; [done|].
        eapply Forall_impl; [exact Hy|]. unfold key_ge. intros z Hz. lia.
Qed.

Lemma sorted_desc_sorted xs : StronglySorted (key_ge key) (sorted_desc key xs).
Proof.
  induction xs as [|x xs IH]; [constructor|].
  unfold sorted_desc in *. simpl. by apply insert_desc_sorted.
Qed.

(** Stability: the elements of any one key keep their order. *)
Lemma insert_desc_stable n x xs :
  filter (fun z => key z = n) (insert_desc key x xs)
  = filter (fun z => key z = n) (x :: xs).
Proof.
  induction xs as [|y ys IH]; simpl; [done|].
  destruct (Nat.ltb (key x) (key y)) eqn:Hlt; [|done].
  apply Nat.ltb_lt in Hlt.
  rewrite (filter_cons _ y), IH, !filter_cons.
  destruct (decide (key x = n)), (decide (key y = n)); try done. lia.
Qed.

Lemma sorted_desc_stable n xs :
  filter (fun z => key z = n) (sorted_desc key xs) = filter (fun z => key z = n) xs.
Proof.
  induction xs as [|x xs IH]; [done|].
  unfold sorted_desc in *. simpl. rewrite insert_desc_stable, !filter_cons, IH. done.
Qed.
End Sorting.

Section Ranking.
Import LocationExtractor.

Lemma first_seen_elem xs x : x ∈ first_seen xs <-> x ∈ xs.
Proof.
  induction xs as [|y ys IH]; simpl; [done|].
  rewrite !elem_of_cons, list_elem_of_filter, IH.
  destruct (decide (x = y)); naive_solver.
Qed.

Lemma first_seen_NoDup xs : NoDup (first_seen xs).
Proof.
  induction xs as [|y ys IH]; simpl; [constructor|].
  constructor; [|by apply NoDup_filter].
  rewrite list_elem_of_filter. naive_solver.
Qed.

Lemma first_seen_ok : set_order_ok first_seen.
Proof. intros xs. split; [apply first_seen_NoDup | apply first_seen_elem]. Qed.

Lemma last_seen_first_ok : set_order_ok last_seen_first.
Proof.
  intros xs. unfold last_seen_first. split.
  - rewrite reverse_Permutation. apply first_seen_NoDup.
  - intros x. rewrite elem_of_reverse. apply first_seen_elem.
Qed.

Variable nlp : string -> py (list entity).
Variable set_order : list string -> list string.

(** C3 (as the code has it): the result holds the normalized matches
    (lexical patterns, then the NER places), each once and no two equal
    up to case, in decreasing order of their count among the normalized
    matches; names with the same count come in the order in which the
    set of normalized matches is iterated, which is first appearance
    only when the set happens to iterate so. *)
Theorem extract_locations_ranked text ents :
  set_order_ok set_order ->
  nlp text = Ok ents ->
  let cleaned :=
    map normalize (rule_based text ++ map ent_text (List.filter is_place ents)) in
  let count := fun x => PyStr.count x cleaned in
  exists result,
    extract_locations nlp set_order text = Ok result /\
    (forall x, x ∈ result <-> x ∈ cleaned) /\
    NoDup result /\
    (forall x y, x ∈ result -> y ∈ result -> PyStr.lower x = PyStr.lower y -> x = y) /\
    StronglySorted (fun x y => (count y <= count x)%nat) result /\
    (forall n, filter (fun x => count x = n) result
               = filter (fun x => count x = n) (set_order cleaned)) /\
    (set_order cleaned = first_seen cleaned -> result = spec_rank cleaned).
Proof.
  intros Hok Hnlp cleaned count.
  exists (rank set_order cleaned).
  destruct (Hok cleaned) as [Hnd Hin].
  assert (Hperm : rank set_order cleaned ≡ₚ set_order cleaned)
    by apply sorted_desc_perm.
  assert (Helem : forall x, x ∈ rank set_order cleaned <-> x ∈ cleaned).
  { intros x. rewrite Hperm. apply Hin. }
  split; [unfold extract_locations; rewrite Hnlp; reflexivity|].
  split; [exact Helem|].
  split; [by rewrite Hperm|].
  split.
  { intros x y Hx Hy Hl.
    apply Helem in Hx. apply Helem in Hy.
    apply list_elem_of_fmap in Hx as (a & -> & _).
    apply list_elem_of_fmap in Hy as (b & -> & _).
    unfold normalize in *. by apply title_case_insensitive. }
  split; [apply (sorted_desc_sorted count)|].
  split; [intros n; apply (sorted_desc_stable count)|].
  intros E. unfold rank, spec_rank. by rewrite E.
Qed.
End Ranking.

(** C3 (as the spec has it) fails: "Desa Ubud" and "Desa Kuta" occur once
    each, "Desa Ubud" first, and under a legitimate iteration order of
    the set the result lists "Desa Kuta" first. *)
Lemma ties_follow_set_order_not_first_appearance :
  set_order_ok last_seen_first /\
  LocationExtractor.extract_locations no_entities last_seen_first "desa Ubud desa Kuta"
    = Ok ["Desa Kuta"; "Desa Ubud"] /\
  LocationExtractor.extract_locations no_entities last_seen_first "desa Ubud desa Kuta"
    <> Ok (spec_rank ["Desa Ubud"; "Desa Kuta"]) /\
  spec_rank ["Desa Ubud"; "Desa Kuta"] = ["Desa Ubud"; "Desa Kuta"].
Proof.
  split; [apply last_seen_first_ok|].
  split; [vm_compute; reflexivity|].
  split; [vm_compute; discriminate | vm_compute; reflexivity].
Qed.

(** C3 on a text with a repeated place. *)
Lemma extract_locations_ranked_witness :
  exists result,
    LocationExtractor.extract_locations no_entities LocationExtractor.first_seen
      "kota Denpasar, desa Ubud, KOTA DENPASAR" = Ok result /\
    NoDup result.
Proof.
  destruct (extract_locations_ranked no_entities LocationExtractor.first_seen
              "kota Denpasar, desa Ubud, KOTA DENPASAR" [] first_seen_ok eq_refl)
    as (result & H1 & _ & H2 & _).
  exists result. split; [exact H1 | exact H2].
Defined.

(** ** The spiders *)

Section Pagination.
Variable date : Type.


Lemma next_page_after_items req hit hits :
  CNN.next_page date
    (CNN.yielded date
       (CNN.parse_search date
          {| CNN.search_url := CNN.url req; CNN.search_meta := CNN.req_meta req;
             CNN.search_body_of := CNN.Json (hit :: hits) |}))
  = Some (page_request_after req).
Proof. reflexivity. Qed.



Variable urljoin : string -> string -> string.



End Pagination.


Section Redirects.
Variable date : Type.
Variable indo_to_datetime : string -> py date.

Lemma parse_redirect response target :
  CNN.location response = Some (Ok target) ->
  CNN.has_scheme target = true ->
  CNN.parse date indo_to_datetime response
  = Ok [CNN.Request {| CNN.url := target; CNN.callback := CNN.Parse;
                       CNN.req_meta := CNN.page_meta response |}].
Proof.
  intros H Hs. unfold CNN.parse, CNN.scrapy_request. rewrite H. simpl. by rewrite Hs.
Qed.

Lemma parse_redirect_refused response target :
  CNN.location response = Some (Ok target) ->
  CNN.has_scheme target = false ->
  CNN.parse date indo_to_datetime response
  = Raise ("Missing scheme in request url: " +:+ target).
Proof.
  intros H Hs. unfold CNN.parse, CNN.scrapy_request. rewrite H. simpl. by rewrite Hs.
Qed.

Lemma parse_redirect_undecodable response msg :
  CNN.location response = Some (Raise msg) ->
  CNN.parse date indo_to_datetime response = Raise msg.
Proof. intros H. unfold CNN.parse. by rewrite H. Qed.

Lemma redirect_chain_length req targets :
  length (redirect_chain req targets) = length targets.
Proof.
  revert req. induction targets as [|t later IH]; intros req; simpl; [done|].
  by rewrite IH.
Qed.

Lemma follow_moved target later req :
  CNN.has_scheme target = true ->
  CNN.follow date indo_to_datetime (CNN.Moved target :: later) req
  = (redirected req target
       :: (CNN.follow date indo_to_datetime later (redirected req target)).1,
     (CNN.follow date indo_to_datetime later (redirected req target)).2).
Proof.
  intros Hs.
  change (CNN.follow date indo_to_datetime (CNN.Moved target :: later) req)
    with (match CNN.parse date indo_to_datetime (CNN.respond req (CNN.Moved target)) with
          | Raise _ => ([], [])
          | Ok out =>
              fold_right
                (fun o acc =>
                   match o with
                   | CNN.Request r =>
                       let '(reqs, items) := CNN.follow date indo_to_datetime later r in
                       (r :: reqs ++ fst acc, items ++ snd acc)
                   | CNN.Item i => (fst acc, i :: snd acc)
                   end)
                ([], []) out
          end).
  rewrite (parse_redirect (CNN.respond req (CNN.Moved target)) target eq_refl Hs). simpl.
  fold (redirected req target).
  destruct (CNN.follow date indo_to_datetime later (redirected req target)) as [reqs items].
  simpl. by rewrite !app_nil_r.
Qed.

Lemma follow_refused target later req :
  CNN.has_scheme target = false ->
  CNN.follow date indo_to_datetime (CNN.Moved target :: later) req = ([], []).
Proof.
  intros Hs.
  change (CNN.follow date indo_to_datetime (CNN.Moved target :: later) req)
    with (match CNN.parse date indo_to_datetime (CNN.respond req (CNN.Moved target)) with
          | Raise _ => ([], [])
          | Ok out =>
              fold_right
                (fun o acc =>
                   match o with
                   | CNN.Request r =>
                       let '(reqs, items) := CNN.follow date indo_to_datetime later r in
                       (r :: reqs ++ fst acc, items ++ snd acc)
                   | CNN.Item i => (fst acc, i :: snd acc)
                   end)
                ([], []) out
          end).
  by rewrite (parse_redirect_refused (CNN.respond req (CNN.Moved target)) target eq_refl Hs).
Qed.

Lemma follow_article_page req html text parsed :
  CNN.detail_text html = Some text ->
  indo_to_datetime (default EmptyString (CNN.date_div html)) = Ok parsed ->
  exists item,
    CNN.follow date indo_to_datetime [CNN.Page html] req = ([], [item]) /\
    CNN.item_link date item = CNN.url req.
Proof.
  intros Ht Hd. simpl. unfold CNN.parse. simpl. rewrite Ht. simpl. rewrite Hd. simpl.
  eexists. split; reflexivity.
Qed.

Lemma follow_redirects targets : forall req html text parsed,
  Forall (fun t => CNN.has_scheme t = true) targets ->
  CNN.detail_text html = Some text ->
  indo_to_datetime (default EmptyString (CNN.date_div html)) = Ok parsed ->
  exists item,
    CNN.follow date indo_to_datetime (map CNN.Moved targets ++ [CNN.Page html]) req
    = (redirect_chain req targets, [item]).
Proof.
  induction targets as [|t later IH]; intros req html text parsed Hts Ht Hd.
  - destruct (follow_article_page req html text parsed Ht Hd) as (item & H & _).
    by exists item.
  - apply Forall_cons in Hts as [Hs Hts].
    destruct (IH (redirected req t) html text parsed Hts Ht Hd) as (item & H).
    exists item.
    change (map CNN.Moved (t :: later) ++ [CNN.Page html])
      with (CNN.Moved t :: (map CNN.Moved later ++ [CNN.Page html])).
    rewrite (follow_moved t _ req Hs), H. reflexivity.
Qed.

(** C6 (as the code has it): a response with a [location] header that
    names a url with a scheme makes [parse] issue exactly one request, to
    the target, with the same [meta] and with [parse] itself as callback
    (never the pagination callback), and no item; for a target without a
    scheme, or a header that is not UTF-8, [parse] raises, and the request
    is dropped: nothing is followed and nothing emitted.  A request that
    redirects once to an article page yields exactly one item; and a
    chain of [n] redirects is followed [n] times before the one item: the
    spider sets no bound. *)
Theorem redirect_followed_per_response :
  (forall response target,
     CNN.location response = Some (Ok target) ->
     CNN.has_scheme target = true ->
     CNN.parse date indo_to_datetime response
     = Ok [CNN.Request {| CNN.url := target; CNN.callback := CNN.Parse;
                          CNN.req_meta := CNN.page_meta response |}]) /\
  (forall response target,
     CNN.location response = Some (Ok target) ->
     CNN.has_scheme target = false ->
     CNN.parse date indo_to_datetime response
     = Raise ("Missing scheme in request url: " +:+ target)) /\
  (forall response msg,
     CNN.location response = Some (Raise msg) ->
     CNN.parse date indo_to_datetime response = Raise msg) /\
  (forall req target later,
     CNN.has_scheme target = false ->
     CNN.follow date indo_to_datetime (CNN.Moved target :: later) req = ([], [])) /\
  (forall req target html text parsed,
     CNN.has_scheme target = true ->
     CNN.detail_text html = Some text ->
     indo_to_datetime (default EmptyString (CNN.date_div html)) = Ok parsed ->
     exists item,
       CNN.follow date indo_to_datetime [CNN.Moved target; CNN.Page html] req
       = ([redirected req target], [item])) /\
  (forall targets req html text parsed,
     Forall (fun t => CNN.has_scheme t = true) targets ->
     CNN.detail_text html = Some text ->
     indo_to_datetime (default EmptyString (CNN.date_div html)) = Ok parsed ->
     exists item,
       CNN.follow date indo_to_datetime (map CNN.Moved targets ++ [CNN.Page html]) req
       = (redirect_chain req targets, [item]) /\
       length (redirect_chain req targets) = length targets).
Proof.
  split; [apply parse_redirect|].
  split; [apply parse_redirect_refused|].
  split; [apply parse_redirect_undecodable|].
  split; [intros req target later; apply follow_refused|].
  split.
  - intros req target html text parsed Hs Ht Hd.
    apply (follow_redirects [target] req html text parsed); [|done..].
    by constructor.
  - intros targets req html text parsed Hts Ht Hd.
    destruct (follow_redirects targets req html text parsed Hts Ht Hd) as (item & H).
    exists item. split; [exact H | apply redirect_chain_length].
Qed.

(** C7, the CNN side: a page that has the [div.detail-text] container
    gives an item even when the container holds only blanks and the
    [h1] is empty or missing, that is when the title and the body
    extracted are both empty; the content of the item is then the block
    of labels alone. *)
Theorem cnn_emits_item_for_empty_article response text parsed :
  CNN.location response = None ->
  CNN.detail_text (CNN.page response) = Some text ->
  PyStr.strip text = EmptyString ->
  default EmptyString (CNN.h1 (CNN.page response)) = EmptyString ->
  indo_to_datetime (default EmptyString (CNN.date_div (CNN.page response))) = Ok parsed ->
  exists item,
    CNN.parse date indo_to_datetime response = Ok [CNN.Item item] /\
    CNN.item_title date item = EmptyString /\
    CNN.item_link date item = CNN.page_url response /\
    CNN.item_publish_date date item = parsed /\
    CNN.item_content date item
    = PyStr.strip
        (CNN.nl +:+ "judul: " +:+ CNN.nl +:+
         "author: " +:+ default EmptyString (CNN.author_div (CNN.page response)) +:+ CNN.nl +:+
         "tanggal: " +:+ default EmptyString (CNN.date_div (CNN.page response)) +:+ CNN.nl +:+
         CNN.nl).
Proof.
  intros Hl Ht Hs Hh Hd. unfold CNN.parse. rewrite Hl, Ht, Hh, Hs. simpl. rewrite Hd. simpl.
  eexists. repeat split.
Qed.
End Redirects.

Section Emission.
Variable urljoin : string -> string -> string.
Variable date : Type.
Variable datetime : Type.
Variable indo_to_datetime : string -> py (option date).
Variable string_to_datetime : string -> py (option datetime).
Variable strftime : datetime -> string.

(** C7, the Mongabay side: [parse] yields at most one item, and only for a
    page whose title or body is not empty. *)
Lemma mongabay_emits_only_with_title_or_content response :
  let title := match Mongabay.headline_h1 (Mongabay.page response) with
               | Some t => PyStr.strip t | None => EmptyString end in
  let content := match Mongabay.main (Mongabay.page response) with
                 | Some t => PyStr.strip t | None => EmptyString end in
  let out := Mongabay.parse date datetime indo_to_datetime string_to_datetime strftime
               response in
  (title = EmptyString -> content = EmptyString -> out = []) /\
  (forall o, o ∈ out ->
     exists item, o = Mongabay.Item item /\ out = [o] /\
       Mongabay.item_title date item = title /\
       Mongabay.item_content date item = content /\
       (title <> EmptyString \/ content <> EmptyString)).
Proof.
  intros title content out. subst out. unfold Mongabay.parse. fold title content.
  destruct title as [|c t] eqn:Et, content as [|c' t'] eqn:Ec; simpl.
  - split; [done|]. intros o Ho. inversion Ho.
  - split; [done|]. intros o Ho. apply list_elem_of_singleton in Ho. subst o.
    eexists. repeat split. by right.
  - split; [done|]. intros o Ho. apply list_elem_of_singleton in Ho. subst o.
    eexists. repeat split. by left.
  - split; [done|]. intros o Ho. apply list_elem_of_singleton in Ho. subst o.
    eexists. repeat split. by left.
Qed.
End Emission.

(** C6 (as the spec has it) fails: one request whose answers redirect
    twice is followed twice, not at most once. *)
Lemma redirect_followed_twice :
  (CNN.follow string keep_date
     [CNN.Moved "https://www.cnnindonesia.com/b"; CNN.Moved "https://www.cnnindonesia.com/c";
      CNN.Page empty_article] sample_request).1
  = [redirected sample_request "https://www.cnnindonesia.com/b";
     redirected sample_request "https://www.cnnindonesia.com/c"] /\
  ~ (length (CNN.follow string keep_date
               [CNN.Moved "https://www.cnnindonesia.com/b";
                CNN.Moved "https://www.cnnindonesia.com/c";
                CNN.Page empty_article] sample_request).1 <= 1)%nat.
Proof. split; [reflexivity | vm_compute; lia]. Qed.

(** C6 on one redirect to an article page. *)
Lemma redirect_followed_per_response_witness :
  exists item,
    CNN.follow string keep_date
      [CNN.Moved "https://www.cnnindonesia.com/b"; CNN.Page empty_article] sample_request
    = ([redirected sample_request "https://www.cnnindonesia.com/b"], [item]).
Proof.
  exact (proj1 (proj2 (proj2 (proj2 (proj2
           (redirect_followed_per_response string keep_date)))))
           sample_request "https://www.cnnindonesia.com/b" empty_article
           "  " "Senin, 01 Jan 2024 10:00 WIB" eq_refl eq_refl eq_refl).
Defined.

(** A redirect to a path: [scrapy.Request] refuses the target, and the
    request is dropped. *)
Lemma relative_redirect_is_dropped :
  CNN.parse string keep_date (CNN.respond sample_request (CNN.Moved "/b"))
  = Raise "Missing scheme in request url: /b" /\
  CNN.follow string keep_date [CNN.Moved "/b"; CNN.Page empty_article] sample_request
  = ([], []).
Proof. split; reflexivity. Qed.

(** C7 on the empty article page. *)
Lemma cnn_emits_item_for_empty_article_witness :
  exists item,
    CNN.parse string keep_date (CNN.respond sample_request (CNN.Page empty_article))
    = Ok [CNN.Item item] /\
    CNN.item_title string item = EmptyString /\
    CNN.item_link string item = "https://www.cnnindonesia.com/a".
Proof.
  destruct (cnn_emits_item_for_empty_article string keep_date
              (CNN.respond sample_request (CNN.Page empty_article))
              "  " "Senin, 01 Jan 2024 10:00 WIB" eq_refl eq_refl eq_refl eq_refl eq_refl)
    as (item & H1 & H2 & H3 & _).
  exists item. split; [exact H1|]. split; [exact H2 | exact H3].
Defined.

(* ===================================================================== *)
(** * Further properties of the code                                      *)
(* ===================================================================== *)

(** ** More on the string methods *)

Section StripFacts.
Import PyStr.

(** A stripped, non-empty string starts with a character that is not a
    blank. *)
Lemma stripped_head s :
  strip s = s -> truthy s = true ->
  exists c r, s = String c r /\ isspace c = false.
Proof.
  unfold strip. intros Hs Ht.
  destruct (lstrip s) as [|b r] eqn:E.
  - simpl in Hs. subst s. discriminate.
  - pose proof (lstrip_head s b r E) as Hb.
    simpl in Hs. rewrite Hb in Hs. simpl in Hs. exists b, (rstrip r). by split.
Qed.

Lemma truthy_app_l a b : truthy a = true -> truthy (a +:+ b) = true.
Proof. by destruct a. Qed.

Lemma truthy_app_r a b : truthy b = true -> truthy (a +:+ b) = true.
Proof. destruct a; simpl; auto. Qed.

(** [rstrip] leaves alone whatever stands before a tail it keeps. *)
Lemma rstrip_app a b :
  truthy (rstrip b) = true -> rstrip (a +:+ b) = a +:+ rstrip b.
Proof.
  intros Hb. induction a as [|c a IH]; simpl; [done|].
  rewrite IH. rewrite (truthy_app_r a (rstrip b) Hb).
  by rewrite andb_false_r.
Qed.

(** A stripped, non-empty string followed by a tail that [rstrip] keeps
    whole is stripped. *)
Lemma strip_app_stripped s tail :
  strip s = s -> truthy s = true ->
  rstrip tail = tail -> truthy tail = true ->
  strip (s +:+ tail) = s +:+ tail /\ truthy (s +:+ tail) = true.
Proof.
  intros Hs Ht Htail Hne.
  destruct (stripped_head s Hs Ht) as (c & r & -> & Hc).
  split; [|done].
  unfold strip. simpl. rewrite Hc.
  change (String c (r +:+ tail)) with (String c r +:+ tail).
  rewrite rstrip_app by (by rewrite Htail). by rewrite Htail.
Qed.

Lemma contains_char x s : contains (String x EmptyString) s = has_char x s.
Proof.
  induction s as [|c r IH]; simpl; [done|].
  rewrite IH. rewrite (Ascii.eqb_sym x c). by destruct r, (Ascii.eqb c x).
Qed.

Lemma has_char_remove_char x s : has_char x (remove_char x s) = false.
Proof.
  induction s as [|c r IH]; simpl; [done|].
  destruct (Ascii.eqb c x) eqn:E; simpl; [done|]. by rewrite E.
Qed.

Lemma has_char_lstrip x s : has_char x s = false -> has_char x (lstrip s) = false.
Proof.
  induction s as [|c r IH]; simpl; [done|].
  intros [H1 H2]%orb_false_elim.
  destruct (isspace c); [by apply IH|]. simpl. by rewrite H1, H2.
Qed.

Lemma has_char_rstrip x s : has_char x s = false -> has_char x (rstrip s) = false.
Proof.
  induction s as [|c r IH]; simpl; [done|].
  intros [H1 H2]%orb_false_elim.
  destruct (isspace c && negb (truthy (rstrip r))); simpl; [done|].
  by rewrite H1, IH.
Qed.

Lemma has_char_strip x s : has_char x s = false -> has_char x (strip s) = false.
Proof. intros H. by apply has_char_rstrip, has_char_lstrip. Qed.
End StripFacts.

(** ** More on [preciselocation.py] *)

Section Candidates.
Import PreciseLocation.

Lemma unique_candidates_spec extracted : forall seen,
  let cs := unique_candidates seen extracted in
  Forall stripped cs /\
  NoDup (map PyStr.lower cs) /\
  (forall c, c ∈ cs -> PyStr.lower c ∉ seen) /\
  cs `sublist_of` map PyStr.strip extracted /\
  (forall ex, ex ∈ extracted -> PyStr.truthy (PyStr.strip ex) = true ->
     PyStr.lower (PyStr.strip ex) ∈ seen \/
     exists c, c ∈ cs /\ PyStr.lower c = PyStr.lower (PyStr.strip ex)).
Proof.
  induction extracted as [|ex rest IH]; intros seen; simpl.
  - split; [constructor|]. split; [constructor|].
    split; [intros x Hx; inversion Hx|]. split; [constructor|].
    intros x Hx; inversion Hx.
  - destruct (PyStr.truthy (PyStr.strip ex)) eqn:Ht; simpl.
    + destruct (bool_decide (PyStr.lower (PyStr.strip ex) ∈ seen)) eqn:Hs; simpl.
      * apply bool_decide_eq_true in Hs.
        destruct (IH seen) as (H1 & H2 & H3 & H4 & H5).
        repeat split; try done.
        { by apply sublist_cons. }
        intros x [->|Hx]%elem_of_cons Hx'; [by left | by apply H5].
      * apply bool_decide_eq_false in Hs.
        destruct (IH ({[PyStr.lower (PyStr.strip ex)]} ∪ seen)) as (H1 & H2 & H3 & H4 & H5).
        repeat split.
        { constructor; [|done]. split; [apply strip_idem | done]. }
        { constructor; [|done]. intros Hin.
          apply list_elem_of_fmap in Hin as (c & Hc & Hin).
          apply H3 in Hin. set_solver. }
        { intros c [->|Hc]%elem_of_cons; [done|]. apply H3 in Hc. set_solver. }
        { by apply sublist_skip. }
        intros x [->|Hx]%elem_of_cons Hx'.
        { right. exists (PyStr.strip ex). split; [by left | done]. }
        destruct (H5 x Hx Hx') as [Hin|(c & Hc & Hl)].
        { apply elem_of_union in Hin as [Hin|Hin]; [|by left].
          apply elem_of_singleton in Hin. right.
          exists (PyStr.strip ex). split; [by left | done]. }
        right. exists c. split; [by right | done].
    + destruct (IH seen) as (H1 & H2 & H3 & H4 & H5).
      repeat split; try done.
      { by apply sublist_cons. }
      intros x [->|Hx]%elem_of_cons Hx'; [congruence | by apply H5].
Qed.

(** The candidates kept from the extractor's list are stripped and not
    empty, no two of them agree up to case, they come in the order of the
    list, and every entry of the list that is not blank is represented
    among them up to case. *)
Theorem unique_candidates_distinct extracted :
  let cs := unique_candidates ∅ extracted in
  Forall stripped cs /\
  NoDup (map PyStr.lower cs) /\
  cs `sublist_of` map PyStr.strip extracted /\
  (forall ex, ex ∈ extracted -> PyStr.truthy (PyStr.strip ex) = true ->
     exists c, c ∈ cs /\ PyStr.lower c = PyStr.lower (PyStr.strip ex)).
Proof.
  destruct (unique_candidates_spec extracted ∅) as (H1 & H2 & _ & H4 & H5).
  repeat split; try done.
  intros ex Hex Ht. destruct (H5 ex Hex Ht) as [Hin|H]; [set_solver | done].
Qed.
End Candidates.

Section Hint.
Import PreciseLocation.
Variable repr : json -> string.

Lemma kabupaten_of_clean props k :
  kabupaten_of repr props = Some k -> has_char "," k = false /\ PyStr.strip k = k.
Proof.
  unfold kabupaten_of.
  match goal with |- match ?x with _ => _ end = _ -> _ => destruct x as [k0|] end;
    [|discriminate].
  destruct (PyStr.truthy k0); [|discriminate].
  intros [= <-]. split; [|apply strip_idem].
  apply has_char_strip, has_char_remove_char.
Qed.

(** The region hint, when there is one, holds no comma and no blank at
    either end (it may be empty: a [location_name] made of commas).  A
    keyword that is there but has fewer than two words gives no hint, and
    hides a [Location] property: the third source is not looked at. *)
Theorem kabupaten_has_no_comma props :
  (forall k, kabupaten_of repr props = Some k ->
     has_char "," k = false /\ PyStr.strip k = k) /\
  (json_truthy (get props "location_name") = false ->
   json_truthy (get props "keyword") = true ->
   (length (PyStr.split (PyStr.strip (str repr (get props "keyword")))) < 2)%nat ->
   kabupaten_of repr props = None).
Proof.
  split; [apply kabupaten_of_clean|].
  intros H1 H2 H3. unfold kabupaten_of. rewrite H1, H2.
  destruct (PyStr.split _) as [|a [|b l]]; simpl in *; (reflexivity || lia).
Qed.

(** Every query built from stripped candidates and a stripped hint is a
    stripped, non-empty string: [geocode_cached] sends it out, and files
    its answer, under the very string the loop holds. *)
Lemma rstrip_keeps_context a :
  PyStr.rstrip (a +:+ ", Bali, Indonesia") = a +:+ ", Bali, Indonesia".
Proof. by rewrite rstrip_app. Qed.

Lemma query_attempts_stripped candidates hint :
  Forall stripped candidates ->
  (forall k, hint = Some k -> PyStr.strip k = k) ->
  Forall stripped (query_attempts candidates hint).
Proof.
  intros Hc Hk. rewrite query_attempts_tiers.
  unfold priority_queries, tier_candidate_hint, tier_candidate, tier_hint.
  assert (Htail : forall c tail, stripped c ->
            PyStr.rstrip tail = tail -> PyStr.truthy tail = true ->
            stripped (c +:+ tail)).
  { intros c tail [H1 H2] H3 H4. by apply strip_app_stripped. }
  repeat apply Forall_app_2.
  - destruct hint as [k|]; [|constructor].
    destruct (PyStr.truthy k) eqn:Ht; [|constructor].
    apply Forall_fmap. eapply Forall_impl; [exact Hc|]. intros c Hs. simpl.
    apply (Htail c (", " +:+ k +:+ ", Bali, Indonesia") Hs); [|done].
    rewrite (rstrip_app ", " (k +:+ ", Bali, Indonesia")).
    + by rewrite rstrip_keeps_context.
    + rewrite rstrip_keeps_context. by apply truthy_app_r.
  - apply Forall_fmap. eapply Forall_impl; [exact Hc|]. intros c Hs. simpl.
    by apply Htail.
  - destruct hint as [k|]; [|constructor].
    destruct (PyStr.truthy k) eqn:Ht; [|constructor].
    constructor; [|constructor]. apply Htail; [split; auto | done | done].
  - constructor; [|constructor]. by split.
Qed.

(** The queries built for a feature are stripped and not empty, whatever
    the extractor returned and whatever the properties hold: what
    [geocode_cached] sends out and files is the query as the loop holds
    it. *)
Theorem feature_queries_are_stripped props extracted :
  Forall stripped
    (query_attempts (unique_candidates ∅ extracted) (kabupaten_of repr props)).
Proof.
  apply query_attempts_stripped.
  - apply (unique_candidates_spec extracted ∅).
  - intros k Hk. by apply (kabupaten_of_clean props).
Qed.
End Hint.

Section Run.
Import PreciseLocation.

Variable geocoder : list string -> string -> geo_result.
Variable extract_locations : string -> py (list string).
Variable repr : json -> string.

(** *** Every feature is counted once *)

Lemma process_feature_counts st feature :
  let st' := (process_feature geocoder extract_locations repr st feature).2 in
  (updated st' + skipped st' + errors st' = S (updated st + skipped st + errors st))%nat /\
  length (csv_rows st') = S (length (csv_rows st)).
Proof.
  unfold process_feature, refine.
  destruct (candidates_of _ _) as [candidates|msg]; simpl.
  - match goal with |- context [try_queries ?g ?c ?k ?s ?q] =>
      pose proof (try_queries_counters g extract_locations c k q s) as Hk; cbv zeta in Hk;
      destruct (try_queries g c k s q) as [[r tried] st1] end.
    simpl in Hk. destruct Hk as (Hu & Hs & He & Hr).
    destruct r as [f|]; simpl; rewrite Hu, Hs, He, Hr, length_app; simpl; lia.
  - rewrite length_app. simpl. lia.
Qed.

Lemma process_features_counts features : forall st,
  let '(features', st') :=
    process_features geocoder extract_locations repr st features in
  length features' = length features /\
  (updated st' + skipped st' + errors st'
   = updated st + skipped st + errors st + length features)%nat /\
  length (csv_rows st') = (length (csv_rows st) + length features)%nat.
Proof.
  induction features as [|feature rest IH]; intros st; simpl.
  - repeat split; lia.
  - pose proof (process_feature_counts st feature) as H1. cbv zeta in H1.
    destruct (process_feature geocoder extract_locations repr st feature) as [f' st1].
    specialize (IH st1).
    destruct (process_features geocoder extract_locations repr st1 rest) as [rest' st2].
    simpl in *. destruct H1 as [H1 H1']. destruct IH as (H2 & H3 & H4).
    repeat split; lia.
Qed.

(** A run that comes to its end has counted every feature as updated,
    skipped or errored, once: the three tallies grow, together, by the
    number of features, the list of features keeps its length and the
    CSV backup gets one row per feature; and every feature had an object
    for [properties], or none.  The run stops before its end exactly at
    the first feature whose [properties] member is another value
    ([null], a list, a number), with the [TypeError] of the handler's
    assignment. *)
Theorem every_feature_counted_once features : forall st,
  match process_json_features geocoder extract_locations repr st features with
  | Ok (features', st') =>
      Forall (fun f => object_properties f = true) features /\
      length features' = length features /\
      (updated st' + skipped st' + errors st'
       = updated st + skipped st + errors st + length features)%nat /\
      length (csv_rows st') = (length (csv_rows st) + length features)%nat
  | Raise msg =>
      exists before bad later v,
        features = before ++ bad :: later /\
        Forall (fun f => object_properties f = true) before /\
        json_properties bad = Some v /\
        object_properties bad = false /\
        msg = item_assignment_error v
  end.
Proof.
  induction features as [|feature rest IH]; intros st; simpl.
  - repeat split; [constructor | lia..].
  - unfold process_json_feature.
    assert (Hturn : forall g,
      object_properties feature = true ->
      match
        (let '(feature', st1) := process_feature geocoder extract_locations repr st g in
         '(rest', st2) ← process_json_features geocoder extract_locations repr st1 rest;
         mret (feature' :: rest', st2))
      with
      | Ok (features', st') =>
          Forall (fun f => object_properties f = true) (feature :: rest) /\
          length features' = S (length rest) /\
          (updated st' + skipped st' + errors st'
           = updated st + skipped st + errors st + S (length rest))%nat /\
          length (csv_rows st') = (length (csv_rows st) + S (length rest))%nat
      | Raise msg =>
          exists before bad later v,
            feature :: rest = before ++ bad :: later /\
            Forall (fun f => object_properties f = true) before /\
            json_properties bad = Some v /\
            object_properties bad = false /\
            msg = item_assignment_error v
      end).
    { intros g Hobj.
      pose proof (process_feature_counts st g) as H1. cbv zeta in H1.
      destruct (process_feature geocoder extract_locations repr st g) as [f' st1].
      specialize (IH st1).
      destruct (process_json_features geocoder extract_locations repr st1 rest)
        as [[rest' st2]|msg]; simpl in *.
      - destruct H1 as [H1 H1']. destruct IH as (H0 & H2 & H3 & H4).
        repeat split; [by constructor | lia..].
      - destruct IH as (before & bad & later & v & -> & Hb & Hv & Hbad & ->).
        exists (feature :: before), bad, later, v.
        repeat split; try done. by constructor. }
    unfold object_properties in Hturn.
    destruct (json_properties feature) as [v|] eqn:Ev; [|by apply Hturn].
    destruct v; simpl; try (by apply Hturn).
    all: exists [], feature, rest; eexists; repeat split; try done;
      unfold object_properties; by rewrite Ev.
Qed.

(** *** A text property that is not a string *)

(** A feature whose text property is a truthy value that is not a string
    (a number, a NaN, a list) is counted as an error and nothing else
    happens: its properties get the one entry [refine_error], with the
    message of the [AttributeError]; its geometry, the cache, the set of
    tried queries and the other tallies stay as they were, and the
    geocoder is not called. *)
Theorem non_text_content_is_an_error st feature :
  let props := default ∅ (properties feature) in
  let v := cleaned_of props in
  json_truthy v = true ->
  (forall s, v <> JStr s) ->
  let '(feature', st') := process_feature geocoder extract_locations repr st feature in
  properties feature'
    = Some (<[ "refine_error" :=
                 JStr ("'" +:+ type_name v +:+ "' object has no attribute 'strip'") ]> props) /\
  geometry feature' = geometry feature /\
  errors st' = S (errors st) /\
  updated st' = updated st /\ skipped st' = skipped st /\
  geocode_cache st' = geocode_cache st /\
  tried_queries st' = tried_queries st /\
  calls st' = calls st.
Proof.
  intros props v Hv Hns. unfold process_feature, refine. fold props. fold v.
  unfold candidates_of. rewrite Hv.
  destruct v as [| | | |s| |] eqn:E; simpl; try done.
  by destruct (Hns s).
Qed.
End Run.

Section CacheContent.
Import PreciseLocation.

Variable geocoder : list string -> string -> geo_result.
Variable extract_locations : string -> py (list string).
Variable repr : json -> string.

Lemma cache_exact_ext st st' :
  geocode_cache st' = geocode_cache st -> calls st' = calls st ->
  cache_exact st -> cache_exact st'.
Proof. unfold cache_exact. intros -> ->. done. Qed.

Lemma geocode_cached_exact st query :
  cache_exact st -> cache_exact (geocode_cached geocoder st query).2.
Proof.
  intros [Hdom Hwhole].
  destruct (PyStr.truthy (PyStr.strip query)) eqn:Hq;
    [|by rewrite geocode_cached_blank].
  destruct (geocode_cache st !! PyStr.strip query) as [e|] eqn:He;
    [by rewrite (geocode_cached_hit _ _ _ e)|].
  pose proof (geocode_cached_call geocoder st query Hq He) as H. cbv zeta in H.
  destruct (geocode_cached geocoder st query) as [e st'].
  destruct H as (Hc & Hm & _ & Hres). simpl. split.
  - intros k. rewrite Hc, Hm, elem_of_app, list_elem_of_singleton, <- Hdom.
    destruct (decide (PyStr.strip query = k)) as [<-|Hne].
    + rewrite lookup_insert_eq. split; eauto.
    + rewrite lookup_insert_ne by done. split; [auto | intros [?|?]; congruence].
  - intros k v. rewrite Hm.
    destruct (decide (PyStr.strip query = k)) as [<-|Hne].
    + rewrite lookup_insert_eq. intros [= <-]. rewrite Hres.
      destruct (geocoder (calls st) (PyStr.strip query)); [right; eauto | by left..].
    + rewrite lookup_insert_ne by done. apply Hwhole.
Qed.

Lemma lookup_query_exact st q :
  cache_exact st -> cache_exact (lookup_query geocoder st q).2.
Proof.
  intros Hst. unfold lookup_query.
  pose proof (geocode_cached_exact st q Hst) as H.
  destruct (geocode_cached geocoder st q) as [e st1].
  destruct (bool_decide (q ∈ tried_queries st)), (geocode_cache st !! q); simpl; try done.
  all: by apply (cache_exact_ext st1).
Qed.

Lemma try_queries_exact candidates hint qs : forall st,
  cache_exact st -> cache_exact (try_queries geocoder candidates hint st qs).2.
Proof.
  induction qs as [|q rest IH]; intros st Hst; simpl; [done|].
  pose proof (lookup_query_exact st q Hst) as H1.
  destruct (lookup_query geocoder st q) as [e st1].
  specialize (IH st1 H1).
  destruct (try_queries geocoder candidates hint st1 rest) as [[r tried] st2].
  destruct e as [[[lat|] [lon|]] display]; simpl in *; done.
Qed.

Lemma process_feature_exact st feature :
  cache_exact st ->
  cache_exact (process_feature geocoder extract_locations repr st feature).2.
Proof.
  intros Hst. unfold process_feature, refine.
  destruct (candidates_of _ _) as [candidates|msg]; simpl;
    [|by apply (cache_exact_ext st)].
  match goal with |- context [try_queries ?g ?c ?k ?s ?q] =>
    pose proof (try_queries_exact c k q s Hst) as Hs;
    destruct (try_queries g c k s q) as [[r tried] st1] end.
  destruct r as [f|]; simpl in *; by apply (cache_exact_ext st1).
Qed.

(** After any run that started with an empty cache, the cache has an
    entry for a string exactly when that string was sent to the geocoder,
    and every entry is either the all-[None] miss or a latitude, a
    longitude and a display name together: never one coordinate without
    the other. *)
Theorem cache_mirrors_calls features :
  let st := (process_features geocoder extract_locations repr
               initial_state features).2 in
  (forall k, is_Some (geocode_cache st !! k) <-> k ∈ calls st) /\
  (forall k e, geocode_cache st !! k = Some e ->
     e = miss \/ exists lat lon address, e = (Some lat, Some lon, Some address)).
Proof.
  cbv zeta.
  assert (H0 : cache_exact initial_state).
  { split.
    - intros k. simpl. rewrite lookup_empty. split; [by intros [? ?] | by inversion 1].
    - intros k e. simpl. by rewrite lookup_empty. }
  revert H0. generalize initial_state.
  induction features as [|feature rest IH]; intros st Hst; simpl; [exact Hst|].
  pose proof (process_feature_exact st feature Hst) as H1.
  destruct (process_feature geocoder extract_locations repr st feature) as [f' st1].
  specialize (IH st1 H1).
  destruct (process_features geocoder extract_locations repr st1 rest) as [rest' st2].
  exact IH.
Qed.

(** *** The coordinate written is the cached one *)


Lemma candidates_of_stripped cleaned cs :
  candidates_of extract_locations cleaned = Ok cs -> Forall stripped cs.
Proof.
  unfold candidates_of.
  destruct (json_truthy cleaned); [|intros [= <-]; constructor].
  destruct cleaned; try discriminate.
  destruct (PyStr.truthy (PyStr.strip s)); [|intros [= <-]; constructor].
  destruct (extract_locations s) as [extracted|msg]; intros [= <-]; [|constructor].
  apply (unique_candidates_spec extracted ∅).
Qed.

End CacheContent.

(** ** The last resort and the first lookup *)

Section LastResort.
Import PreciseLocation.

Variable geocoder : list string -> string -> geo_result.
Variable extract_locations : string -> py (list string).
Variable repr : json -> string.

Lemma geocode_cached_calls st query x :
  x ∈ calls st -> x ∈ calls (geocode_cached geocoder st query).2.
Proof.
  unfold geocode_cached.
  destruct (PyStr.truthy (PyStr.strip query)); simpl; [|done].
  destruct (geocode_cache st !! PyStr.strip query); simpl; [done|].
  destruct (geocoder (calls st) (PyStr.strip query)); simpl; set_solver.
Qed.

Lemma lookup_query_calls st q x :
  x ∈ calls st -> x ∈ calls (lookup_query geocoder st q).2.
Proof.
  intros Hx. unfold lookup_query.
  pose proof (geocode_cached_calls st q x Hx) as H.
  destruct (geocode_cached geocoder st q) as [e st1].
  by destruct (bool_decide (q ∈ tried_queries st)), (geocode_cache st !! q).
Qed.

Lemma try_queries_calls candidates hint qs : forall st x,
  x ∈ calls st -> x ∈ calls (try_queries geocoder candidates hint st qs).2.
Proof.
  induction qs as [|q rest IH]; intros st x Hx; simpl; [done|].
  pose proof (lookup_query_calls st q x Hx) as H1.
  destruct (lookup_query geocoder st q) as [e st1].
  specialize (IH st1 x H1).
  destruct (try_queries geocoder candidates hint st1 rest) as [[r tried] st2].
  destruct e as [[[lat|] [lon|]] display]; simpl in *; done.
Qed.

(** Looking a stripped query up leaves its answer in the cache, and
    sends it to the geocoder unless the cache had it. *)
Lemma lookup_query_stripped st q :
  stripped q ->
  let '(e, st1) := lookup_query geocoder st q in
  q ∈ tried_queries st1 /\
  geocode_cache st1 !! q = Some e /\
  (geocode_cache st !! q = None -> q ∈ calls st1).
Proof.
  intros [Hs Ht]. unfold lookup_query.
  assert (Hg : let '(e, st1) := geocode_cached geocoder st q in
               tried_queries st1 = tried_queries st /\
               geocode_cache st1 !! q = Some e /\
               (geocode_cache st !! q = None -> q ∈ calls st1)).
  { destruct (geocode_cache st !! q) as [e|] eqn:He.
    - rewrite (geocode_cached_hit geocoder st q e) by (by rewrite Hs). done.
    - pose proof (geocode_cached_call geocoder st q) as H. rewrite Hs in H.
      specialize (H Ht He). cbv zeta in H.
      destruct (geocode_cached geocoder st q) as [e st1].
      destruct H as (Hc & Hm & Htr & _).
      split; [done|]. split; [by rewrite Hm, lookup_insert_eq|].
      intros _. rewrite Hc. set_solver. }
  destruct (geocode_cached geocoder st q) as [e st1].
  destruct Hg as (Htr & Hm & Hc).
  destruct (bool_decide (q ∈ tried_queries st)) eqn:Hq;
    [destruct (geocode_cache st !! q) as [e'|] eqn:He|]; simpl.
  - apply bool_decide_eq_true in Hq. done.
  - split; [set_solver | done].
  - split; [set_solver | done].
Qed.

Lemma first_query_looked_up candidates hint q rest st :
  stripped q ->
  exists e,
    q ∈ tried_queries (try_queries geocoder candidates hint st (q :: rest)).2 /\
    geocode_cache (try_queries geocoder candidates hint st (q :: rest)).2 !! q = Some e /\
    (geocode_cache st !! q = None ->
     q ∈ calls (try_queries geocoder candidates hint st (q :: rest)).2).
Proof.
  intros Hq. simpl.
  pose proof (lookup_query_stripped st q Hq) as H1.
  destruct (lookup_query geocoder st q) as [e st1].
  destruct H1 as (Ht & Hm & Hc).
  pose proof (try_queries_tried geocoder candidates hint rest st1 q Ht) as H2.
  pose proof (try_queries_extends geocoder extract_locations candidates hint rest st1)
    as [H3 _].
  pose proof (fun H => try_queries_calls candidates hint rest st1 q (Hc H)) as H4.
  destruct (try_queries geocoder candidates hint st1 rest) as [[r tried] st2].
  exists e.
  destruct e as [[[lat|] [lon|]] display]; simpl in *; auto.
Qed.

(** C9 (as the code has it): whatever the candidates and the hint, the
    query list is not empty and ends with the last resort
    "Bali, Indonesia", and the loop looks up at least its first query.
    For every feature whose text property lets the body reach the loop,
    the first query has been looked up when the feature is done: it is
    marked as tried, the cache holds an answer for it, and it was sent to
    the geocoder unless the cache already had it. *)
Theorem last_resort_always_present candidates hint st :
  query_attempts candidates hint <> [] /\
  last (query_attempts candidates hint) = Some "Bali, Indonesia" /\
  (exists q e later,
     head (query_attempts candidates hint) = Some q /\
     (try_queries geocoder candidates hint st (query_attempts candidates hint)).1.2
       = (q, e) :: later) /\
  (forall feature found_candidates,
     let props := default ∅ (properties feature) in
     candidates_of extract_locations (cleaned_of props) = Ok found_candidates ->
     exists q e,
       head (query_attempts found_candidates (kabupaten_of repr props)) = Some q /\
       q ∈ tried_queries (process_feature geocoder extract_locations repr st feature).2 /\
       geocode_cache (process_feature geocoder extract_locations repr st feature).2 !! q
         = Some e /\
       (geocode_cache st !! q = None ->
        q ∈ calls (process_feature geocoder extract_locations repr st feature).2)).
Proof.
  assert (Hlast : forall cs h, last (query_attempts cs h) = Some "Bali, Indonesia").
  { intros cs h. rewrite query_attempts_tiers. unfold priority_queries.
    rewrite !app_assoc. apply last_snoc. }
  assert (Hne : forall cs h, query_attempts cs h <> []).
  { intros cs h E. specialize (Hlast cs h). rewrite E in Hlast. discriminate. }
  split; [apply Hne|].
  split; [apply Hlast|].
  split.
  { specialize (Hne candidates hint).
    destruct (query_attempts candidates hint) as [|q rest]; [done|].
    destruct (try_queries_head geocoder candidates hint st q rest) as (e & later & H).
    exists q, e, later. auto. }
  intros feature cs props Hc.
  assert (Hqs : Forall stripped (query_attempts cs (kabupaten_of repr props))).
  { apply query_attempts_stripped; [by apply (candidates_of_stripped _ _ _ Hc)|].
    intros k Hk. by apply (kabupaten_of_clean repr props). }
  unfold process_feature, refine. fold props. rewrite Hc. simpl.
  specialize (Hne cs (kabupaten_of repr props)).
  destruct (query_attempts cs (kabupaten_of repr props)) as [|q rest]; [done|].
  apply Forall_cons in Hqs as [Hq _].
  destruct (first_query_looked_up cs (kabupaten_of repr props) q rest st Hq)
    as (e & Ht & Hm & Hcalls).
  exists q, e. split; [done|].
  destruct (try_queries geocoder cs (kabupaten_of repr props) st (q :: rest))
    as [[r tried] st1].
  destruct r as [f|]; simpl in *; auto.
Qed.
End LastResort.

(** C9 on the feature that names a village. *)
Lemma last_resort_always_present_witness :
  exists q,
    head (PreciseLocation.query_attempts ["Desa Ubud"] (Some "Gianyar")) = Some q /\
    q ∈ PreciseLocation.calls
          (PreciseLocation.process_feature geocoder_none
             (extract_with LocationExtractor.first_seen) repr_blank
             PreciseLocation.initial_state ubud_feature).2.
Proof.
  destruct (proj2 (proj2 (proj2
    (last_resort_always_present geocoder_none
       (extract_with LocationExtractor.first_seen) repr_blank
       [] None PreciseLocation.initial_state)))
    ubud_feature ["Desa Ubud"] eq_refl) as (q & e & Hq & _ & _ & Hc).
  exists q. split; [exact Hq|]. apply Hc.
  injection Hq as <-. reflexivity.
Defined.

(** C9, read for every processed feature, fails: a feature whose text
    property is a number is processed -- it is counted, as an error --
    and no query is built for it and no lookup made. *)
Lemma number_as_text_is_never_looked_up :
  let st :=
    (PreciseLocation.process_feature
       (geocoder_only "Bali, Indonesia" (-8.5)%float 115.25%float)
       (extract_with LocationExtractor.first_seen) repr_blank
       PreciseLocation.initial_state number_feature).2 in
  PreciseLocation.calls st = [] /\
  PreciseLocation.tried_queries st = ∅ /\
  PreciseLocation.geocode_cache st = ∅ /\
  PreciseLocation.errors st = 1%nat /\
  "Bali, Indonesia" ∉ PreciseLocation.tried_queries st.
Proof.
  cbv zeta.
  set (st := (PreciseLocation.process_feature _ _ _ _ _).2).
  assert (H1 : PreciseLocation.calls st = []) by (vm_compute; reflexivity).
  assert (H2 : PreciseLocation.tried_queries st = ∅) by (vm_compute; reflexivity).
  assert (H3 : PreciseLocation.geocode_cache st = ∅) by (vm_compute; reflexivity).
  assert (H4 : PreciseLocation.errors st = 1%nat) by (vm_compute; reflexivity).
  repeat split; try done; rewrite H2; set_solver.
Qed.

(** ** More on [location_extractor.py] *)

Section NormalForm.
Import PyStr.

Ltac by_cases_on c := destruct c as [[] [] [] [] [] [] [] []]; reflexivity.

Lemma isspace_lower_char c : isspace (lower_char c) = isspace c.
Proof. by_cases_on c. Qed.

Lemma isspace_upper_char c : isspace (upper_char c) = isspace c.
Proof. by_cases_on c. Qed.

Lemma isspace_not_alpha c : isspace c = true -> isalpha c = false.
Proof. destruct c as [[] [] [] [] [] [] [] []]; (reflexivity || discriminate). Qed.

Lemma truthy_title_from b s : truthy (title_from b s) = truthy s.
Proof. destruct s as [|c r]; simpl; [done|]. by destruct (isalpha c). Qed.

Lemma lstrip_title s : lstrip (title_from false s) = title_from false (lstrip s).
Proof.
  induction s as [|c r IH]; simpl; [done|].
  destruct (isspace c) eqn:Hc.
  - rewrite (isspace_not_alpha c Hc). simpl. by rewrite Hc.
  - destruct (isalpha c) eqn:Ha; simpl; rewrite ?isspace_upper_char, Hc, Ha; done.
Qed.

Lemma rstrip_title b s : rstrip (title_from b s) = title_from b (rstrip s).
Proof.
  revert b. induction s as [|c r IH]; intros b; simpl; [done|].
  destruct (isalpha c) eqn:Ha; simpl; rewrite IH, truthy_title_from.
  - assert (Hs : isspace c = false).
    { destruct (isspace c) eqn:Hs; [|done]. apply isspace_not_alpha in Hs. congruence. }
    destruct b; rewrite ?isspace_lower_char, ?isspace_upper_char, Hs; simpl;
      by rewrite Ha.
  - destruct (isspace c && negb (truthy (rstrip r))); simpl; [done|]. by rewrite Ha.
Qed.

(** Title-casing and stripping commute. *)
Lemma strip_title s : strip (title s) = title (strip s).
Proof. unfold strip, title. by rewrite lstrip_title, rstrip_title. Qed.

Lemma normalize_idem s :
  LocationExtractor.normalize (LocationExtractor.normalize s)
  = LocationExtractor.normalize s.
Proof.
  unfold LocationExtractor.normalize.
  rewrite strip_title, strip_idem. apply title_from_idem.
Qed.

Lemma lower_app a b : lower (a +:+ b) = lower a +:+ lower b.
Proof. induction a as [|c a IH]; simpl; [done|]. by rewrite IH. Qed.
End NormalForm.

Section Matching.
Import LocationExtractor.

Lemma match_lit_app ic w : forall s m rest,
  match_lit ic w s = Some (m, rest) ->
  s = m +:+ rest /\ (ic = true -> PyStr.lower m = PyStr.lower w).
Proof.
  induction w as [|a w IH]; intros s m rest; simpl.
  - intros [= <- <-]. done.
  - destruct s as [|b s]; [discriminate|].
    destruct (char_eq ic a b) eqn:E; [|discriminate].
    destruct (match_lit ic w s) as [[m' rest']|] eqn:Em; [|discriminate].
    intros [= <- <-]. destruct (IH _ _ _ Em) as [-> Hl]. split; [done|].
    intros ->. simpl. rewrite Hl by done. f_equal.
    unfold char_eq in E. by apply Ascii.eqb_eq in E.
Qed.

Lemma span_app ic k : forall s m rest, span ic k s = (m, rest) -> s = m +:+ rest.
Proof.
  induction s as [|c s IH]; intros m rest; simpl.
  - by intros [= <- <-].
  - destruct (cls_match ic k c); [|by intros [= <- <-]].
    destruct (span ic k s) as [m' rest'] eqn:E. intros [= <- <-].
    by rewrite (IH _ _ eq_refl).
Qed.

Lemma append_assoc_str a b c : (a +:+ b) +:+ c = a +:+ (b +:+ c).
Proof.
  induction a as [|x a IH]; [done|].
  change (String x ((a +:+ b) +:+ c) = String x (a +:+ (b +:+ c))). by rewrite IH.
Qed.

Lemma match_here_app ic p : forall s m rest,
  match_here ic p s = Some (m, rest) -> s = m +:+ rest.
Proof.
  induction p as [|a p IH]; intros s m rest; simpl.
  - by intros [= <- <-].
  - match goal with |- match ?x with _ => _ end = _ -> _ =>
      destruct x as [[m1 rest1]|] eqn:E1 end; [|discriminate].
    destruct (match_here ic p rest1) as [[m2 rest2]|] eqn:E2; [|discriminate].
    intros [= <- <-]. apply IH in E2. subst rest1.
    rewrite append_assoc_str.
    destruct a as [w|k|k].
    + by apply match_lit_app in E1 as [-> _].
    + destruct s as [|c r]; [discriminate|].
      destruct (cls_match ic k c); [|discriminate]. by injection E1 as <- <-.
    + destruct (span ic k s) as [m' rest'] eqn:Es.
      destruct (PyStr.truthy m'); [|discriminate]. injection E1 as <- <-.
      by apply span_app in Es.
Qed.

Lemma contains_cons sub c s :
  PyStr.contains sub s = true -> PyStr.contains sub (String c s) = true.
Proof. intros H. simpl. rewrite H. apply orb_true_r. Qed.

Lemma findall_from_substrings ic p s : forall skip m,
  m ∈ findall_from ic p skip s -> PyStr.contains m s = true.
Proof.
  induction s as [|c r IH]; intros skip m; simpl; [by inversion 1|].
  destruct skip as [|k].
  - destruct (match_here ic p (String c r)) as [[m' rest]|] eqn:E.
    + intros [->|Hin]%elem_of_cons.
      * apply match_here_app in E. rewrite E. by rewrite startswith_app.
      * apply contains_cons. by apply (IH _ _ Hin).
    + intros Hin. apply contains_cons. by apply (IH _ _ Hin).
  - intros Hin. apply contains_cons. by apply (IH _ _ Hin).
Qed.

Lemma foldl_app_flat {X Y} (f : X -> list Y) (l : list X) (init : list Y) :
  foldl (fun acc x => acc ++ f x) init l = init ++ flat_map f l.
Proof.
  revert init. induction l as [|x l IH]; intros init; simpl.
  - by rewrite app_nil_r.
  - rewrite IH. by rewrite <- app_assoc.
Qed.

Lemma rule_based_match_spec text m :
  m ∈ rule_based text ->
  PyStr.contains m text = true /\
  exists kw, kw ∈ ["desa"; "kelurahan"; "kecamatan"; "kabupaten"; "kota";
                   "jalan"; "gunung"; "bukit"; "tukad"] /\
             PyStr.startswith kw (PyStr.lower m) = true.
Proof.
  unfold rule_based. rewrite foldl_app_flat, app_nil_l.
  intros Hin. apply list_elem_of_In, in_flat_map in Hin as (pat & Hpat & Hm).
  apply list_elem_of_In in Hm.
  split; [by apply (findall_from_substrings true pat text 0 m)|].
  assert (Hkw : forall kw tail skip s,
            m ∈ findall_from true (Lit kw :: tail) skip s ->
            PyStr.lower kw = kw -> PyStr.startswith kw (PyStr.lower m) = true).
  { intros kw tail skip s. revert skip.
    induction s as [|c r IH]; intros skip; simpl; [by inversion 1|].
    destruct skip as [|k]; [|apply IH].
    destruct (match_lit true kw (String c r)) as [[m1 rest1]|] eqn:E1; [|apply IH].
    destruct (match_here true tail rest1) as [[m2 rest2]|] eqn:E2; [|apply IH].
    intros [->|Hin]%elem_of_cons Hl; [|by apply (IH _ Hin)].
    apply match_lit_app in E1 as [_ E1]. rewrite lower_app, E1, Hl by done.
    apply startswith_app. }
  simpl in Hpat.
  repeat (destruct Hpat as [<-|Hpat];
    [eexists; split; [|eapply Hkw; [exact Hm | reflexivity]];
     apply list_elem_of_In; simpl; tauto|]).
  destruct Hpat.
Qed.

(** What the patterns find is text of the article: every rule-based
    match occurs in the text as it stands, and it begins, up to case,
    with one of the nine unit words. *)
Theorem rule_based_matches_are_quotes text m :
  m ∈ rule_based text ->
  PyStr.contains m text = true /\
  exists kw, kw ∈ ["desa"; "kelurahan"; "kecamatan"; "kabupaten"; "kota";
                   "jalan"; "gunung"; "bukit"; "tukad"] /\
             PyStr.startswith kw (PyStr.lower m) = true.
Proof. apply rule_based_match_spec. Qed.
End Matching.

Section RankingMore.
Import LocationExtractor.

Variable nlp : string -> py (list entity).
Variable set_order : list string -> list string.

Lemma count_pos x xs : x ∈ xs -> (0 < PyStr.count x xs)%nat.
Proof.
  unfold PyStr.count. induction xs as [|y ys IH]; [by inversion 1|].
  intros [->|Hin]%elem_of_cons; simpl.
  - rewrite String.eqb_refl. simpl. lia.
  - destruct (String.eqb x y); simpl; [lia | by apply IH].
Qed.

Lemma rank_elem cleaned x :
  set_order_ok set_order -> (x ∈ rank set_order cleaned <-> x ∈ cleaned).
Proof.
  intros Hok. unfold rank. rewrite sorted_desc_perm. apply (Hok cleaned).
Qed.

(** Every name returned is in normal form -- normalizing it again changes
    nothing -- and the result is empty exactly when no pattern matched and
    the recognizer gave no place. *)
Theorem extracted_places_are_normalized text ents :
  set_order_ok set_order ->
  nlp text = Ok ents ->
  exists result,
    extract_locations nlp set_order text = Ok result /\
    (forall x, x ∈ result -> normalize x = x) /\
    (result = [] <-> rule_based text = [] /\ List.filter is_place ents = []).
Proof.
  intros Hok Hnlp. unfold extract_locations. rewrite Hnlp. simpl.
  eexists. split; [reflexivity|]. split.
  - intros x Hx. apply (proj1 (rank_elem _ _ Hok)) in Hx.
    apply list_elem_of_fmap in Hx as (y & -> & _). apply normalize_idem.
  - assert (Hnil : forall l : list string, l = [] <-> forall x, x ∉ l).
    { intros l. split; [intros -> x Hx; inversion Hx|].
      destruct l as [|y l]; [done|]. intros H. destruct (H y). by left. }
    rewrite (Hnil (rank _ _)).
    split.
    + intros Hno.
      assert (E : map normalize (rule_based text ++ map ent_text (List.filter is_place ents)) = []).
      { apply Hnil. intros x Hx. apply (Hno x). by apply (proj2 (rank_elem _ _ Hok)). }
      apply fmap_nil_inv, app_nil in E as [E1 E2].
      split; [done|]. by apply fmap_nil_inv in E2.
    + intros [-> ->] x Hx. apply (proj1 (rank_elem _ _ Hok)) in Hx. inversion Hx.
Qed.

(** The first name returned is one of the most frequent: it occurs among
    the normalized matches at least once, and at least as often as every
    other name. *)
Theorem top_place_is_most_frequent text ents top rest :
  set_order_ok set_order ->
  nlp text = Ok ents ->
  extract_locations nlp set_order text = Ok (top :: rest) ->
  let cleaned :=
    map normalize (rule_based text ++ map ent_text (List.filter is_place ents)) in
  (1 <= PyStr.count top cleaned)%nat /\
  forall x, x ∈ cleaned -> (PyStr.count x cleaned <= PyStr.count top cleaned)%nat.
Proof.
  intros Hok Hnlp. unfold extract_locations. rewrite Hnlp. simpl.
  intros [= E]. cbv zeta.
  set (cleaned := map normalize _) in *.
  assert (Htop : top ∈ cleaned).
  { apply (proj1 (rank_elem cleaned top Hok)). rewrite E. by left. }
  split; [by apply count_pos|].
  intros x Hx. apply (proj2 (rank_elem cleaned x Hok)) in Hx.
  pose proof (sorted_desc_sorted (fun y => PyStr.count y cleaned) (set_order cleaned)) as Hs.
  fold (rank set_order cleaned) in Hs. rewrite E in Hs, Hx.
  apply StronglySorted_inv in Hs as [_ Hall].
  apply elem_of_cons in Hx as [->|Hx]; [done|].
  rewrite Forall_forall in Hall. by apply (Hall x).
Qed.
End RankingMore.

(** ** More on the CNN spider *)

Section CnnMore.
Variable date : Type.
Variable indo_to_datetime : string -> py date.

Lemma hex_digits_safe c :
  query_safe (Url.hex_digit (PyStr.ord c / 16)) = true /\
  query_safe (Url.hex_digit (PyStr.ord c mod 16)) = true.
Proof. destruct c as [[] [] [] [] [] [] [] []]; split; reflexivity. Qed.

Lemma quote_plus_safe s : string_forall query_safe (Url.quote_plus s) = true.
Proof.
  induction s as [|c r IH]; [done|].
  change (Url.quote_plus (String c r))
    with (if Url.unreserved c then String c (Url.quote_plus r)
          else if Ascii.eqb c " " then String "+" (Url.quote_plus r)
          else String "%" (String (Url.hex_digit (PyStr.ord c / 16))
                 (String (Url.hex_digit (PyStr.ord c mod 16)) (Url.quote_plus r)))).
  destruct (Url.unreserved c) eqn:Hu; [|destruct (Ascii.eqb c " ")];
    cbn [string_forall]; rewrite IH.
  - unfold query_safe. by rewrite Hu.
  - reflexivity.
  - destruct (hex_digits_safe c) as [-> ->]. reflexivity.
Qed.

(** The first requests: one for every comma-separated piece of the
    keyword attribute that is not blank, in order, each carrying the
    stripped piece as its keyword, the fixed source name and no offset,
    and asking the search API for offset 0 with the keyword encoded so
    that only letters, digits and [_.-~+%] stand in the query; no
    attribute, or an empty one, gives no request. *)
Theorem cnn_start_requests_per_keyword :
  CNN.start_requests None = [] /\
  CNN.start_requests (Some EmptyString) = [] /\
  forall kw,
    map (fun r => CNN.keyword (CNN.req_meta r)) (CNN.start_requests (Some kw))
      = List.filter PyStr.truthy (map PyStr.strip (PyStr.split_on "," kw)) /\
    Forall (fun r =>
              CNN.callback r = CNN.ParseSearch /\
              CNN.source (CNN.req_meta r) = "cnnindonesia.com" /\
              CNN.start (CNN.req_meta r) = None /\
              stripped (CNN.keyword (CNN.req_meta r)) /\
              CNN.url r = CNN.search_url_for
                            (Url.quote_plus (CNN.keyword (CNN.req_meta r))) 0 /\
              string_forall query_safe (Url.quote_plus (CNN.keyword (CNN.req_meta r)))
                = true)
           (CNN.start_requests (Some kw)).
Proof.
  split; [done|]. split; [done|]. intros kw.
  unfold CNN.start_requests.
  destruct (PyStr.truthy kw) eqn:Hkw.
  - generalize (PyStr.split_on "," kw). intros pieces. split.
    + induction pieces as [|p ps IH]; simpl; [done|].
      destruct (PyStr.truthy (PyStr.strip p)); simpl; by rewrite IH.
    + induction pieces as [|p ps IH]; simpl; [constructor|].
      destruct (PyStr.truthy (PyStr.strip p)) eqn:Hp; simpl; [|exact IH].
      constructor; [|exact IH]. simpl.
      repeat split; try done; [apply strip_idem | apply quote_plus_safe].
  - destruct kw; [|discriminate]. split; [done | constructor].
Qed.

Lemma article_requests_spec meta hits :
  article_urls (CNN.yielded date (CNN.article_requests date meta hits))
  = accepted_prefix (hit_urls (CNN.Json hits)) /\
  CNN.raised date (CNN.article_requests date meta hits)
  = (fun u => "Missing scheme in request url: " +:+ u)
      <$> first_refused (hit_urls (CNN.Json hits)) /\
  Forall (fun o => exists r, o = CNN.Request r /\ CNN.req_meta r = meta)
         (CNN.yielded date (CNN.article_requests date meta hits)).
Proof.
  induction hits as [|h l IH]; [by repeat split|].
  destruct h as [u|]; [|exact IH].
  simpl. destruct (PyStr.truthy u); [|exact IH].
  unfold CNN.scrapy_request, first_refused. simpl.
  destruct (CNN.has_scheme u); simpl; [|by repeat split].
  destruct IH as (IH1 & IH2 & IH3).
  split; [by f_equal|]. split; [exact IH2|].
  constructor; [by eexists | exact IH3].
Qed.

(** Whatever [parse_search] yields is a request that carries the keyword
    and the source of the response and the offset of the response plus
    ten.  The article requests are the hits that have a non-empty [url],
    in the order of the answer, up to the first [url] without a scheme:
    there the callback raises [ValueError] and the hits after it are
    lost; it raises in no other case.  A next-page request is there
    exactly when the answer has a hit at all, with or without a usable
    [url]: it is yielded before any article request. *)
Theorem cnn_parse_search_keeps_context (response : CNN.search_response) :
  let g := CNN.parse_search date response in
  let out := CNN.yielded date g in
  let urls := hit_urls (CNN.search_body_of response) in
  Forall (fun o =>
            exists r, o = CNN.Request r /\
              CNN.keyword (CNN.req_meta r) = CNN.keyword (CNN.search_meta response) /\
              CNN.source (CNN.req_meta r) = CNN.source (CNN.search_meta response) /\
              CNN.start (CNN.req_meta r)
                = Some (default 0 (CNN.start (CNN.search_meta response)) + 10)%Z)
         out /\
  article_urls out = accepted_prefix urls /\
  CNN.raised date g
  = (fun u => "Missing scheme in request url: " +:+ u) <$> first_refused urls /\
  (is_Some (CNN.next_page date out) <->
   exists hit hits, CNN.search_body_of response = CNN.Json (hit :: hits)).
Proof.
  cbv zeta. unfold CNN.parse_search.
  destruct (CNN.search_body_of response) as [|[|hit hits]] eqn:Eb.
  - split; [constructor|]. split; [done|]. split; [done|].
    split; [by intros [? ?] | by intros (? & ? & ?)].
  - split; [constructor|]. split; [done|]. split; [done|].
    split; [by intros [? ?] | by intros (? & ? & ?)].
  - match goal with |- context [CNN.article_requests date ?m ?l] =>
      destruct (article_requests_spec m l) as (H1 & H2 & H3) end.
    split; [|split; [|split]].
    + constructor; [eexists; repeat split|].
      eapply Forall_impl; [exact H3|].
      intros o (r & -> & Hm). exists r. rewrite Hm. repeat split.
    + exact H1.
    + exact H2.
    + split; [eauto | intros _; simpl; eauto].
Qed.

Lemma page_chain_offsets n : forall req i r,
  page_chain n req !! i = Some r ->
  CNN.keyword (CNN.req_meta r) = CNN.keyword (CNN.req_meta req) /\
  CNN.source (CNN.req_meta r) = CNN.source (CNN.req_meta req) /\
  (0 < i -> CNN.callback r = CNN.ParseSearch /\
            CNN.start (CNN.req_meta r)
              = Some (default 0 (CNN.start (CNN.req_meta req)) + 10 * Z.of_nat i)%Z)%nat.
Proof.
  induction n as [|n IH]; intros req i r; simpl.
  - destruct i as [|i]; [|done]. intros [= <-]. repeat split; lia.
  - destruct i as [|i]; [intros [= <-]; repeat split; lia|].
    simpl. intros Hr. destruct (IH _ _ _ Hr) as (H1 & H2 & H3).
    split; [done|]. split; [done|]. intros _.
    destruct i as [|i].
    + assert (r = page_request_after req) as ->.
      { destruct n; simpl in Hr; congruence. }
      simpl. split; [done|]. f_equal; lia.
    + destruct H3 as [H3 H4]; [lia|]. split; [done|]. rewrite H4. simpl. f_equal; lia.
Qed.

(** Whatever the source serves, the page requests of one search are a
    chain: each is the one [parse_search] yields for the page before. *)
Lemma paginate_is_chain served : forall req,
  exists n, (n <= length served)%nat /\
            (CNN.paginate date served req).1 = page_chain n req.
Proof.
  induction served as [|body later IH]; intros req.
  - exists 0%nat. by split.
  - destruct body as [|[|hit hits]].
    + exists 0%nat. split; [simpl; lia | reflexivity].
    + exists 0%nat. split; [simpl; lia | reflexivity].
    + destruct (IH (page_request_after req)) as (n & Hn & H).
      exists (S n). split; [simpl; lia|].
      change (CNN.paginate date (CNN.Json (hit :: hits) :: later) req)
        with (let '(reqs, stopped) :=
                CNN.paginate date later (page_request_after req) in
              (req :: reqs, stopped)).
      destruct (CNN.paginate date later (page_request_after req)) as [reqs stopped].
      simpl in *. by rewrite H.
Qed.

(** Whatever the search API serves, along the page requests the spider
    issues for one search the keyword and the source never change and the
    offset grows by ten a page: the [i]-th request after the first is a
    search request for offset [10 * i] beyond the first one's. *)
Theorem cnn_page_chain_offsets served req i r :
  (CNN.paginate date served req).1 !! i = Some r ->
  CNN.keyword (CNN.req_meta r) = CNN.keyword (CNN.req_meta req) /\
  CNN.source (CNN.req_meta r) = CNN.source (CNN.req_meta req) /\
  (0 < i -> CNN.callback r = CNN.ParseSearch /\
            CNN.start (CNN.req_meta r)
              = Some (default 0 (CNN.start (CNN.req_meta req)) + 10 * Z.of_nat i)%Z)%nat.
Proof.
  destruct (paginate_is_chain served req) as (n & _ & ->).
  apply page_chain_offsets.
Qed.
End CnnMore.

Section CnnParse.
Variable date : Type.
Variable indo_to_datetime : string -> py date.

Lemma rstrip_keeps_prefix p : forall s,
  string_forall (fun c => negb (PyStr.isspace c)) p = true ->
  PyStr.startswith p s = true -> PyStr.startswith p (PyStr.rstrip s) = true.
Proof.
  induction p as [|a p IH]; intros s; [done|].
  destruct s as [|b s]; [done|]. simpl.
  intros [Ha Hp]%andb_prop [Hab Hs]%andb_prop.
  apply Ascii.eqb_eq in Hab. subst b.
  apply negb_true_iff in Ha. rewrite Ha. simpl.
  by rewrite Ascii.eqb_refl, IH.
Qed.

Lemma content_block_starts_with_judul body :
  PyStr.startswith "judul:" (PyStr.strip (CNN.nl +:+ "judul: " +:+ body)) = true.
Proof.
  unfold PyStr.strip.
  change (PyStr.lstrip (CNN.nl +:+ "judul: " +:+ body)) with ("judul: " +:+ body).
  by apply rstrip_keeps_prefix.
Qed.

(** What [parse] yields, when it returns, is at most one output.  A
    request is the follow-up of a [location] header: to that target,
    which has a scheme, for [parse] again, with the [meta] of the
    response.  An item comes only from a page without that header and
    with the text container; it carries the URL of the response, the
    keyword and source of its [meta], the [h1] text as title, and a
    content block that begins with "judul:", so that the content of an
    item is never empty.  Nothing is yielded exactly when there is
    neither header nor container.  [parse] raises in three cases: the
    header is not UTF-8, its target has no scheme, or the date helper
    raises on a page with the container. *)
Theorem cnn_parse_outputs (response : CNN.page_response) :
  match CNN.parse date indo_to_datetime response with
  | Ok out =>
      (length out <= 1)%nat /\
      (forall r, CNN.Request r ∈ out ->
         CNN.location response = Some (Ok (CNN.url r)) /\
         CNN.has_scheme (CNN.url r) = true /\
         CNN.callback r = CNN.Parse /\
         CNN.req_meta r = CNN.page_meta response) /\
      (forall item, CNN.Item item ∈ out ->
         CNN.location response = None /\
         is_Some (CNN.detail_text (CNN.page response)) /\
         CNN.item_link date item = CNN.page_url response /\
         CNN.item_keyword date item = CNN.keyword (CNN.page_meta response) /\
         CNN.item_source date item = CNN.source (CNN.page_meta response) /\
         CNN.item_title date item = default EmptyString (CNN.h1 (CNN.page response)) /\
         PyStr.startswith "judul:" (CNN.item_content date item) = true /\
         PyStr.truthy (CNN.item_content date item) = true) /\
      (out = [] <->
       CNN.location response = None /\ CNN.detail_text (CNN.page response) = None)
  | Raise msg =>
      CNN.location response = Some (Raise msg) \/
      (exists target,
         CNN.location response = Some (Ok target) /\
         CNN.has_scheme target = false /\
         msg = "Missing scheme in request url: " +:+ target) \/
      (CNN.location response = None /\
       is_Some (CNN.detail_text (CNN.page response)) /\
       indo_to_datetime (default EmptyString (CNN.date_div (CNN.page response)))
         = Raise msg)
  end.
Proof.
  unfold CNN.parse, CNN.scrapy_request.
  destruct (CNN.location response) as [[target|e]|] eqn:Hl; simpl.
  - destruct (CNN.has_scheme target) eqn:Hs; simpl.
    + split; [done|]. split.
      { intros r [[= ->]|Hr]%elem_of_cons; [done | inversion Hr]. }
      split; [intros item [[=]|Hr]%elem_of_cons; inversion Hr|].
      split; [done | by intros [? _]].
    + right. left. by exists target.
  - by left.
  - destruct (CNN.detail_text (CNN.page response)) as [text|] eqn:Ht; simpl.
    + destruct (indo_to_datetime _) as [parsed|msg] eqn:Hd; simpl;
        [|right; right; eauto].
      split; [done|]. split; [intros r [[=]|Hr]%elem_of_cons; inversion Hr|].
      split; [|split; [done | by intros [_ ?]]].
      intros item [[= ->]|Hr]%elem_of_cons; [|inversion Hr]. simpl.
      pose proof (content_block_starts_with_judul
        (default EmptyString (CNN.h1 (CNN.page response)) +:+ CNN.nl +:+
         "author: " +:+ default EmptyString (CNN.author_div (CNN.page response)) +:+
         CNN.nl +:+ "tanggal: " +:+
         default EmptyString (CNN.date_div (CNN.page response)) +:+ CNN.nl +:+
         PyStr.strip text +:+ CNN.nl)) as Hj.
      repeat split; eauto.
    + split; [simpl; lia|]. split; [intros r Hr; inversion Hr|].
      split; [intros i Hi; inversion Hi | done].
Qed.
End CnnParse.

(** ** More on the Mongabay spider *)

Section MongabayMore.
Variable urljoin : string -> string -> string.
Variable date : Type.
Variable datetime : Type.
Variable indo_to_datetime : string -> py (option date).
Variable string_to_datetime : string -> py (option datetime).
Variable strftime : datetime -> string.

(** The first requests: for every comma-separated piece of the keyword
    attribute that is not blank, in order, the GraphQL request and then
    the request for the first rendered search page, both carrying the
    stripped piece as keyword and the fixed source name; only the second
    is rendered with Playwright; neither carries an override.  No
    attribute, or an empty one, gives no request. *)
Theorem mongabay_start_requests_in_pairs :
  Mongabay.start_requests None = [] /\
  Mongabay.start_requests (Some EmptyString) = [] /\
  forall kw,
    map (fun r => (Mongabay.callback r, Mongabay.keyword (Mongabay.req_meta r)))
        (Mongabay.start_requests (Some kw))
      = flat_map (fun k => [(Mongabay.ParseGraphql, Some k); (Mongabay.ParseSearch, Some k)])
          (List.filter PyStr.truthy (map PyStr.strip (PyStr.split_on "," kw))) /\
    Forall (fun r =>
              Mongabay.source (Mongabay.req_meta r) = Some "mongabay.co.id" /\
              Mongabay.publish_date_override (Mongabay.req_meta r) = None /\
              Mongabay.author_override (Mongabay.req_meta r) = None /\
              (Mongabay.playwright (Mongabay.req_meta r) = true <->
               Mongabay.callback r = Mongabay.ParseSearch) /\
              (Mongabay.callback r = Mongabay.ParseSearch ->
               exists k, Mongabay.keyword (Mongabay.req_meta r) = Some k /\
                 Mongabay.url r
                   = "https://www.mongabay.co.id/page/1?s=" +:+ Url.quote_plus k))
           (Mongabay.start_requests (Some kw)).
Proof.
  split; [done|]. split; [done|]. intros kw.
  unfold Mongabay.start_requests.
  destruct (PyStr.truthy kw) eqn:Hkw; simpl.
  - generalize (PyStr.split_on "," kw). intros pieces. split.
    + induction pieces as [|p ps IH]; simpl; [done|].
      destruct (PyStr.truthy (PyStr.strip p)); simpl; by rewrite ?IH.
    + induction pieces as [|p ps IH]; simpl; [constructor|].
      destruct (PyStr.truthy (PyStr.strip p)) eqn:Hp; simpl; [|exact IH].
      constructor; [|constructor; [|exact IH]]; simpl; repeat split; try done.
      intros _. eauto.
  - destruct kw; [|discriminate]. split; [done | constructor].
Qed.

(** A GraphQL answer gives one request per edge that has a non-empty
    link, in the order of the edges, and nothing else.  The request of
    an edge is for [parse], never for a result page, to the link of that
    edge joined with the URL of the response; it carries the keyword and
    source of the search and, as overrides, the date of that edge's node
    and the first name of its byline.  An answer that is not JSON gives
    nothing. *)
Theorem mongabay_graphql_one_request_per_link (response : Mongabay.graph_response) :
  let out := Mongabay.parse_graphql urljoin date response in
  (Mongabay.graph_body_of response = Mongabay.NotJson -> out = []) /\
  (forall edges, Mongabay.graph_body_of response = Mongabay.Edges edges ->
     Forall2
       (fun edge o =>
          exists n l,
            edge = Some n /\ Mongabay.node_link n = Some l /\ PyStr.truthy l = true /\
            o = Mongabay.Request
                  {| Mongabay.url := urljoin (Mongabay.graph_url response) l;
                     Mongabay.callback := Mongabay.Parse;
                     Mongabay.req_meta :=
                       {| Mongabay.keyword := Mongabay.keyword (Mongabay.graph_meta response);
                          Mongabay.source := Mongabay.source (Mongabay.graph_meta response);
                          Mongabay.publish_date_override := Mongabay.node_date n;
                          Mongabay.author_override :=
                            match Mongabay.byline_names n with
                            | Some (first :: _) => first
                            | _ => None
                            end;
                          Mongabay.playwright := false |} |})
       (List.filter has_link edges) out).
Proof.
  cbv zeta. unfold Mongabay.parse_graphql.
  destruct (Mongabay.graph_body_of response) as [|edges] eqn:Eb.
  - split; [done|]. intros ? [=].
  - split; [done|]. intros ? [= <-]. clear Eb.
    induction edges as [|e es IH]; simpl; [constructor|].
    destruct e as [[[l|] dt names]|]; simpl; try exact IH.
    destruct (PyStr.truthy l) eqn:Hl; simpl; [|exact IH].
    constructor; [|exact IH].
    eexists _, l. repeat split; done.
Qed.


(** What an article page yields carries the URL of the response and the
    keyword and source of its [meta].  The author is the override of the
    [meta] when that is a non-empty string, and the author read off the
    page otherwise.  The date read off the page wins over the override;
    without a page date and without a non-empty override the item has no
    date; with only the override, the item has the override reformatted,
    or the override as it stands when the date helper raises on it. *)
Theorem mongabay_parse_overrides (response : Mongabay.page_response) item :
  Mongabay.Item item
    ∈ Mongabay.parse date datetime indo_to_datetime string_to_datetime strftime response ->
  let m := Mongabay.page_meta response in
  let page := Mongabay.page response in
  Mongabay.item_link date item = Mongabay.page_url response /\
  Mongabay.item_keyword date item = Mongabay.keyword m /\
  Mongabay.item_source date item = Mongabay.source m /\
  Mongabay.item_author date item
    = (if truthy_opt_str (Mongabay.author_override m)
       then default EmptyString (Mongabay.author_override m)
       else default EmptyString (PyStr.strip <$> Mongabay.meta_a page)) /\
  Mongabay.item_publish_date date item
    = match page_date indo_to_datetime page with
      | Some d => Some (Mongabay.Parsed date d)
      | None =>
          if truthy_opt_str (Mongabay.publish_date_override m)
          then match string_to_datetime
                       (default EmptyString (Mongabay.publish_date_override m)) with
               | Ok (Some dt) => Some (Mongabay.Text date (strftime dt))
               | Ok None => None
               | Raise _ =>
                   Some (Mongabay.Text date
                           (default EmptyString (Mongabay.publish_date_override m)))
               end
          else None
      end.
Proof.
  unfold Mongabay.parse, page_date, truthy_opt_str.
  destruct (negb _ && negb _); [by inversion 1|].
  intros [[= ->]|Hin]%elem_of_cons; [|inversion Hin]. simpl.
  repeat split.
  - destruct (Mongabay.author_override _) as [a|]; simpl;
      [destruct (PyStr.truthy a); simpl; [done|]|];
      by destruct (Mongabay.meta_a _).
  - destruct (Mongabay.meta_own_text _) as [t|]; simpl;
      [destruct (Mongabay.last_three _) as [ds|]; simpl;
       [destruct (indo_to_datetime ds) as [[dv|]|msg]; simpl|]|];
      destruct (Mongabay.publish_date_override _) as [o|]; simpl; try done;
      destruct (PyStr.truthy o); simpl; done.
Qed.
End MongabayMore.

(** ** The text normal form of the preparation scripts *)

Section TextNormalForm.
Import PyStr PyRe.

Ltac by_char c := destruct c as [[] [] [] [] [] [] [] []]; done.

Lemma string_forall_impl (p q : ascii -> bool) s :
  (forall c, p c = true -> q c = true) ->
  string_forall p s = true -> string_forall q s = true.
Proof.
  intros Hpq. induction s as [|c r IH]; simpl; [done|].
  intros [Hc Hr]%andb_prop. by rewrite (Hpq c Hc), IH.
Qed.

Lemma string_forall_lstrip p s :
  string_forall p s = true -> string_forall p (lstrip s) = true.
Proof.
  induction s as [|c r IH]; simpl; [done|].
  intros H. destruct (isspace c); [|done].
  apply andb_prop in H as [_ H]. by apply IH.
Qed.

Lemma string_forall_rstrip p s :
  string_forall p s = true -> string_forall p (rstrip s) = true.
Proof.
  induction s as [|c r IH]; simpl; [done|].
  intros [Hc Hr]%andb_prop.
  destruct (isspace c && negb (truthy (rstrip r))); simpl; [done|].
  by rewrite Hc, IH.
Qed.

Lemma string_forall_strip p s :
  string_forall p s = true -> string_forall p (strip s) = true.
Proof. intros H. by apply string_forall_rstrip, string_forall_lstrip. Qed.

Lemma keep_fixed cls s : string_forall cls s = true -> keep cls s = s.
Proof.
  induction s as [|c r IH]; simpl; [done|].
  intros [Hc Hr]%andb_prop. by rewrite Hc, IH.
Qed.

Lemma keep_forall cls s : string_forall cls (keep cls s) = true.
Proof.
  induction s as [|c r IH]; simpl; [done|].
  destruct (cls c) eqn:Hc; simpl; [by rewrite Hc|done].
Qed.

Lemma lower_fixed s :
  string_forall lower_digit_or_space s = true -> lower s = s.
Proof.
  induction s as [|c r IH]; simpl; [done|].
  intros [Hc Hr]%andb_prop. rewrite IH by done. f_equal.
  revert Hc. by_char c.
Qed.

(** What [re.sub(r'\s+', ' ', s)] returns is single-spaced ... *)
Lemma collapse_single_spaced s :
  single_spaced_from true (collapse_from true s) = true /\
  single_spaced_from false (collapse_from false s) = true.
Proof.
  induction s as [|c r [IH1 IH2]]; simpl; [done|].
  destruct (isspace c) eqn:Hc; simpl; [done|].
  by rewrite Hc.
Qed.

(** ... and a single-spaced string is left as it is. *)
Lemma collapse_fixed s :
  (single_spaced_from true s = true -> collapse_from true s = s) /\
  (single_spaced_from false s = true -> collapse_from false s = s).
Proof.
  induction s as [|c r [IH1 IH2]]; simpl; [done|].
  destruct (isspace c) eqn:Hc.
  - split; intros H.
    + apply andb_prop in H as [H _]. apply andb_prop in H as [_ H]. discriminate.
    + apply andb_prop in H as [H Hr]. apply andb_prop in H as [H _].
      apply Ascii.eqb_eq in H as ->. by rewrite IH1.
  - split; intros H; by rewrite IH2.
Qed.

Lemma single_spaced_lstrip b s :
  single_spaced_from b s = true -> single_spaced_from false (lstrip s) = true.
Proof.
  revert b. induction s as [|c r IH]; intros b; simpl; [done|].
  destruct (isspace c) eqn:Hc.
  - intros [_ H]%andb_prop. by apply (IH true).
  - simpl. by rewrite Hc.
Qed.

Lemma single_spaced_rstrip s : forall b,
  single_spaced_from b s = true -> single_spaced_from b (rstrip s) = true.
Proof.
  induction s as [|c r IH]; intros b; simpl; [done|].
  destruct (isspace c && negb (truthy (rstrip r))); simpl; [done|].
  destruct (isspace c).
  - intros [H Hr]%andb_prop. by rewrite H, IH.
  - apply IH.
Qed.

Lemma single_spaced_strip_collapse s :
  single_spaced (strip (collapse s)) = true.
Proof.
  apply single_spaced_rstrip, (single_spaced_lstrip false), collapse_single_spaced.
Qed.

Lemma collapse_forall (q : ascii -> bool) s : forall b,
  q " "%char = true ->
  string_forall (fun c => isspace c || q c) s = true ->
  string_forall q (collapse_from b s) = true.
Proof.
  induction s as [|c r IH]; intros b Hq; simpl; [done|].
  intros [Hc Hr]%andb_prop.
  destruct (isspace c) eqn:Es.
  - destruct b; simpl; [|rewrite Hq; simpl]; by apply IH.
  - simpl in Hc. simpl. rewrite Hc. simpl. by apply IH.
Qed.

Lemma lower_forall s :
  string_forall (fun c => negb (isupper c)) (lower s) = true.
Proof.
  induction s as [|c r IH]; simpl; [done|]. rewrite IH, andb_true_r. by_char c.
Qed.

Lemma keep_forall_both (cls q : ascii -> bool) s :
  string_forall q s = true ->
  string_forall (fun c => cls c && q c) (keep cls s) = true.
Proof.
  induction s as [|c r IH]; simpl; [done|].
  intros [Hc Hr]%andb_prop.
  destruct (cls c) eqn:E; simpl; [|by apply IH].
  by rewrite E, Hc, IH.
Qed.

(** What [preprocess_text] returns holds lower-case letters and single
    spaces only, no space at either end, and is left as it is when it is
    preprocessed again. *)
Theorem preprocess_text_normal_form text :
  let out := RfPipeline.preprocess_text text in
  string_forall lower_or_space out = true /\
  single_spaced out = true /\
  strip out = out /\
  RfPipeline.preprocess_text (Some out) = out.
Proof.
  destruct text as [t|]; [|done]. simpl.
  set (cls := fun c => isalpha c || isspace c).
  set (k := keep cls (lower t)).
  assert (Hk : string_forall (fun c => isspace c || lower_or_space c) k = true).
  { apply (string_forall_impl (fun c => cls c && negb (isupper c))).
    - intros c. unfold cls. by_char c.
    - apply keep_forall_both, lower_forall. }
  assert (Hchars : string_forall lower_or_space (strip (collapse k)) = true).
  { by apply string_forall_strip, collapse_forall. }
  pose proof (single_spaced_strip_collapse k) as Hsp.
  split; [done|]. split; [done|]. split; [apply strip_idem|].
  rewrite lower_fixed.
  2:{ revert Hchars. apply string_forall_impl. intros c. by_char c. }
  fold cls. rewrite (keep_fixed cls).
  2:{ revert Hchars. apply string_forall_impl. intros c. unfold cls. by_char c. }
  unfold collapse at 1. rewrite (proj2 (collapse_fixed _) Hsp).
  apply strip_idem.
Qed.

(** Whatever the HTML parser returns for the filtered text, what
    [clean_content] returns is single-spaced and has no blank at either
    end. *)
Theorem clean_content_is_single_spaced (get_text : string -> string) content :
  let out := RegexPy.clean_content get_text content in
  single_spaced out = true /\ strip out = out.
Proof.
  split; [apply single_spaced_strip_collapse | apply strip_idem].
Qed.

(** When the HTML parser hands back a text without markup as it is,
    [clean_content] returns lower-case letters, digits and single spaces
    only, and cleaning its result again changes nothing. *)
Theorem clean_content_idempotent (get_text : string -> string) content :
  (forall s, string_forall alnum_or_blank s = true -> get_text s = s) ->
  let out := RegexPy.clean_content get_text content in
  string_forall lower_digit_or_space out = true /\
  RegexPy.clean_content get_text out = out.
Proof.
  intros Hget. unfold RegexPy.clean_content.
  set (cls := fun c => isalpha c || isdigit c || isspace c).
  set (k := keep cls (lower content)).
  assert (Hboth : string_forall (fun c => cls c && negb (isupper c)) k = true).
  { apply keep_forall_both, lower_forall. }
  rewrite (Hget k).
  2:{ revert Hboth. apply string_forall_impl. intros c. unfold cls. by_char c. }
  assert (Hchars : string_forall lower_digit_or_space (strip (collapse k)) = true).
  { apply string_forall_strip, collapse_forall; [done|].
    revert Hboth. apply string_forall_impl. intros c. unfold cls. by_char c. }
  pose proof (single_spaced_strip_collapse k) as Hsp.
  cbv zeta. split; [done|].
  rewrite lower_fixed by done.
  fold cls. rewrite (keep_fixed cls).
  2:{ revert Hchars. apply string_forall_impl. intros c. unfold cls. by_char c. }
  rewrite Hget.
  2:{ revert Hchars. apply string_forall_impl. intros c. by_char c. }
  unfold collapse at 1. rewrite (proj2 (collapse_fixed _) Hsp).
  apply strip_idem.
Qed.

(** A row is kept exactly when the disaster of the file name is one of
    the six known words and that word and the location of the file name
    both occur in the content. *)
Theorem verify_content_iff content (m : RegexPy.metadata) :
  RegexPy.verify_content content m = true <->
  RegexPy.disaster_of m ∈ RegexPy.disaster /\
  contains (RegexPy.disaster_of m) content = true /\
  contains (RegexPy.location m) content = true.
Proof.
  unfold RegexPy.verify_content. rewrite andb_true_iff, existsb_exists.
  split.
  - intros [(d & [Hd He]%filter_In & Hc) Hl].
    apply String.eqb_eq in He as ->.
    by rewrite list_elem_of_In.
  - intros (Hd & Hc & Hl). split; [|done].
    exists (RegexPy.disaster_of m). split; [|done].
    apply filter_In. split; [by apply list_elem_of_In | apply String.eqb_refl].
Qed.

Lemma startswith_split p : forall s,
  startswith p s = true -> exists rest, s = p +:+ rest.
Proof.
  induction p as [|a p IH]; intros s; simpl; [by exists s|].
  destruct s as [|b s]; [discriminate|].
  intros [Hab Hp]%andb_prop. apply Ascii.eqb_eq in Hab as ->.
  destruct (IH _ Hp) as [rest ->]. by exists rest.
Qed.

Lemma contains_app_sub a b s :
  contains (a +:+ b) s = true -> contains b s = true.
Proof.
  induction s as [|c r IH].
  - simpl. rewrite orb_false_r. intros [rest E]%startswith_split.
    destruct a, b; simpl in E; done.
  - change (contains (a +:+ b) (String c r))
      with (startswith (a +:+ b) (String c r) || contains (a +:+ b) r).
    intros [Hs|Hr]%orb_prop.
    + apply startswith_split in Hs as [rest ->].
      rewrite append_assoc_str. apply contains_app_r, contains_prefix.
    + change (contains b (String c r))
        with (startswith b (String c r) || contains b r).
      rewrite (IH Hr). apply orb_true_r.
Qed.

(** The label is one of three.  A text with [selamat] is never labelled
    positive, a positive text holds [aman] or [berhasil], and a text
    with [ancaman] -- which holds [aman] -- is negative. *)
Theorem sentiment_label_cases text :
  let label := RfPipeline.label_sentiment_rule_based text in
  (label = "Negative" \/ label = "Neutral" \/ label = "Positive") /\
  (contains "selamat" text = true -> label <> "Positive") /\
  (label = "Positive" ->
   contains "aman" text = true \/ contains "berhasil" text = true) /\
  (contains "ancaman" text = true ->
   label = "Negative" /\ contains "aman" text = true).
Proof.
  assert (Ha : contains "ancaman" text = true -> contains "aman" text = true)
    by apply (contains_app_sub "anc" "aman").
  unfold RfPipeline.label_sentiment_rule_based.
  destruct (contains "ancaman" text), (contains "bahaya" text),
    (contains "waspada" text), (contains "bencana" text),
    (contains "siaga" text), (contains "antisipasi" text),
    (contains "selamat" text), (contains "aman" text),
    (contains "berhasil" text); simpl;
    repeat split; try (by auto); try (intros; discriminate).
Qed.
End TextNormalForm.

(** ** geocode.py: one answer per row *)

Section GeocodeScript.
Import PyStr LocationExtractor.

Variable nlp : string -> py (list entity).
Variable set_order : list string -> list string.
Variable repr : PreciseLocation.json -> string.
Variable findall_type_error : PreciseLocation.json -> string.

Lemma string_forall_app p a b :
  string_forall p (a +:+ b) = string_forall p a && string_forall p b.
Proof.
  induction a as [|c r IH]; [done|].
  change (string_forall p (String c (r +:+ b)) = p c && string_forall p r && string_forall p b).
  simpl. by rewrite IH, andb_assoc.
Qed.

Lemma split_from_words s : forall cur w,
  string_forall no_blank cur = true ->
  w ∈ split_from cur s ->
  truthy w = true /\ string_forall no_blank w = true.
Proof.
  induction s as [|c r IH]; intros cur w Hcur; simpl.
  - destruct (truthy cur) eqn:Ht; [|by inversion 1].
    by intros ->%list_elem_of_singleton.
  - destruct (isspace c) eqn:Hc.
    + destruct (truthy cur) eqn:Ht.
      * intros [->|Hin]%elem_of_cons; [done|]. by apply (IH EmptyString).
      * by apply (IH EmptyString).
    + apply IH. rewrite string_forall_app, Hcur. simpl.
      unfold no_blank. by rewrite Hc.
Qed.

Lemma no_blank_stripped w :
  truthy w = true -> string_forall no_blank w = true -> stripped w.
Proof.
  intros Ht Hw. split; [|done].
  assert (Hr : forall s, string_forall no_blank s = true -> rstrip s = s).
  { induction s as [|c r IH]; simpl; [done|].
    unfold no_blank at 1. intros [Hc Hs]%andb_prop.
    apply negb_true_iff in Hc. by rewrite Hc, IH. }
  unfold strip. destruct w as [|c r]; [done|].
  simpl in Hw. apply andb_prop in Hw as [Hc Hs].
  unfold no_blank in Hc. apply negb_true_iff in Hc.
  change (lstrip (String c r)) with (if isspace c then lstrip r else String c r).
  rewrite Hc. apply Hr. simpl. unfold no_blank at 1. by rewrite Hc.
Qed.

Lemma normalize_stripped s :
  truthy (strip s) = true -> stripped (normalize s).
Proof.
  intros Ht. unfold normalize. split.
  - by rewrite strip_title, strip_idem.
  - unfold title. by rewrite truthy_title_from.
Qed.

Lemma startswith_head a p c s :
  startswith (String a p) (String c s) = true -> c = a.
Proof. simpl. intros [H _]%andb_prop. apply Ascii.eqb_eq in H. done. Qed.

Lemma rule_based_match_truthy text m :
  m ∈ rule_based text -> truthy (strip m) = true.
Proof.
  intros (_ & kw & Hkw & Hs)%rule_based_match_spec.
  destruct m as [|c r].
  { apply list_elem_of_In in Hkw. simpl in Hkw.
    repeat (destruct Hkw as [<-|Hkw]; [discriminate|]). destruct Hkw. }
  assert (Hc : isspace c = false).
  { rewrite <- isspace_lower_char.
    apply list_elem_of_In in Hkw. simpl in Hkw.
    repeat (destruct Hkw as [<-|Hkw];
      [apply (startswith_head _ _ (lower_char c) (lower r)) in Hs; by rewrite Hs|]).
    destruct Hkw. }
  unfold strip. simpl. rewrite Hc. simpl. by rewrite Hc.
Qed.

(** The place handed to the geocoder is never empty and has no blank at
    either end, as long as the text cell holds a string and the
    recognizer names no blank place: it is the first extracted name, else
    the second word of the keyword, else [Bali]. *)
Theorem chosen_location_not_empty (r : GeocodePy.row) text ents :
  set_order_ok set_order ->
  GeocodePy.cleaned_content r = PreciseLocation.JStr text ->
  nlp text = Ok ents ->
  Forall (fun e => truthy (strip (ent_text e)) = true) (List.filter is_place ents) ->
  exists best,
    GeocodePy.choose_best_location nlp set_order repr findall_type_error r = Ok best /\
    stripped best.
Proof.
  intros Hok Htext Hnlp Hents.
  unfold GeocodePy.choose_best_location, extract_locations. rewrite Htext, Hnlp. simpl.
  set (cleaned := map normalize _).
  destruct (rank set_order cleaned) as [|first rest] eqn:E.
  - destruct (split _) as [|a [|k more]] eqn:Es.
    + exists "Bali". split; [done|]. by split.
    + exists "Bali". split; [done|]. by split.
    + exists k. split; [done|].
      assert (Hk : k ∈ split_from EmptyString
                     (strip (PreciseLocation.str repr (GeocodePy.keyword r)))).
      { fold (split (strip (PreciseLocation.str repr (GeocodePy.keyword r)))).
        rewrite Es. set_solver. }
      apply split_from_words in Hk as [Ht Hw]; [|done].
      by apply no_blank_stripped.
  - exists first. split; [done|].
    assert (Hin : first ∈ cleaned).
    { apply (rank_elem set_order cleaned first Hok). rewrite E. set_solver. }
    apply list_elem_of_fmap in Hin as (y & -> & Hy).
    apply normalize_stripped.
    apply elem_of_app in Hy as [Hy|Hy].
    + by apply (rule_based_match_truthy text).
    + apply list_elem_of_fmap in Hy as (e & -> & He).
      rewrite Forall_forall in Hents. by apply Hents.
Qed.

Lemma choose_best_location_raises r msg :
  GeocodePy.choose_best_location nlp set_order repr findall_type_error r = Raise msg ->
  match GeocodePy.cleaned_content r with
  | PreciseLocation.JStr text => nlp text = Raise msg
  | v => msg = findall_type_error v
  end.
Proof.
  unfold GeocodePy.choose_best_location, extract_locations.
  destruct (GeocodePy.cleaned_content r) as [| | | |text| |]; simpl;
    try (by intros [= <-]).
  destruct (nlp text) as [ents|e]; simpl.
  - destruct (rank _ _); [|done]. by destruct (split _) as [|a [|k more]].
  - by intros [= ->].
Qed.

(** The rate-limited geocoder of the script. *)
Variable geocode : string -> PreciseLocation.geo_result.

(** A run that comes to its end gives one answer per row, in the order
    of the rows: three [None]s, or the coordinate the geocoder gave for
    the chosen place together with that place's name (not the geocoder's
    address).  The loop stops early in two cases only: the text cell of a
    row is not a string (an empty cell is a NaN), which [pat.findall]
    refuses, or the recognizer raises on the text of a row. *)
Theorem geocode_rows_answers rows :
  match GeocodePy.process_rows nlp set_order geocode repr findall_type_error rows with
  | Ok answers =>
      Forall2
        (fun r a =>
           exists best,
             GeocodePy.choose_best_location nlp set_order repr findall_type_error r
               = Ok best /\
             match geocode (best +:+ ", Bali, Indonesia") with
             | PreciseLocation.Located lat lon _ => a = (Some lat, Some lon, Some best)
             | _ => a = PreciseLocation.miss
             end)
        rows answers
  | Raise msg =>
      exists r, r ∈ rows /\
        match GeocodePy.cleaned_content r with
        | PreciseLocation.JStr text => nlp text = Raise msg
        | v => msg = findall_type_error v
        end
  end.
Proof.
  induction rows as [|r rest IH]; simpl; [constructor|].
  destruct (GeocodePy.choose_best_location nlp set_order repr findall_type_error r)
    as [best|e] eqn:Ec;
    simpl.
  - destruct (GeocodePy.process_rows nlp set_order geocode repr findall_type_error rest)
      as [answers|e];
      simpl.
    + constructor; [|done]. exists best. split; [done|].
      unfold GeocodePy.geocode_location. by destruct (geocode _).
    + destruct IH as (r' & Hin & Hr'). exists r'. split; [set_solver|done].
  - exists r. split; [set_solver|]. by apply choose_best_location_raises.
Qed.
End GeocodeScript.

(** ** kepler.py: the records of a row *)

Section KeplerRecords.
Import PyStr.

Variable geocode : string -> PreciseLocation.geo_result.

Lemma fallback_lat_truthy k lat lon :
  KeplerPy.lookup k KeplerPy.fallback_coords = Some (lat, lon) ->
  KeplerPy.float_truthy lat = true.
Proof.
  unfold KeplerPy.fallback_coords. simpl.
  repeat (destruct (String.eqb k _); [by intros [= <- <-]|]).
  done.
Qed.

(** Every record carries the title and the disaster type of its row and
    names a place found in the row -- or the region, for a row without
    places -- and its coordinate is the geocoder's for that place or the
    centre of the region. *)
Theorem kepler_records_cite_row (r : KeplerPy.row) rec :
  rec ∈ KeplerPy.records_of geocode r ->
  KeplerPy.rec_title rec = KeplerPy.title r /\
  KeplerPy.rec_disaster_type rec = KeplerPy.disaster_type r /\
  match KeplerPy.all_locations r with
  | [] => KeplerPy.location_detected rec = lower (KeplerPy.location_name r)
  | _ :: _ => KeplerPy.location_detected rec ∈ KeplerPy.all_locations r
  end /\
  ((exists address,
      KeplerPy.all_locations r <> [] /\
      geocode (kepler_query r (KeplerPy.location_detected rec))
      = PreciseLocation.Located (KeplerPy.latitude rec) (KeplerPy.longitude rec) address) \/
   KeplerPy.lookup (lower (KeplerPy.location_name r)) KeplerPy.fallback_coords
   = Some (KeplerPy.latitude rec, KeplerPy.longitude rec)).
Proof.
  unfold KeplerPy.records_of.
  destruct (KeplerPy.all_locations r) as [|l0 ls] eqn:E.
  - destruct (KeplerPy.lookup _ _) as [[lat lon]|] eqn:El; [|by inversion 1].
    intros ->%list_elem_of_singleton. simpl. repeat split; try done. by right.
  - intros Hin. apply list_elem_of_In, in_flat_map in Hin as (loc & Hloc & Hin).
    apply list_elem_of_In in Hloc. apply list_elem_of_In in Hin.
    fold (kepler_query r loc) in Hin.
    destruct (geocode (kepler_query r loc)) as [lat lon address| |] eqn:Eg.
    + apply list_elem_of_singleton in Hin as ->. simpl.
      repeat split; try done. left. by exists address.
    + destruct (KeplerPy.lookup _ _) as [[lat lon]|] eqn:El; [|by inversion Hin].
      destruct (KeplerPy.float_truthy lat); [|by inversion Hin].
      apply list_elem_of_singleton in Hin as ->. simpl.
      repeat split; try done. by right.
    + by inversion Hin.
Qed.

(** For a row of one of the nine known regions no place is lost unless
    the geocoder raises on it: the records name the places of the row,
    one each and in their order, or the region when there is no place. *)
Theorem kepler_known_region_keeps_every_place (r : KeplerPy.row) centre :
  KeplerPy.lookup (lower (KeplerPy.location_name r)) KeplerPy.fallback_coords
  = Some centre ->
  (forall loc, loc ∈ KeplerPy.all_locations r ->
               geocode (kepler_query r loc) <> PreciseLocation.GeoRaise) ->
  map KeplerPy.location_detected (KeplerPy.records_of geocode r)
  = match KeplerPy.all_locations r with
    | [] => [lower (KeplerPy.location_name r)]
    | locs => locs
    end.
Proof.
  intros Hc Hg. unfold KeplerPy.records_of. rewrite Hc.
  destruct centre as [lat lon].
  pose proof (fallback_lat_truthy _ _ _ Hc) as Hlat. rewrite Hlat.
  destruct (KeplerPy.all_locations r) as [|l0 ls]; [done|].
  revert Hg. generalize (l0 :: ls). clear l0 ls. intros locs.
  induction locs as [|loc locs IH]; intros Hg; [done|].
  simpl. rewrite map_app, IH by (intros; apply Hg; set_solver). f_equal.
  fold (kepler_query r loc).
  specialize (Hg loc ltac:(set_solver)).
  by destruct (geocode (kepler_query r loc)).
Qed.

(** For a row of any other region only the places the geocoder finds
    give a record; a row without places gives none. *)
Theorem kepler_unknown_region_needs_geocoder (r : KeplerPy.row) :
  KeplerPy.lookup (lower (KeplerPy.location_name r)) KeplerPy.fallback_coords = None ->
  map KeplerPy.location_detected (KeplerPy.records_of geocode r)
  = List.filter (fun loc => is_located (geocode (kepler_query r loc)))
      (KeplerPy.all_locations r).
Proof.
  intros Hc. unfold KeplerPy.records_of. rewrite Hc.
  destruct (KeplerPy.all_locations r) as [|l0 ls]; [done|].
  generalize (l0 :: ls). clear l0 ls. intros locs.
  induction locs as [|loc locs IH]; [done|].
  simpl. rewrite map_app, IH. fold (kepler_query r loc).
  by destruct (geocode (kepler_query r loc)).
Qed.
End KeplerRecords.

(** ** Closed examples *)

(** A number as article text. *)
Lemma non_text_content_is_an_error_witness :
  PreciseLocation.errors
    (PreciseLocation.process_feature geocoder_none
       (extract_with LocationExtractor.first_seen) repr_blank
       PreciseLocation.initial_state number_feature).2 = 1%nat.
Proof.
  pose proof (non_text_content_is_an_error geocoder_none
                (extract_with LocationExtractor.first_seen) repr_blank
                PreciseLocation.initial_state number_feature
                ltac:(vm_compute; reflexivity)
                ltac:(intros s; vm_compute; discriminate)) as H.
  revert H.
  destruct (PreciseLocation.process_feature _ _ _ _ _) as [feature' st'].
  intros (_ & _ & He & _). exact He.
Defined.


(** A match of the village pattern. *)
Lemma rule_based_matches_are_quotes_witness :
  PyStr.contains "desa Ubud" "banjir di desa Ubud dan Kota Denpasar" = true.
Proof.
  refine (proj1 (rule_based_matches_are_quotes
                   "banjir di desa Ubud dan Kota Denpasar" "desa Ubud" _)).
  apply list_elem_of_In. vm_compute. left. reflexivity.
Defined.

(** A text in lower case. *)
Lemma extracted_places_are_normalized_witness :
  exists result,
    LocationExtractor.extract_locations no_entities LocationExtractor.first_seen
      "longsor di kota denpasar" = Ok result /\
    (forall x, x ∈ result -> LocationExtractor.normalize x = x).
Proof.
  destruct (extracted_places_are_normalized no_entities LocationExtractor.first_seen
              "longsor di kota denpasar" [] first_seen_ok eq_refl)
    as (result & H1 & H2 & _).
  exists result. split; [exact H1 | exact H2].
Defined.

(** A text that names one place twice. *)
Lemma top_place_is_most_frequent_witness :
  (1 <= PyStr.count "Kota Denpasar"
          (map LocationExtractor.normalize
             (LocationExtractor.rule_based "kota Denpasar, desa Ubud, KOTA DENPASAR" ++
              map LocationExtractor.ent_text (List.filter LocationExtractor.is_place []))))%nat.
Proof.
  refine (proj1 (top_place_is_most_frequent no_entities LocationExtractor.first_seen
                   "kota Denpasar, desa Ubud, KOTA DENPASAR" []
                   "Kota Denpasar" ["Desa Ubud"] first_seen_ok eq_refl _)).
  vm_compute. reflexivity.
Defined.

(** The third page request of a search whose first two pages have
    hits. *)
Lemma cnn_page_chain_offsets_witness :
  exists r,
    (CNN.paginate unit
       [CNN.Json [Some "https://a"]; CNN.Json [None]; CNN.Json []]
       sample_request).1 !! 2%nat = Some r /\
    CNN.start (CNN.req_meta r) = Some 30%Z.
Proof.
  eexists. split; [reflexivity|].
  refine (proj2 (proj2 (proj2
            (cnn_page_chain_offsets unit
               [CNN.Json [Some "https://a"]; CNN.Json [None]; CNN.Json []]
               sample_request 2 _ eq_refl)) _)).
  lia.
Defined.

(** An article page reached from the GraphQL answer. *)
Lemma mongabay_parse_overrides_witness :
  exists item,
    Mongabay.parse string string parse_ok parse_ok (fun s => s) override_page
    = [Mongabay.Item item] /\
    Mongabay.item_author string item = "Redaksi".
Proof.
  eexists. split; [reflexivity|].
  refine (proj1 (proj2 (proj2 (proj2
            (mongabay_parse_overrides string string parse_ok parse_ok (fun s => s)
               override_page _ _))))).
  apply list_elem_of_In. left. reflexivity.
Defined.

(** Cleaning twice, with a parser that returns plain text as it is. *)
Lemma clean_content_idempotent_witness :
  RegexPy.clean_content (fun s => s)
    (RegexPy.clean_content (fun s => s) "Banjir  di <b>Ubud</b>, 2024!")
  = RegexPy.clean_content (fun s => s) "Banjir  di <b>Ubud</b>, 2024!".
Proof.
  exact (proj2 (clean_content_idempotent (fun s => s) "Banjir  di <b>Ubud</b>, 2024!"
                  (fun s _ => eq_refl))).
Defined.

(** A row whose text names a village. *)
Lemma chosen_location_not_empty_witness :
  exists best,
    GeocodePy.choose_best_location no_entities LocationExtractor.first_seen repr_blank
      PreciseLocation.type_name ubud_row = Ok best /\
    stripped best.
Proof.
  exact (chosen_location_not_empty no_entities LocationExtractor.first_seen repr_blank
           PreciseLocation.type_name ubud_row "banjir di desa ubud" []
           first_seen_ok eq_refl eq_refl (List.Forall_nil _)).
Defined.

(** A row of Gianyar with two places, one of them known to the
    geocoder. *)
Lemma kepler_records_cite_row_witness :
  ubud_record
    ∈ KeplerPy.records_of
        (geocode_only "Ubud, gianyar, Bali, Indonesia" (-8.5)%float 115.25%float)
        gianyar_row /\
  KeplerPy.location_detected ubud_record ∈ KeplerPy.all_locations gianyar_row.
Proof.
  assert (H : ubud_record
                ∈ KeplerPy.records_of
                    (geocode_only "Ubud, gianyar, Bali, Indonesia" (-8.5)%float 115.25%float)
                    gianyar_row).
  { apply list_elem_of_In. left. reflexivity. }
  split; [exact H|].
  exact (proj1 (proj2 (proj2
           (kepler_records_cite_row
              (geocode_only "Ubud, gianyar, Bali, Indonesia" (-8.5)%float 115.25%float)
              gianyar_row ubud_record H)))).
Defined.

Lemma kepler_known_region_keeps_every_place_witness :
  map KeplerPy.location_detected
    (KeplerPy.records_of
       (geocode_only "Ubud, gianyar, Bali, Indonesia" (-8.5)%float 115.25%float)
       gianyar_row)
  = ["Ubud"; "Sukawati"].
Proof.
  refine (kepler_known_region_keeps_every_place
            (geocode_only "Ubud, gianyar, Bali, Indonesia" (-8.5)%float 115.25%float)
            gianyar_row _ eq_refl _).
  intros loc _. unfold geocode_only. destruct (String.eqb _ _); discriminate.
Defined.

(** A row of a region that is not in the table, with a place the
    geocoder does not know. *)
Lemma kepler_unknown_region_needs_geocoder_witness :
  map KeplerPy.location_detected
    (KeplerPy.records_of (fun _ => PreciseLocation.NoResult) lombok_row) = [].
Proof.
  exact (kepler_unknown_region_needs_geocoder (fun _ => PreciseLocation.NoResult)
           lombok_row eq_refl).
Defined.

(** A feature with [properties: null] between two sound ones: the run
    stops at it. *)
Lemma null_properties_end_the_run :
  PreciseLocation.process_json_features geocoder_none
    (extract_with LocationExtractor.first_seen) repr_blank
    PreciseLocation.initial_state [ubud_json; null_properties; ubud_json]
  = Raise "'NoneType' object does not support item assignment".
Proof. vm_compute. reflexivity. Qed.

(** A search answer whose second hit has a path for [url]: the next page
    and the first article are requested, the third hit is lost. *)
Lemma hit_without_scheme_loses_the_rest :
  let g :=
    CNN.parse_search unit
      {| CNN.search_url := CNN.url sample_request;
         CNN.search_meta := CNN.req_meta sample_request;
         CNN.search_body_of :=
           CNN.Json [Some "https://www.cnnindonesia.com/a"; Some "/b";
                     Some "https://www.cnnindonesia.com/c"] |} in
  is_Some (CNN.next_page unit (CNN.yielded unit g)) /\
  article_urls (CNN.yielded unit g) = ["https://www.cnnindonesia.com/a"] /\
  CNN.raised unit g = Some "Missing scheme in request url: /b".
Proof. cbv zeta. split; [by eexists | split; reflexivity]. Qed.

(** An empty text cell, a NaN, in the second row: [geocode.py] stops
    there. *)
Lemma empty_cell_ends_the_script :
  GeocodePy.process_rows no_entities LocationExtractor.first_seen
    (fun _ => PreciseLocation.NoResult) repr_blank
    (fun v => "expected string or bytes-like object, got '" +:+
              PreciseLocation.type_name v +:+ "'")
    [ubud_row;
     {| GeocodePy.cleaned_content := PreciseLocation.JFloat nan;
        GeocodePy.keyword := PreciseLocation.JStr "banjir gianyar" |}]
  = Raise "expected string or bytes-like object, got 'float'".
Proof. vm_compute. reflexivity. Qed.
